(** * EventHub: seat allocation, waitlist promotion and event status

    A shallow embedding of the seat-allocation core of the EventHub
    application and the proofs of its specification.

    Embedded source files:
    - [app/models.py]                         ([Event], [Registration])
    - [app/participant/routes.py]             ([register_event], [cancel_registration])
    - [app/services/registration_service.py]  ([RegistrationService])
    - [app/services/waitlist_service.py]      ([promote_from_waitlist], [_atomic_promote])
    - [app/services/event_service.py]         ([EventService.update_event],
                                               [create_event], [delete_event],
                                               [toggle_event_status])
    - [app/services/event_status_service.py]  ([update_event_status])
    - [app/utils/firestore_sync.py]           ([_sqlite_update_event_status])
    - [app/organizer/routes.py]               ([verify_qr])

    Modelling conventions.
    - The SQLite store is a record [db]: the [events] table is a finite map
      from primary key to row, the [registrations] table is the list of its
      rows in rowid order (the order in which [.first()] scans them), the
      [users] table is the set of its primary keys.
    - Every function takes the store and returns its result together with the
      store as committed.  A request runs alone against the store:
      [db.session.commit()] succeeds and no collaborator raises, so the
      [except] branches, which roll the transaction back to the store it
      started from, are not taken.
    - A row keeps the columns that the seat, waitlist and status logic reads
      or writes; descriptive columns (description, category, location,
      price, image, ...) are left out.
    - [datetime.utcnow()] is the argument [now]; a [DateTime] column is an
      integer number of time units.
    - Mail, Firestore projection, activity logging and the QR image file are
      collaborators without effect on the store; only the [qr_code] file name
      written to the row is kept. *)

From Stdlib Require Import ZArith List Bool Lia Ascii Sorted Permutation.
From stdpp Require Import base gmap strings list pretty.
Import ListNotations.

#[local] Open Scope string_scope.
#[local] Open Scope Z_scope.

(** ** Data model ([app/models.py]) *)

Module Event.

(** A row of the [events] table; the primary key [id] is the key of the
    row in the table. *)
Record t := mk {
  title                 : string;
  event_date            : Z;
  max_participants      : Z;
  available_seats       : Z;
  registration_deadline : Z;
  is_paid               : bool;
  allow_waitlist        : bool;
  is_active             : bool;
  organizer_id          : Z;
  updated_at            : Z;
  status                : string;
  status_reason         : option string;
  postponed_to          : option Z;
  cancelled_at          : option Z
}.

Definition set_available_seats (n : Z) (e : t) : t :=
  mk (title e) (event_date e) (max_participants e) n
     (registration_deadline e) (is_paid e) (allow_waitlist e) (is_active e)
     (organizer_id e) (updated_at e) (status e) (status_reason e)
     (postponed_to e) (cancelled_at e).

Definition set_max_participants (n : Z) (e : t) : t :=
  mk (title e) (event_date e) n (available_seats e)
     (registration_deadline e) (is_paid e) (allow_waitlist e) (is_active e)
     (organizer_id e) (updated_at e) (status e) (status_reason e)
     (postponed_to e) (cancelled_at e).

Definition set_is_active (b : bool) (e : t) : t :=
  mk (title e) (event_date e) (max_participants e) (available_seats e)
     (registration_deadline e) (is_paid e) (allow_waitlist e) b
     (organizer_id e) (updated_at e) (status e) (status_reason e)
     (postponed_to e) (cancelled_at e).

(** The [registered_count] property. *)
Definition registered_count (e : t) : Z :=
  max_participants e - available_seats e.

End Event.

Module Registration.

(** A row of the [registrations] table. *)
Record t := mk {
  id              : Z;
  user_id         : Z;
  event_id        : Z;
  status          : string;   (* pending | confirmed | cancelled | waitlist *)
  payment_status  : string;   (* not_required | pending | paid | refunded *)
  qr_code         : option string;
  attended        : bool;
  attendance_time : option Z;
  created_at      : Z
}.

Definition set_id (n : Z) (r : t) : t :=
  mk n (user_id r) (event_id r) (status r) (payment_status r) (qr_code r)
     (attended r) (attendance_time r) (created_at r).

Definition set_status (s : string) (r : t) : t :=
  mk (id r) (user_id r) (event_id r) s (payment_status r) (qr_code r)
     (attended r) (attendance_time r) (created_at r).

Definition set_payment_status (s : string) (r : t) : t :=
  mk (id r) (user_id r) (event_id r) (status r) s (qr_code r)
     (attended r) (attendance_time r) (created_at r).

Definition set_qr_code (q : option string) (r : t) : t :=
  mk (id r) (user_id r) (event_id r) (status r) (payment_status r) q
     (attended r) (attendance_time r) (created_at r).

Definition set_attendance (a : bool) (time : option Z) (r : t) : t :=
  mk (id r) (user_id r) (event_id r) (status r) (payment_status r) (qr_code r)
     a time (created_at r).

(** [Registration(user_id=.., event_id=.., status=.., payment_status=..)]:
    the other columns take their defaults, [created_at] the current time.
    The primary key is assigned when the row is flushed ([insert] below). *)
Definition new (user_id event_id : Z) (status payment_status : string)
    (now : Z) : t :=
  mk 0 user_id event_id status payment_status None false None now.

End Registration.

(** The store. *)
Record db := mkdb {
  events        : gmap Z Event.t;
  registrations : list Registration.t;
  users         : gset Z
}.

Definition set_events (ev : gmap Z Event.t) (d : db) : db :=
  mkdb ev (registrations d) (users d).

Definition set_registrations (rs : list Registration.t) (d : db) : db :=
  mkdb (events d) rs (users d).

(** ** Queries and writes of the object-relational layer *)

Module Query.

(** [Event.query.get(event_id)] *)
Definition get_event (event_id : Z) (d : db) : option Event.t :=
  events d !! event_id.

(** Writing back the attributes of a loaded event on commit. *)
Definition put_event (event_id : Z) (e : Event.t) (d : db) : db :=
  set_events (<[event_id := e]> (events d)) d.

(** [Registration.query.get(registration_id)] *)
Definition get_registration (registration_id : Z) (d : db)
    : option Registration.t :=
  List.find (fun r => Registration.id r =? registration_id) (registrations d).

(** [Registration.query.filter_by(user_id=.., event_id=..).first()] *)
Definition first_by_user_event (user_id event_id : Z) (d : db)
    : option Registration.t :=
  List.find (fun r => (Registration.user_id r =? user_id)
                      && (Registration.event_id r =? event_id))
            (registrations d).

(** [filter_by(event_id=.., status=..)] as a row predicate. *)
Definition has_event_status (event_id : Z) (status : string)
    (r : Registration.t) : bool :=
  (Registration.event_id r =? event_id)
  && String.eqb (Registration.status r) status.

(** [.count()] of the rows selected by [P]. *)
Definition count_rows (P : Registration.t -> bool)
    (rows : list Registration.t) : Z :=
  Z.of_nat (List.length (List.filter P rows)).

(** [Registration.query.filter_by(event_id=.., status=..).count()] *)
Definition count_by_event_status (event_id : Z) (status : string) (d : db)
    : Z :=
  count_rows (has_event_status event_id status) (registrations d).

(** [.order_by(Registration.created_at.asc()).first()] over rows in scan
    order: the row of least [created_at], the earliest scanned among
    equals. *)
Fixpoint first_by_created_at (rows : list Registration.t)
    : option Registration.t :=
  match rows with
  | [] => None
  | r :: rows' =>
      match first_by_created_at rows' with
      | None => Some r
      | Some r' =>
          if Registration.created_at r <=? Registration.created_at r'
          then Some r else Some r'
      end
  end.

(** [Registration.query.filter_by(event_id=.., status='waitlist')
      .order_by(Registration.created_at.asc()).first()] *)
Definition oldest_waitlist (event_id : Z) (d : db) : option Registration.t :=
  first_by_created_at
    (List.filter (has_event_status event_id "waitlist") (registrations d)).

(** The rowid SQLite gives to a new row of an [INTEGER PRIMARY KEY] table:
    one more than the largest in use. *)
Definition next_id (rows : list Registration.t) : Z :=
  1 + List.fold_right (fun r m => Z.max (Registration.id r) m) 0 rows.

(** [db.session.add(registration)] followed by a flush: returns the row
    with its primary key populated. *)
Definition insert (r : Registration.t) (d : db) : Registration.t * db :=
  let r' := Registration.set_id (next_id (registrations d)) r in
  (r', set_registrations (registrations d ++ [r']) d).

(** The row of primary key [registration_id] rewritten by [f]. *)
Definition rewrite_row (registration_id : Z)
    (f : Registration.t -> Registration.t) (r : Registration.t)
    : Registration.t :=
  if Registration.id r =? registration_id then f r else r.

(** Writing back the attributes of a loaded registration. *)
Definition update_registration (registration_id : Z)
    (f : Registration.t -> Registration.t) (d : db) : db :=
  set_registrations
    (List.map (rewrite_row registration_id f) (registrations d)) d.

(** Every row but the one of primary key [registration_id]. *)
Definition keep_row (registration_id : Z) (r : Registration.t) : bool :=
  negb (Registration.id r =? registration_id).

(** [db.session.delete(registration)] *)
Definition delete_registration (registration_id : Z) (d : db) : db :=
  set_registrations
    (List.filter (keep_row registration_id) (registrations d)) d.

(** [UPDATE events SET available_seats = available_seats - 1
     WHERE id = :event_id AND available_seats > 0]; returns [rowcount]. *)
Definition decrement_available_seats (event_id : Z) (d : db) : Z * db :=
  match events d !! event_id with
  | Some e =>
      if 0 <? Event.available_seats e
      then (1, put_event event_id
                 (Event.set_available_seats (Event.available_seats e - 1) e) d)
      else (0, d)
  | None => (0, d)
  end.

End Query.

(** ** Waitlist promotion ([app/services/waitlist_service.py]) *)

Module WaitlistService.

(** [_atomic_promote(event_id)]: the promoted registration or [None]. *)
Definition _atomic_promote (event_id : Z) (d : db)
    : option Registration.t * db :=
  match Query.get_event event_id d with
  | None => (None, d)
  | Some event =>
      if Event.available_seats event <=? 0 then (None, d)
      else
        match Query.oldest_waitlist event_id d with
        | None => (None, d)
        | Some next_reg =>
            let d1 := Query.update_registration (Registration.id next_reg)
                        (Registration.set_status "confirmed") d in
            let d2 := Query.put_event event_id
                        (Event.set_available_seats
                           (Event.available_seats event - 1) event) d1 in
            (Some (Registration.set_status "confirmed" next_reg), d2)
        end
  end.

(** [promote_from_waitlist(event_id)] *)
Definition promote_from_waitlist (event_id : Z) (d : db)
    : option Registration.t * db :=
  _atomic_promote event_id d.

End WaitlistService.

(** ** Participant routes ([app/participant/routes.py]) *)

Module ParticipantRoutes.

(** Where a view redirects to. *)
Inductive endpoint :=
| event_details (event_id : Z)
| view_ticket (registration_id : Z)
| my_registrations.

(** What a view answers: [get_or_404] aborting, an exception escaping the
    view (HTTP 500, the session is discarded), or a flashed message with
    its category and a redirect. *)
Inductive response :=
| abort_404
| internal_server_error
| redirect (flash : string) (category : string) (target : endpoint).

(** [generate_qr_file]: the file name it returns. *)
Definition generate_qr_file (registration_id event_id user_id : Z) : string :=
  "qr_" +:+ pretty registration_id +:+ ".png".

(** [getattr(event, 'status', 'active') or 'active'] *)
Definition event_status (event : Event.t) : string :=
  if String.eqb (Event.status event) "" then "active" else Event.status event.

(** ['pending' if event.is_paid else 'not_required'] *)
Definition payment_status_for (event : Event.t) : string :=
  if Event.is_paid event then "pending" else "not_required".

(** [register_event(event_id)] for the logged-in [current_user]. *)
Definition register_event (current_user event_id now : Z) (d : db)
    : response * db :=
  match Query.get_event event_id d with
  | None => (abort_404, d)
  | Some event =>
    if String.eqb (event_status event) "cancelled"
       || String.eqb (event_status event) "postponed"
    then (redirect "Cannot register — this event has been cancelled or postponed."
                   "error" (event_details event_id), d)
    else
    match Query.first_by_user_event current_user event_id d with
    | Some existing =>
        if String.eqb (Registration.status existing) "cancelled" then
          (* Re-registration after prior cancellation *)
          if Event.available_seats event <=? 0
          then (redirect "Sorry, this event is now full." "error"
                         (event_details event_id), d)
          else
            let rid := Registration.id existing in
            let d1 := Query.update_registration rid
                        (fun r => Registration.set_payment_status
                                    (payment_status_for event)
                                    (Registration.set_status "confirmed" r)) d in
            let d2 := Query.put_event event_id
                        (Event.set_available_seats
                           (Event.available_seats event - 1) event) d1 in
            let d3 := Query.update_registration rid
                        (Registration.set_qr_code
                           (Some (generate_qr_file rid event_id current_user))) d2 in
            (redirect "Registration successful!" "success" (view_ticket rid), d3)
        else (redirect "You are already registered for this event." "warning"
                       (event_details event_id), d)
    | None =>
        if now >? Event.registration_deadline event
        then (redirect "Registration deadline has passed." "error"
                       (event_details event_id), d)
        else if Event.available_seats event <=? 0 then
          (* Waitlist path *)
          if Event.allow_waitlist event then
            let '(_, d1) := Query.insert
                  (Registration.new current_user event_id
                     "waitlist" "not_required" now) d in
            (redirect "Event is full — you've been added to the waitlist!"
                      "warning" (event_details event_id), d1)
          else (redirect "Sorry, this event is full." "error"
                         (event_details event_id), d)
        else
          (* Atomic seat decrement *)
          let '(rowcount, d1) := Query.decrement_available_seats event_id d in
          if rowcount =? 0
          then (redirect "Sorry, this event just became full." "error"
                         (event_details event_id), d)
          else
            let '(registration, d2) := Query.insert
                  (Registration.new current_user event_id
                     "confirmed" (payment_status_for event) now) d1 in
            let rid := Registration.id registration in
            let d3 := Query.update_registration rid
                        (Registration.set_qr_code
                           (Some (generate_qr_file rid event_id current_user))) d2 in
            (redirect "Registration successful!" "success" (view_ticket rid), d3)
    end
  end.


(** [cancel_registration(registration_id)] for the logged-in
    [current_user]; the seat release is committed first, then the
    promotion runs as a transaction of its own. *)
Definition cancel_registration (current_user registration_id : Z) (d : db)
    : response * db :=
  match Query.get_registration registration_id d with
  | None => (abort_404, d)
  | Some registration =>
      if negb (Registration.user_id registration =? current_user)
      then (redirect "Access denied." "error" my_registrations, d)
      else if Registration.attended registration
      then (redirect "Cannot cancel — you have already attended this event."
                     "error" my_registrations, d)
      else
        let was_confirmed :=
          String.eqb (Registration.status registration) "confirmed" in
        match Query.get_event (Registration.event_id registration) d with
        | None => (internal_server_error, d)
        | Some event =>
            let event_id := Registration.event_id registration in
            let d1 := if was_confirmed
                      then Query.put_event event_id
                             (Event.set_available_seats
                                (Event.available_seats event + 1) event) d
                      else d in
            let d2 := Query.delete_registration registration_id d1 in
            let d3 := if was_confirmed
                      then snd (WaitlistService.promote_from_waitlist event_id d2)
                      else d2 in
            (redirect "Registration cancelled successfully." "success"
                      my_registrations, d3)
        end
  end.

End ParticipantRoutes.

(** ** Registration service ([app/services/registration_service.py]) *)

Module RegistrationService.

(** [register_for_event(user_id, event_id)]: [(registration, None)] or
    [(None, message)]. *)
Definition register_for_event (user_id event_id now : Z) (d : db)
    : (option Registration.t * option string) * db :=
  if negb (bool_decide (user_id ∈ users d))
  then ((None, Some "User not found"), d)
  else
  match Query.get_event event_id d with
  | None => ((None, Some "Event not found"), d)
  | Some event =>
      if now >? Event.registration_deadline event
      then ((None, Some "Registration deadline has passed"), d)
      else
      match Query.first_by_user_event user_id event_id d with
      | Some existing => ((None, Some "Already registered for this event"), d)
      | None =>
          if Event.available_seats event <=? 0
          then ((None, Some "Event is sold out"), d)
          else
            let '(registration, d1) := Query.insert
                  (Registration.new user_id event_id "confirmed"
                     (if Event.is_paid event then "pending" else "not_required")
                     now) d in
            let d2 := Query.put_event event_id
                        (Event.set_available_seats
                           (Event.available_seats event - 1) event) d1 in
            ((Some registration, None), d2)
      end
  end.

(** [cancel_registration(user_id, event_id)]: releases the seat and
    promotes the first waitlisted registration in the same transaction.
    With no event row [event.available_seats] raises and the transaction
    is rolled back. *)
Definition cancel_registration (user_id event_id : Z) (d : db)
    : (bool * string) * db :=
  match Query.first_by_user_event user_id event_id d with
  | None => ((false, "Registration not found"), d)
  | Some registration =>
      if Registration.attended registration
      then ((false, "Cannot cancel after attendance"), d)
      else
        let was_confirmed :=
          String.eqb (Registration.status registration) "confirmed" in
        if was_confirmed then
          match Query.get_event event_id d with
          | None => ((false, "Cancellation failed"), d)
          | Some event =>
              let seats := Event.available_seats event + 1 in
              let d1 := Query.put_event event_id
                          (Event.set_available_seats seats event) d in
              (* Promote first waitlisted user *)
              let d2 :=
                match Query.oldest_waitlist event_id d1 with
                | Some waitlist_reg =>
                    Query.put_event event_id
                      (Event.set_available_seats (seats - 1) event)
                      (Query.update_registration (Registration.id waitlist_reg)
                         (Registration.set_status "confirmed") d1)
                | None => d1
                end in
              ((true, "Registration cancelled successfully"),
               Query.delete_registration (Registration.id registration) d2)
          end
        else
          ((true, "Registration cancelled successfully"),
           Query.delete_registration (Registration.id registration) d)
  end.

(** [mark_attendance(registration_id)] *)
Definition mark_attendance (registration_id now : Z) (d : db)
    : (bool * string) * db :=
  match Query.get_registration registration_id d with
  | None => ((false, "Registration not found"), d)
  | Some registration =>
      if Registration.attended registration
      then ((true, "Already marked as attended"), d)
      else
        ((true, "Attendance marked successfully"),
         Query.update_registration registration_id
           (Registration.set_attendance true (Some now)) d)
  end.

End RegistrationService.

(** ** Event service ([app/services/event_service.py]) *)

Module EventService.

(** Truth value of an optional integer argument ([None] and [0] are false). *)
Definition truthy (n : option Z) : bool :=
  match n with
  | Some v => negb (v =? 0)
  | None => false
  end.

(** [update_event(event_id, organizer_id, title, ..., max_participants, ...,
    allow_waitlist=None)]: the capacity resize recomputes
    [available_seats]; [allow_waitlist = None] keeps the stored value. *)
Definition update_event (event_id organizer_id : Z) (title : string)
    (event_date registration_deadline : Z) (max_participants : option Z)
    (is_paid : bool) (allow_waitlist : option bool) (d : db)
    : (option Event.t * option string) * db :=
  match Query.get_event event_id d with
  | None => ((None, Some "Event not found or unauthorized"), d)
  | Some event =>
      if negb (Event.organizer_id event =? organizer_id)
      then ((None, Some "Event not found or unauthorized"), d)
      else
        (* Adjust available_seats when max_participants changes *)
        let event1 :=
          match max_participants with
          | Some new_max =>
              if truthy max_participants
                 && negb (new_max =? Event.max_participants event)
              then
                let confirmed_count :=
                  Query.count_by_event_status event_id "confirmed" d in
                Event.set_max_participants new_max
                  (Event.set_available_seats
                     (Z.max 0 (new_max - confirmed_count)) event)
              else if truthy max_participants
              then Event.set_max_participants new_max event
              else event
          | None => event
          end in
        let event2 :=
          Event.mk title event_date (Event.max_participants event1)
            (Event.available_seats event1) registration_deadline is_paid
            (match allow_waitlist with
             | Some b => b
             | None => Event.allow_waitlist event1
             end)
            (Event.is_active event1) (Event.organizer_id event1)
            (Event.updated_at event1) (Event.status event1)
            (Event.status_reason event1) (Event.postponed_to event1)
            (Event.cancelled_at event1) in
        ((Some event2, None), Query.put_event event_id event2 d)
  end.

End EventService.

(** ** Event status ([app/services/event_status_service.py]) *)

Module EventStatusService.

Definition VALID_STATUSES : list string := ["active"; "cancelled"; "postponed"].

(** [_success_message(status, title)] *)
Definition _success_message (status title : string) : string :=
  if String.eqb status "cancelled"
  then "'" +:+ title +:+ "' has been cancelled. All registrants will be notified."
  else if String.eqb status "postponed"
  then "'" +:+ title +:+ "' has been postponed. All registrants will be notified."
  else if String.eqb status "active"
  then "'" +:+ title +:+ "' has been re-activated."
  else "Status updated.".

(** [reason or None] *)
Definition or_none (reason : option string) : option string :=
  match reason with
  | Some r => if String.eqb r "" then None else Some r
  | None => None
  end.

(** [update_event_status(event_id, new_status, reason, postponed_to)]:
    [(success, message)].  The only test on [postponed_to] is
    [not postponed_to]: a date must be given. *)
Definition update_event_status (event_id : Z) (new_status : string)
    (reason : option string) (postponed_to : option Z) (now : Z) (d : db)
    : (bool * string) * db :=
  if negb (existsb (String.eqb new_status) VALID_STATUSES)
  then ((false, "Invalid status '" +:+ new_status +:+ "'."), d)
  else
  match Query.get_event event_id d with
  | None => ((false, "Event " +:+ pretty event_id +:+ " not found."), d)
  | Some event =>
      match String.eqb new_status "postponed", postponed_to with
      | true, None =>
          ((false, "A new date is required when postponing an event."), d)
      | _, _ =>
          let write (event_date : Z) (is_active : bool)
                    (postponed : option Z) (cancelled_at : option Z) :=
            Event.mk (Event.title event) event_date
              (Event.max_participants event) (Event.available_seats event)
              (Event.registration_deadline event) (Event.is_paid event)
              (Event.allow_waitlist event) is_active
              (Event.organizer_id event) now new_status (or_none reason)
              postponed cancelled_at in
          let event' :=
            if String.eqb new_status "cancelled"
            then write (Event.event_date event) false
                       (Event.postponed_to event) (Some now)
            else if String.eqb new_status "postponed"
            then write (match postponed_to with
                        | Some date => date
                        | None => Event.event_date event
                        end) true postponed_to None
            else if String.eqb new_status "active"
            then write (Event.event_date event) true
                       (Event.postponed_to event) None
            else write (Event.event_date event) (Event.is_active event)
                       (Event.postponed_to event) (Event.cancelled_at event) in
          ((true, _success_message new_status (Event.title event)),
           Query.put_event event_id event' d)
      end
  end.

End EventStatusService.

(** ** Mirror fallback ([app/utils/firestore_sync.py]) *)

Module FirestoreSync.

(** [_sqlite_update_event_status(event_id, status)]: the fallback of the
    background projection writes [is_active] on the event row. *)
Definition _sqlite_update_event_status (event_id : Z) (status : string)
    (d : db) : db :=
  match Query.get_event event_id d with
  | Some event =>
      Query.put_event event_id
        (Event.set_is_active (String.eqb status "active") event) d
  | None => d
  end.

(** [update_event_status_firestore(event_id, status, reason)]: with no
    Firestore client, or when its write raises, the fallback runs. *)
Definition update_event_status_firestore (firestore_ok : bool)
    (event_id : Z) (status : string) (d : db) : db :=
  if firestore_ok then d else _sqlite_update_event_status event_id status d.

End FirestoreSync.

(** ** Sequences of requests *)

(** The requests that write to the store. *)
Inductive request :=
| RegisterEvent (current_user event_id now : Z)
| CancelRegistration (current_user registration_id : Z)
| ServiceRegister (user_id event_id now : Z)
| ServiceCancel (user_id event_id : Z)
| Promote (event_id : Z)
| UpdateEvent (event_id organizer_id : Z) (title : string)
    (event_date registration_deadline : Z) (max_participants : option Z)
    (is_paid : bool) (allow_waitlist : option bool)
| MarkAttendance (registration_id now : Z)
| UpdateStatus (event_id : Z) (new_status : string) (reason : option string)
    (postponed_to : option Z) (now : Z)
| StatusFallback (event_id : Z) (status : string).

(** The store a request leaves behind. *)
Definition handle (q : request) (d : db) : db :=
  match q with
  | RegisterEvent u e now => snd (ParticipantRoutes.register_event u e now d)
  | CancelRegistration u r => snd (ParticipantRoutes.cancel_registration u r d)
  | ServiceRegister u e now =>
      snd (RegistrationService.register_for_event u e now d)
  | ServiceCancel u e => snd (RegistrationService.cancel_registration u e d)
  | Promote e => snd (WaitlistService.promote_from_waitlist e d)
  | UpdateEvent e o t date deadline m paid w =>
      snd (EventService.update_event e o t date deadline m paid w d)
  | MarkAttendance r now => snd (RegistrationService.mark_attendance r now d)
  | UpdateStatus e s reason p now =>
      snd (EventStatusService.update_event_status e s reason p now d)
  | StatusFallback e s => FirestoreSync._sqlite_update_event_status e s d
  end.

(** Requests served one after the other. *)
Fixpoint run (qs : list request) (d : db) : db :=
  match qs with
  | [] => d
  | q :: qs' => run qs' (handle q d)
  end.

(** ** Invariants of the store *)

(** Primary keys of the registrations table are unique. *)
Definition unique_ids (d : db) : Prop :=
  List.NoDup (List.map Registration.id (registrations d)).

(** Conservation: seats taken are exactly the confirmed registrations. *)
Definition conserved (d : db) : Prop :=
  forall event_id event, events d !! event_id = Some event ->
    Event.available_seats event =
      Event.max_participants event
      - Query.count_by_event_status event_id "confirmed" d.

(** No event is oversold. *)
Definition seats_nonneg (d : db) : Prop :=
  forall event_id event, events d !! event_id = Some event ->
    0 <= Event.available_seats event.

(** A request shrinks an event below its confirmed registrations when it is
    an authorised [update_event] that changes [max_participants] to a value
    smaller than the count of confirmed registrations. *)
Definition resizes_below (q : request) (d : db) : bool :=
  match q with
  | UpdateEvent e o _ _ _ (Some new_max) _ _ =>
      match Query.get_event e d with
      | Some event =>
          (Event.organizer_id event =? o)
          && EventService.truthy (Some new_max)
          && negb (new_max =? Event.max_participants event)
          && (new_max <? Query.count_by_event_status e "confirmed" d)
      | None => false
      end
  | _ => false
  end.

Definition resize_fits (q : request) (d : db) : Prop :=
  resizes_below q d = false.

(** Every resize of the sequence fits the store it is served on. *)
Fixpoint resizes_fit (qs : list request) (d : db) : Prop :=
  match qs with
  | [] => True
  | q :: qs' => resize_fits q d /\ resizes_fit qs' (handle q d)
  end.

(** ** Checking the invariants on a given store *)

Definition check_unique_ids (d : db) : bool :=
  bool_decide (NoDup (List.map Registration.id (registrations d))).

Definition check_conserved (d : db) : bool :=
  forallb (fun '(event_id, event) =>
             Event.available_seats event =?
               Event.max_participants event
               - Query.count_by_event_status event_id "confirmed" d)
          (map_to_list (events d)).

Definition check_seats_nonneg (d : db) : bool :=
  forallb (fun '(_, event) => 0 <=? Event.available_seats event)
          (map_to_list (events d)).

(** ** Sample stores *)

(** An event of organizer 10 as [create_event] leaves it, with the given
    capacity and free seats; registration closes at time 100. *)
Definition sample_event (max_participants available_seats : Z)
    (allow_waitlist : bool) : Event.t :=
  Event.mk "Rust meetup" 200 max_participants available_seats 100 false
    allow_waitlist true 10 0 "active" None None None.

(** A registration row with the given key, user, event, status and
    creation time. *)
Definition sample_registration (id user_id event_id : Z) (status : string)
    (created_at : Z) : Registration.t :=
  Registration.mk id user_id event_id status "not_required" None false None
    created_at.

(** Event 1 with two seats, both taken by confirmed registrations. *)
Definition full_house : db :=
  mkdb {[ 1 := sample_event 2 0 false ]}
       [ sample_registration 1 21 1 "confirmed" 5;
         sample_registration 2 22 1 "confirmed" 6 ]
       {[ 21; 22; 23 ]}.

(** The organizer edits event 1 and lowers its capacity to one seat. *)
Definition shrink_to_one : request :=
  UpdateEvent 1 10 "Rust meetup" 200 100 (Some 1) false None.

(** Event 1 with one seat, free, and waitlisting allowed. *)
Definition one_seat : db :=
  mkdb {[ 1 := sample_event 1 1 true ]} [] {[ 21; 22; 23 ]}.

(** The first scenario of the specification: A registers, B registers,
    A cancels; then the organizer raises the capacity to three seats. *)
Definition scenario : list request :=
  [ RegisterEvent 21 1 10; RegisterEvent 22 1 11; CancelRegistration 21 1;
    UpdateEvent 1 10 "Rust meetup" 200 100 (Some 3) false None ].

(** The requests that can confirm a registration on a free seat. *)
Definition takes_seat (q : request) : bool :=
  match q with
  | RegisterEvent _ _ _ | ServiceRegister _ _ _ | Promote _ => true
  | _ => false
  end.

(** The requests that cancel a registration (and promote on its seat). *)
Definition is_cancel (q : request) : bool :=
  match q with
  | CancelRegistration _ _ | ServiceCancel _ _ => true
  | _ => false
  end.

(** The requests that can promote a waitlisted registration. *)
Definition promotes (q : request) : bool :=
  match q with
  | Promote _ | CancelRegistration _ _ | ServiceCancel _ _ => true
  | _ => false
  end.

(** Primary key and status of every registration, in table order. *)
Definition statuses (d : db) : list (Z * string) :=
  List.map (fun r => (Registration.id r, Registration.status r))
           (registrations d).

(** Event 1 is full (users 21 and 22 are confirmed) and three users wait:
    A (row 4, created at time 3), B (row 5, created at time 4) and
    C (row 3, created at time 9). *)
Definition waitlist_abc : db :=
  mkdb {[ 1 := sample_event 2 0 true ]}
       [ sample_registration 1 21 1 "confirmed" 1;
         sample_registration 2 22 1 "confirmed" 2;
         sample_registration 3 25 1 "waitlist" 9;
         sample_registration 4 23 1 "waitlist" 3;
         sample_registration 5 24 1 "waitlist" 4 ]
       {[ 21; 22; 23; 24; 25 ]}.

(** [waitlist_abc] after user 21 cancelled and the seat release was
    committed, before the promotion runs. *)
Definition seat_released : db :=
  Query.delete_registration 1
    (Query.put_event 1 (sample_event 2 1 true) waitlist_abc).

(** Event 1 is full and allows waitlisting; user 22 once registered and
    holds a row with status 'cancelled'. *)
Definition full_returning : db :=
  mkdb {[ 1 := sample_event 1 0 true ]}
       [ sample_registration 1 21 1 "confirmed" 1;
         sample_registration 2 22 1 "cancelled" 2 ]
       {[ 21; 22; 23 ]}.

(** Event 1 with five free seats and no registration. *)
Definition five_seats : db :=
  mkdb {[ 1 := sample_event 5 5 false ]} [] {[ 21; 22; 23 ]}.

(** The organizer cancelled event 1 at time 5. *)
Definition cancelled_store : db :=
  handle (UpdateStatus 1 "cancelled" (Some "venue closed") None 5) five_seats.

(** Event 1 has three free seats; user 21 holds a 'cancelled' row. *)
Definition returning_user : db :=
  mkdb {[ 1 := sample_event 5 3 false ]}
       [ sample_registration 1 21 1 "cancelled" 2;
         sample_registration 2 22 1 "confirmed" 3;
         sample_registration 3 23 1 "confirmed" 4 ]
       {[ 21; 22; 23; 24 ]}.

(** User 21 is confirmed on event 1, which has four of its five seats
    free. *)
Definition one_confirmed : db :=
  handle (RegisterEvent 21 1 10) five_seats.

(** Event 1 with fifty seats, one of them free, and no waitlist. *)
Definition last_seat : db :=
  mkdb {[ 1 := sample_event 50 1 false ]} [] {[ 21; 22; 23 ]}.

(** [available_seats] of an event, as the polled snapshot reports it. *)
Definition seats_of (event_id : Z) (d : db) : option Z :=
  Event.available_seats <$> Query.get_event event_id d.

(** * Further functions of the cited files *)

(** ** Python strings *)

Module PyStr.

(** [s.split(sep)] for a one-character separator: the pieces between the
    separators, at least one piece. *)
Fixpoint split (sep : Ascii.ascii) (s : string) : list string :=
  match s with
  | EmptyString => [""]
  | String c s' =>
      if Ascii.eqb c sep then "" :: split sep s'
      else match split sep s' with
           | piece :: pieces => String c piece :: pieces
           | [] => [String c ""]
           end
  end.

(** [s.startswith(prefix)] *)
Definition startswith (s prefix : string) : bool := String.prefix prefix s.

(** [c in s] for a character [c]. *)
Fixpoint contains (c : Ascii.ascii) (s : string) : bool :=
  match s with
  | EmptyString => false
  | String c' s' => Ascii.eqb c' c || contains c s'
  end.

(** Value of an ASCII decimal digit. *)
Definition digit_value (c : Ascii.ascii) : option Z :=
  let n := Z.of_nat (Ascii.nat_of_ascii c) - 48 in
  if (0 <=? n) && (n <=? 9) then Some n else None.

Fixpoint parse_digits (acc : Z) (s : string) : option Z :=
  match s with
  | EmptyString => Some acc
  | String c s' =>
      match digit_value c with
      | Some v => parse_digits (10 * acc + v) s'
      | None => None
      end
  end.

(** [int(s)] on the unsigned ASCII decimal numerals; [None] stands for
    [ValueError].  The functions below take [int] as an argument and use of
    it only what [int] does on the numerals that [str] prints. *)
Definition parse_decimal (s : string) : option Z :=
  match s with
  | EmptyString => None
  | _ => parse_digits 0 s
  end.

End PyStr.

(** ** QR payloads *)

Module Qr.

(** The payload [generate_qr_file] of the participant routes encodes:
    [f"REG-{registration_id}-{user_id}-{event_id}"]. *)
Definition qr_data (registration_id event_id user_id : Z) : string :=
  "REG-" +:+ pretty registration_id +:+ "-" +:+ pretty user_id
         +:+ "-" +:+ pretty event_id.

(** The payload [_generate_qr] of the waitlist service encodes for a promoted
    registration:
    [f"EVENTHUB-REG-{id}-EVENT-{event_id}-USER-{user_id}"]. *)
Definition promoted_qr_data (registration : Registration.t) : string :=
  "EVENTHUB-REG-" +:+ pretty (Registration.id registration)
    +:+ "-EVENT-" +:+ pretty (Registration.event_id registration)
    +:+ "-USER-" +:+ pretty (Registration.user_id registration).

(** [Registration.query.filter_by(id=.., user_id=.., event_id=..).first()] *)
Definition first_by_keys (registration_id user_id event_id : Z) (d : db)
    : option Registration.t :=
  List.find (fun r => (Registration.id r =? registration_id)
                      && (Registration.user_id r =? user_id)
                      && (Registration.event_id r =? event_id))
            (registrations d).

(** [RegistrationService.verify_qr_code(qr_data)]:
    [(registration, None)] or [(None, message)]. *)
Definition verify_qr_code (int : string -> option Z) (qr_data : string)
    (d : db) : option Registration.t * option string :=
  if String.eqb qr_data "" || negb (PyStr.startswith qr_data "REG-")
  then (None, Some "Invalid QR code format")
  else
    let parts := PyStr.split "-"%char qr_data in
    (* Expected: ['REG', registration_id, user_id, event_id] *)
    if negb (Nat.eqb (List.length parts) 4)
    then (None, Some "Invalid QR code format")
    else
      match int (List.nth 1 parts ""), int (List.nth 2 parts ""),
            int (List.nth 3 parts "") with
      | Some registration_id, Some user_id, Some event_id =>
          match first_by_keys registration_id user_id event_id d with
          | None => (None, Some "Registration not found")
          | Some registration =>
              if String.eqb (Registration.status registration) "cancelled"
              then (None, Some "This registration has been cancelled")
              else if String.eqb (Registration.status registration) "waitlist"
              then (None,
                    Some "This attendee is on the waitlist, not confirmed")
              else (Some registration, None)
          end
      | _, _, _ => (None, Some "Invalid QR code — non-numeric ID")
      end.

(** What the scanner endpoint answers: an error with its HTTP status, an
    exception escaping the view, or the success document (registration id,
    event title and whether the attendee had been checked in before). *)
Inductive scan_response :=
| scan_error (http_status : Z) (error : string)
| scan_server_error
| scan_success (registration_id : Z) (event_title : string)
    (already_attended : bool).

(** The [verify_qr] view of the organizer routes for the logged-in
    [current_user]; [qr_data] is [request.json.get('qr_data')]. *)
Definition verify_qr (int : string -> option Z) (current_user : Z)
    (qr_data : option string) (now : Z) (d : db) : scan_response * db :=
  match qr_data with
  | None => (scan_error 400 "No QR data provided", d)
  | Some data =>
      if String.eqb data "" then (scan_error 400 "No QR data provided", d)
      else
        match verify_qr_code int data d with
        | (Some registration, _) =>
            match Query.get_event (Registration.event_id registration) d with
            | None => (scan_server_error, d)
            | Some event =>
                if negb (Event.organizer_id event =? current_user)
                then (scan_error 403 "Unauthorized", d)
                else
                  let already_attended := Registration.attended registration in
                  let '((success, message), d') :=
                    RegistrationService.mark_attendance
                      (Registration.id registration) now d in
                  if success
                  then (scan_success (Registration.id registration)
                          (Event.title event) already_attended, d')
                  else (scan_error 400 message, d')
            end
        | (None, error) =>
            (scan_error 404 (match error with Some e => e | None => "" end), d)
        end
  end.

End Qr.

(** ** Registration listings ([RegistrationService]) *)

Module Listing.

(** [.order_by(Registration.created_at.asc())]: rows by ascending
    [created_at], rows of equal time in scan order. *)
Fixpoint insert_by_created_at (r : Registration.t)
    (rows : list Registration.t) : list Registration.t :=
  match rows with
  | [] => [r]
  | r0 :: rows' =>
      if Registration.created_at r <=? Registration.created_at r0
      then r :: r0 :: rows'
      else r0 :: insert_by_created_at r rows'
  end.

Definition order_by_created_at (rows : list Registration.t)
    : list Registration.t :=
  List.fold_right insert_by_created_at [] rows.

(** [get_event_registrations(event_id, status=None)]: the status filter is
    applied when [status] is given and not empty. *)
Definition get_event_registrations (event_id : Z) (status : option string)
    (d : db) : list Registration.t :=
  let by_event :=
    List.filter (fun r => Registration.event_id r =? event_id)
                (registrations d) in
  let query :=
    match status with
    | Some s =>
        if String.eqb s "" then by_event
        else List.filter (fun r => String.eqb (Registration.status r) s)
                         by_event
    | None => by_event
    end in
  order_by_created_at query.

End Listing.

(** ** Creating, deleting and toggling events ([EventService]) *)

Module EventWrites.

(** The rowid SQLite gives to a new event: one more than the largest in
    use. *)
Definition next_event_id (events : gmap Z Event.t) : Z :=
  1 + List.fold_right (fun '(k, _) m => Z.max k m) 0 (map_to_list events).

(** [create_event(organizer_id, title, ..., event_date,
    registration_deadline, max_participants, ..., is_paid, allow_waitlist)]:
    the new event starts with every seat free; [status] and [updated_at]
    take their column defaults.  Returns the event with its primary key. *)
Definition create_event (organizer_id : Z) (title : string)
    (event_date registration_deadline max_participants : Z)
    (is_paid allow_waitlist : bool) (now : Z) (d : db)
    : (option (Z * Event.t) * option string) * db :=
  let event :=
    Event.mk title event_date max_participants max_participants
      registration_deadline is_paid allow_waitlist true organizer_id now
      "active" None None None in
  let event_id := next_event_id (events d) in
  ((Some (event_id, event), None), Query.put_event event_id event d).

(** [delete_event(event_id, organizer_id)]: deletes the registrations of the
    event, then the event. *)
Definition delete_event (event_id organizer_id : Z) (d : db)
    : (bool * string) * db :=
  match Query.get_event event_id d with
  | None => ((false, "Event not found"), d)
  | Some event =>
      if negb (Event.organizer_id event =? organizer_id)
      then ((false, "Unauthorized"), d)
      else
        ((true, "Event deleted successfully"),
         mkdb (delete event_id (events d))
              (List.filter
                 (fun r => negb (Registration.event_id r =? event_id))
                 (registrations d))
              (users d))
  end.

(** [toggle_event_status(event_id)]: the event after the toggle, or
    [None]. *)
Definition toggle_event_status (event_id : Z) (d : db)
    : option Event.t * db :=
  match Query.get_event event_id d with
  | None => (None, d)
  | Some event =>
      let event' := Event.set_is_active (negb (Event.is_active event)) event in
      (Some event', Query.put_event event_id event' d)
  end.

End EventWrites.

(** ** Further invariants *)

(** At most one registration row per (user, event) pair. *)
Definition unique_pairs (d : db) : Prop :=
  List.NoDup
    (List.map (fun r => (Registration.user_id r, Registration.event_id r))
              (registrations d)).

(** Every registration belongs to an event of the store. *)
Definition referential (d : db) : Prop :=
  forall r, In r (registrations d) ->
    events d !! Registration.event_id r <> None.

(** Number of waitlisted registrations of an event. *)
Definition waitlist_length (event_id : Z) (d : db) : Z :=
  Query.count_by_event_status event_id "waitlist" d.

Definition check_unique_pairs (d : db) : bool :=
  bool_decide
    (NoDup (List.map (fun r => (Registration.user_id r,
                                Registration.event_id r))
                     (registrations d))).

Definition check_referential (d : db) : bool :=
  forallb (fun r => bool_decide (is_Some (events d !! Registration.event_id r)))
          (registrations d).

(** Not created after: the order of the listings. *)
Definition not_after (a b : Registration.t) : Prop :=
  Registration.created_at a <= Registration.created_at b.

(** The registration of key [registration_id] is in the store and checked
    in. *)
Definition checked_in (registration_id : Z) (d : db) : Prop :=
  exists r, In r (registrations d)
    /\ Registration.id r = registration_id
    /\ Registration.attended r = true.

(** No row of the store relates the user to the event. *)
Definition unregistered (user_id event_id : Z) (d : db) : Prop :=
  forall r, In r (registrations d) ->
    ~ (Registration.user_id r = user_id /\ Registration.event_id r = event_id).

(** [one_confirmed] after organizer 11 created a paid event of twenty
    seats at time 50. *)
Definition second_event : db :=
  snd (EventWrites.create_event 11 "Go meetup" 300 250 20 true false 50
         one_confirmed).

(** * Proofs *)

(** ** Rows of the registrations table *)

Section Rows.

Import Query.
Implicit Types (rows : list Registration.t) (r : Registration.t).

Variable P : Registration.t -> bool.

Lemma count_rows_cons r rows :
  count_rows P (r :: rows) = Z.b2z (P r) + count_rows P rows.
Proof.
  unfold count_rows. simpl. destruct (P r); simpl; lia.
Qed.

Lemma count_rows_app rows1 rows2 :
  count_rows P (rows1 ++ rows2) = count_rows P rows1 + count_rows P rows2.
Proof.
  unfold count_rows. rewrite List.filter_app, List.length_app. lia.
Qed.

Lemma count_rows_nonneg rows : 0 <= count_rows P rows.
Proof. unfold count_rows. lia. Qed.

Lemma rewrite_absent rid f rows :
  ~ In rid (List.map Registration.id rows) ->
  List.map (rewrite_row rid f) rows = rows.
Proof.
  induction rows as [|r rows IH]; simpl; intros Hnot; [reflexivity|].
  unfold rewrite_row at 1.
  destruct (Z.eqb_spec (Registration.id r) rid) as [Heq|Hne].
  - exfalso. apply Hnot. now left.
  - f_equal. apply IH. intros Hin. apply Hnot. now right.
Qed.

Lemma keep_absent rid rows :
  ~ In rid (List.map Registration.id rows) ->
  List.filter (keep_row rid) rows = rows.
Proof.
  induction rows as [|r rows IH]; simpl; intros Hnot; [reflexivity|].
  unfold keep_row at 1.
  destruct (Z.eqb_spec (Registration.id r) rid) as [Heq|Hne]; simpl.
  - exfalso. apply Hnot. now left.
  - f_equal. apply IH. intros Hin. apply Hnot. now right.
Qed.

(** Rewriting the row of key [rid] moves it out of and into the selection. *)
Lemma count_rows_rewrite rid f rows r :
  List.NoDup (List.map Registration.id rows) ->
  In r rows -> Registration.id r = rid ->
  count_rows P (List.map (rewrite_row rid f) rows)
  = count_rows P rows - Z.b2z (P r) + Z.b2z (P (f r)).
Proof.
  induction rows as [|r0 rows IH]; simpl; intros Hnd Hin Hid; [contradiction|].
  inversion Hnd as [|x l Hfresh Hnd']; subst x l.
  rewrite !count_rows_cons.
  destruct Hin as [->|Hin].
  - unfold rewrite_row at 1. rewrite Hid, Z.eqb_refl.
    rewrite rewrite_absent by (rewrite <- Hid; exact Hfresh). lia.
  - assert (Hne : Registration.id r0 <> rid).
    { intros Heq. apply Hfresh. rewrite Heq, <- Hid. now apply List.in_map. }
    unfold rewrite_row at 1.
    destruct (Z.eqb_spec (Registration.id r0) rid); [contradiction|].
    rewrite (IH Hnd' Hin Hid). lia.
Qed.

(** Deleting the row of key [rid] takes it out of the selection. *)
Lemma count_rows_delete rid rows r :
  List.NoDup (List.map Registration.id rows) ->
  In r rows -> Registration.id r = rid ->
  count_rows P (List.filter (keep_row rid) rows) = count_rows P rows - Z.b2z (P r).
Proof.
  induction rows as [|r0 rows IH]; simpl; intros Hnd Hin Hid; [contradiction|].
  inversion Hnd as [|x l Hfresh Hnd']; subst x l.
  destruct Hin as [->|Hin].
  - unfold keep_row at 1. rewrite Hid, Z.eqb_refl. simpl.
    rewrite keep_absent by (rewrite <- Hid; exact Hfresh).
    rewrite count_rows_cons. lia.
  - assert (Hne : Registration.id r0 <> rid).
    { intros Heq. apply Hfresh. rewrite Heq, <- Hid. now apply List.in_map. }
    unfold keep_row at 1.
    destruct (Z.eqb_spec (Registration.id r0) rid); [contradiction|]. simpl.
    rewrite !count_rows_cons, (IH Hnd' Hin Hid). lia.
Qed.

End Rows.

(** Keys in use are below the next key. *)
Lemma next_id_above rows r :
  In r rows -> Registration.id r < Query.next_id rows.
Proof.
  unfold Query.next_id. induction rows as [|r0 rows IH]; simpl; [contradiction|].
  intros [->|Hin]; [lia|]. specialize (IH Hin). lia.
Qed.

Lemma next_id_fresh rows :
  ~ In (Query.next_id rows) (List.map Registration.id rows).
Proof.
  intros Hin. apply List.in_map_iff in Hin as (r & Heq & Hr).
  apply next_id_above in Hr. lia.
Qed.

Lemma rewrite_keeps_ids rid f rows :
  (forall r, Registration.id (f r) = Registration.id r) ->
  List.map Registration.id (List.map (Query.rewrite_row rid f) rows)
  = List.map Registration.id rows.
Proof.
  intros Hf. rewrite List.map_map. apply List.map_ext. intros r.
  unfold Query.rewrite_row. destruct (Registration.id r =? rid); auto.
Qed.

Lemma nodup_keep rid rows :
  List.NoDup (List.map Registration.id rows) ->
  List.NoDup (List.map Registration.id (List.filter (Query.keep_row rid) rows)).
Proof.
  induction rows as [|r rows IH]; simpl; intros Hnd; [constructor|].
  inversion Hnd as [|x l Hfresh Hnd']; subst x l.
  destruct (Query.keep_row rid r); simpl; [|now apply IH].
  constructor; [|now apply IH].
  intros Hin. apply Hfresh.
  apply List.in_map_iff in Hin as (r' & Heq & Hr').
  apply List.filter_In in Hr' as [Hr' _].
  rewrite <- Heq. now apply List.in_map.
Qed.

Lemma rewrite_rewrite rid f g rows :
  (forall r, Registration.id (f r) = Registration.id r) ->
  List.map (Query.rewrite_row rid g) (List.map (Query.rewrite_row rid f) rows)
  = List.map (Query.rewrite_row rid (fun r => g (f r))) rows.
Proof.
  intros Hf. rewrite List.map_map. apply List.map_ext. intros r.
  unfold Query.rewrite_row.
  destruct (Z.eqb_spec (Registration.id r) rid) as [Heq|Hne].
  - rewrite Hf, Heq, Z.eqb_refl. reflexivity.
  - destruct (Z.eqb_spec (Registration.id r) rid); [contradiction|reflexivity].
Qed.

Lemma in_rewrite_other rid f rows r :
  In r rows -> Registration.id r <> rid ->
  In r (List.map (Query.rewrite_row rid f) rows).
Proof.
  intros Hin Hne. apply List.in_map_iff. exists r. split; [|exact Hin].
  unfold Query.rewrite_row.
  destruct (Z.eqb_spec (Registration.id r) rid); [contradiction|reflexivity].
Qed.

(** With unique keys a row is determined by its key. *)
Lemma unique_row rows r1 r2 :
  List.NoDup (List.map Registration.id rows) ->
  In r1 rows -> In r2 rows -> Registration.id r1 = Registration.id r2 ->
  r1 = r2.
Proof.
  induction rows as [|r rows IH]; simpl; [contradiction|].
  intros Hnd H1 H2 Heq.
  inversion Hnd as [|x l Hfresh Hnd']; subst x l.
  destruct H1 as [->|H1], H2 as [->|H2]; auto.
  - exfalso. apply Hfresh. rewrite Heq. now apply List.in_map.
  - exfalso. apply Hfresh. rewrite <- Heq. now apply List.in_map.
Qed.

(** A rewrite that does not change what [P] sees leaves the count alone. *)
Lemma count_rows_rewrite_same P rid f rows :
  (forall r, P (f r) = P r) ->
  Query.count_rows P (List.map (Query.rewrite_row rid f) rows)
  = Query.count_rows P rows.
Proof.
  intros Hf. induction rows as [|r rows IH]; [reflexivity|].
  simpl. rewrite !count_rows_cons, IH. unfold Query.rewrite_row.
  destruct (Registration.id r =? rid); [rewrite Hf|]; reflexivity.
Qed.

(** ** What the queries return *)

Lemma get_registration_some rid d r :
  Query.get_registration rid d = Some r ->
  In r (registrations d) /\ Registration.id r = rid.
Proof.
  unfold Query.get_registration. intros H.
  apply List.find_some in H as [Hin Hid]. split; [exact Hin|].
  now apply Z.eqb_eq.
Qed.

Lemma first_by_user_event_some u e d r :
  Query.first_by_user_event u e d = Some r ->
  In r (registrations d)
  /\ Registration.user_id r = u /\ Registration.event_id r = e.
Proof.
  unfold Query.first_by_user_event. intros H.
  apply List.find_some in H as [Hin Hp].
  apply andb_true_iff in Hp as [Hu He].
  repeat split; [exact Hin| |]; now apply Z.eqb_eq.
Qed.

Lemma has_event_status_true e s r :
  Query.has_event_status e s r = true <->
  Registration.event_id r = e /\ Registration.status r = s.
Proof.
  unfold Query.has_event_status.
  rewrite andb_true_iff, Z.eqb_eq, String.eqb_eq. reflexivity.
Qed.

Lemma first_by_created_at_none rows :
  Query.first_by_created_at rows = None -> rows = [].
Proof.
  destruct rows as [|r rows]; [reflexivity|]. simpl.
  destruct (Query.first_by_created_at rows); [|discriminate].
  destruct (_ <=? _); discriminate.
Qed.

(** [first_by_created_at] returns a row of the list that no row of the list
    precedes in time. *)
Lemma first_by_created_at_some rows r :
  Query.first_by_created_at rows = Some r ->
  In r rows
  /\ forall r', In r' rows ->
       Registration.created_at r <= Registration.created_at r'.
Proof.
  revert r. induction rows as [|r0 rows IH]; intros r; simpl; [discriminate|].
  destruct (Query.first_by_created_at rows) as [best|] eqn:Hbest.
  - destruct (IH best eq_refl) as [Hin Hmin].
    destruct (Z.leb_spec (Registration.created_at r0)
                         (Registration.created_at best)) as [Hle|Hgt];
      intros [= <-].
    + split; [now left|]. intros r' [<-|Hr']; [lia|].
      specialize (Hmin r' Hr'). lia.
    + split; [now right|]. intros r' [<-|Hr']; [lia|]. now apply Hmin.
  - apply first_by_created_at_none in Hbest. subst rows.
    intros [= <-]. split; [now left|]. intros r' [<-|[]]. lia.
Qed.

(** FIFO: the row [oldest_waitlist] selects is waitlisted on the event and
    was created no later than any other waitlisted row of the event. *)
Lemma oldest_waitlist_some e d r :
  Query.oldest_waitlist e d = Some r ->
  In r (registrations d)
  /\ Registration.event_id r = e
  /\ Registration.status r = "waitlist"
  /\ forall r', In r' (registrations d) ->
       Registration.event_id r' = e -> Registration.status r' = "waitlist" ->
       Registration.created_at r <= Registration.created_at r'.
Proof.
  unfold Query.oldest_waitlist. intros H.
  apply first_by_created_at_some in H as [Hin Hmin].
  apply List.filter_In in Hin as [Hin Hp].
  apply has_event_status_true in Hp as [He Hs].
  repeat split; auto.
  intros r' Hr' He' Hs'. apply Hmin. apply List.filter_In. split; [exact Hr'|].
  apply has_event_status_true. now split.
Qed.

Lemma oldest_waitlist_none e d :
  Query.oldest_waitlist e d = None ->
  forall r, In r (registrations d) ->
    ~ (Registration.event_id r = e /\ Registration.status r = "waitlist").
Proof.
  unfold Query.oldest_waitlist. intros H r Hin Hp.
  apply first_by_created_at_none in H.
  assert (Hr : In r (List.filter (Query.has_event_status e "waitlist")
                                 (registrations d))).
  { apply List.filter_In. split; [exact Hin|].
    now apply has_event_status_true. }
  rewrite H in Hr. contradiction.
Qed.

(** ** Primary keys stay unique *)

Create HintDb store discriminated.

Lemma unique_put_event e ev d :
  unique_ids d -> unique_ids (Query.put_event e ev d).
Proof. intros H. exact H. Qed.

Lemma unique_update rid f d :
  (forall r, Registration.id (f r) = Registration.id r) ->
  unique_ids d -> unique_ids (Query.update_registration rid f d).
Proof.
  unfold unique_ids, Query.update_registration. simpl. intros Hf H.
  now rewrite rewrite_keeps_ids.
Qed.

Lemma unique_delete rid d :
  unique_ids d -> unique_ids (Query.delete_registration rid d).
Proof.
  unfold unique_ids, Query.delete_registration. simpl. apply nodup_keep.
Qed.

Lemma unique_insert r d r' d' :
  Query.insert r d = (r', d') -> unique_ids d -> unique_ids d'.
Proof.
  unfold unique_ids, Query.insert. intros [= <- <-] H. simpl.
  rewrite List.map_app. simpl.
  apply List.NoDup_app; [exact H|repeat constructor; simpl; tauto|].
  intros x Hx [<-|[]]. revert Hx. apply next_id_fresh.
Qed.

Lemma decrement_cases e d rowcount d' :
  Query.decrement_available_seats e d = (rowcount, d') ->
  (rowcount = 0 /\ d' = d)
  \/ (rowcount = 1 /\ exists ev, events d !! e = Some ev
        /\ 0 < Event.available_seats ev
        /\ d' = Query.put_event e
                  (Event.set_available_seats (Event.available_seats ev - 1) ev) d).
Proof.
  unfold Query.decrement_available_seats.
  destruct (events d !! e) as [ev|] eqn:Hev; [|intros [= <- <-]; now left].
  destruct (Z.ltb_spec 0 (Event.available_seats ev)); intros [= <- <-].
  - right. split; [reflexivity|]. exists ev. auto.
  - now left.
Qed.

Lemma unique_decrement e d rowcount d' :
  Query.decrement_available_seats e d = (rowcount, d') ->
  unique_ids d -> unique_ids d'.
Proof.
  intros H Hu. apply decrement_cases in H as [[_ ->]|[_ (ev & _ & _ & ->)]];
    assumption.
Qed.

#[local] Hint Resolve unique_put_event unique_update unique_delete : store.
#[local] Hint Extern 2 (unique_ids _) =>
  match goal with
  | H : Query.insert _ _ = (_, ?d) |- unique_ids ?d =>
      apply (unique_insert _ _ _ _ H)
  | H : Query.decrement_available_seats _ _ = (_, ?d) |- unique_ids ?d =>
      apply (unique_decrement _ _ _ _ H)
  end : store.

Lemma promote_unique e d :
  unique_ids d -> unique_ids (snd (WaitlistService.promote_from_waitlist e d)).
Proof.
  intros Hu. unfold WaitlistService.promote_from_waitlist,
    WaitlistService._atomic_promote.
  repeat case_match; simpl; auto with store.
Qed.

(** Every request keeps the primary keys unique. *)
Lemma handle_unique q d : unique_ids d -> unique_ids (handle q d).
Proof.
  intros Hu. destruct q; simpl.
  - unfold ParticipantRoutes.register_event.
    repeat case_match; simpl; auto 6 with store.
  - unfold ParticipantRoutes.cancel_registration.
    repeat case_match; simpl; auto using promote_unique with store.
  - unfold RegistrationService.register_for_event.
    repeat case_match; simpl; auto 6 with store.
  - unfold RegistrationService.cancel_registration.
    repeat case_match; simpl; auto 6 with store.
  - now apply promote_unique.
  - unfold EventService.update_event.
    repeat case_match; simpl; auto with store.
  - unfold RegistrationService.mark_attendance.
    repeat case_match; simpl; auto with store.
  - unfold EventStatusService.update_event_status.
    repeat case_match; simpl; auto with store.
  - unfold FirestoreSync._sqlite_update_event_status.
    case_match; auto with store.
Qed.

Lemma run_unique qs : forall d, unique_ids d -> unique_ids (run qs d).
Proof.
  induction qs as [|q qs IH]; simpl; intros d Hu; [exact Hu|].
  apply IH. now apply handle_unique.
Qed.

(** ** Effect of the writes on lookups and counts *)

Lemma lookup_put_event e ev d e' :
  events (Query.put_event e ev d) !! e'
  = if decide (e = e') then Some ev else events d !! e'.
Proof. unfold Query.put_event. simpl. apply lookup_insert. Qed.

Lemma events_insert r d r' d' :
  Query.insert r d = (r', d') -> events d' = events d.
Proof. unfold Query.insert. now intros [= <- <-]. Qed.

Lemma count_put_event e s e' ev d :
  Query.count_by_event_status e s (Query.put_event e' ev d)
  = Query.count_by_event_status e s d.
Proof. reflexivity. Qed.

Lemma count_update e s rid f d r :
  unique_ids d -> In r (registrations d) -> Registration.id r = rid ->
  Query.count_by_event_status e s (Query.update_registration rid f d)
  = Query.count_by_event_status e s d
    - Z.b2z (Query.has_event_status e s r)
    + Z.b2z (Query.has_event_status e s (f r)).
Proof. intros Hu Hin Hid. now apply count_rows_rewrite. Qed.

Lemma count_update_same e s rid f d :
  (forall r, Query.has_event_status e s (f r) = Query.has_event_status e s r) ->
  Query.count_by_event_status e s (Query.update_registration rid f d)
  = Query.count_by_event_status e s d.
Proof. intros Hf. now apply count_rows_rewrite_same. Qed.

Lemma count_delete e s rid d r :
  unique_ids d -> In r (registrations d) -> Registration.id r = rid ->
  Query.count_by_event_status e s (Query.delete_registration rid d)
  = Query.count_by_event_status e s d - Z.b2z (Query.has_event_status e s r).
Proof. intros Hu Hin Hid. now apply count_rows_delete. Qed.

Lemma count_insert e s r d r' d' :
  Query.insert r d = (r', d') ->
  Query.count_by_event_status e s d'
  = Query.count_by_event_status e s d + Z.b2z (Query.has_event_status e s r).
Proof.
  unfold Query.insert. intros [= <- <-].
  unfold Query.count_by_event_status. simpl.
  rewrite count_rows_app, count_rows_cons.
  change (Query.has_event_status e s (Registration.set_id _ r))
    with (Query.has_event_status e s r).
  change (Query.count_rows (Query.has_event_status e s) []) with 0. lia.
Qed.

Lemma count_nonneg e s d : 0 <= Query.count_by_event_status e s d.
Proof. apply count_rows_nonneg. Qed.

(** Evaluates [has_event_status] on a row whose event and status are known
    from the context, possibly under a setter. *)
Ltac has_status :=
  unfold Query.has_event_status;
  cbn [Registration.event_id Registration.status Registration.set_status
       Registration.set_payment_status Registration.set_qr_code
       Registration.set_attendance Registration.set_id Registration.new];
  repeat match goal with
  | H : Registration.event_id ?r = _ |- context [Registration.event_id ?r] =>
      rewrite H
  | H : Registration.status ?r = _ |- context [Registration.status ?r] =>
      rewrite H
  | H : String.eqb (Registration.status ?r) ?s = _
    |- context [String.eqb (Registration.status ?r) ?s] => rewrite H
  end;
  cbn [String.eqb Ascii.eqb Bool.eqb andb Z.b2z];
  repeat match goal with
  | H : ?a <> ?b |- context [?a =? ?b] =>
      rewrite (proj2 (Z.eqb_neq a b) H)
  | H : ?a <> ?b |- context [?b =? ?a] =>
      rewrite (proj2 (Z.eqb_neq b a) (not_eq_sym H))
  end;
  rewrite ?Z.eqb_refl, ?andb_true_r, ?andb_false_r;
  cbn [andb Z.b2z].

(** Splits on whether the event looked up is the one written. *)
Ltac which_event H :=
  rewrite lookup_put_event in H;
  let Heq := fresh "Heq" in
  destruct (decide _) as [Heq|Heq] in H;
  [ try subst; injection H as <- | ].

(** ** Conservation *)

Lemma promote_conserved e d :
  unique_ids d -> conserved d ->
  conserved (snd (WaitlistService.promote_from_waitlist e d)).
Proof.
  intros Hu Hc.
  unfold WaitlistService.promote_from_waitlist, WaitlistService._atomic_promote.
  destruct (Query.get_event e d) as [event|] eqn:Hev; [|exact Hc].
  destruct (Event.available_seats event <=? 0); [exact Hc|].
  destruct (Query.oldest_waitlist e d) as [w|] eqn:Hw; [|exact Hc].
  apply oldest_waitlist_some in Hw as (Hin & He & Hs & _).
  cbn [snd]. intros e' ev' Hlook.
  rewrite count_put_event, (count_update _ _ _ _ _ w Hu Hin eq_refl).
  which_event Hlook.
  - has_status. specialize (Hc _ _ Hev). simpl. lia.
  - has_status. specialize (Hc _ _ Hlook). lia.
Qed.

Lemma events_update rid f d :
  events (Query.update_registration rid f d) = events d.
Proof. reflexivity. Qed.

Lemma events_delete rid d :
  events (Query.delete_registration rid d) = events d.
Proof. reflexivity. Qed.

Lemma count_update_qr e s rid q d :
  Query.count_by_event_status e s
    (Query.update_registration rid (Registration.set_qr_code q) d)
  = Query.count_by_event_status e s d.
Proof. now apply count_update_same. Qed.

Lemma register_event_conserved u e now d :
  unique_ids d -> conserved d ->
  conserved (snd (ParticipantRoutes.register_event u e now d)).
Proof.
  intros Hu Hc. unfold ParticipantRoutes.register_event.
  destruct (Query.get_event e d) as [event|] eqn:Hev; [|exact Hc].
  destruct (_ || _); [exact Hc|].
  destruct (Query.first_by_user_event u e d) as [existing|] eqn:Hex.
  - (* a row exists for the pair *)
    apply first_by_user_event_some in Hex as (Hin & _ & He).
    destruct (String.eqb_spec (Registration.status existing) "cancelled")
      as [Hs|_]; [|exact Hc].
    destruct (Event.available_seats event <=? 0); [exact Hc|].
    cbn [snd]. intros e' ev' Hlook.
    rewrite count_update_qr, count_put_event,
      (count_update _ _ _ _ _ existing Hu Hin eq_refl).
    rewrite events_update in Hlook. which_event Hlook.
    + has_status. specialize (Hc _ _ Hev). simpl. lia.
    + has_status. specialize (Hc _ _ Hlook). lia.
  - (* first registration of the pair *)
    destruct (now >? Event.registration_deadline event); [exact Hc|].
    destruct (Event.available_seats event <=? 0).
    + destruct (Event.allow_waitlist event); [|exact Hc].
      destruct (Query.insert _ d) as [r' d1] eqn:Hins. cbn [snd].
      intros e' ev' Hlook.
      rewrite (count_insert _ _ _ _ _ _ Hins).
      rewrite (events_insert _ _ _ _ Hins) in Hlook.
      has_status. specialize (Hc _ _ Hlook). lia.
    + destruct (Query.decrement_available_seats e d) as [rowcount d1] eqn:Hdec.
      apply decrement_cases in Hdec
        as [[-> ->]|[-> (ev & Hev' & Hpos & ->)]]; [exact Hc|].
      unfold Query.get_event in Hev. rewrite Hev in Hev'.
      injection Hev' as <-. cbn [Z.eqb Pos.eqb].
      destruct (Query.insert _ _) as [r' d2] eqn:Hins. cbn [snd].
      intros e' ev' Hlook.
      rewrite count_update_qr, (count_insert _ _ _ _ _ _ Hins), count_put_event.
      rewrite events_update, (events_insert _ _ _ _ Hins) in Hlook.
      which_event Hlook.
      * has_status. specialize (Hc _ _ Hev). simpl. lia.
      * has_status. specialize (Hc _ _ Hlook). lia.
Qed.

Lemma register_for_event_conserved u e now d :
  conserved d ->
  conserved (snd (RegistrationService.register_for_event u e now d)).
Proof.
  intros Hc. unfold RegistrationService.register_for_event.
  destruct (negb _); [exact Hc|].
  destruct (Query.get_event e d) as [event|] eqn:Hev; [|exact Hc].
  destruct (now >? _); [exact Hc|].
  destruct (Query.first_by_user_event u e d); [exact Hc|].
  destruct (Event.available_seats event <=? 0); [exact Hc|].
  destruct (Query.insert _ d) as [r' d1] eqn:Hins. cbn [snd].
  intros e' ev' Hlook.
  rewrite count_put_event, (count_insert _ _ _ _ _ _ Hins).
  rewrite lookup_put_event, (events_insert _ _ _ _ Hins) in Hlook.
  destruct (decide (e = e')) as [<-|Hne].
  - injection Hlook as <-. has_status. specialize (Hc _ _ Hev). simpl. lia.
  - has_status. specialize (Hc _ _ Hlook). lia.
Qed.

(** Releasing the seat of a registration and deleting its row, as both
    cancellations do before they promote. *)
Lemma release_conserved d registration event :
  unique_ids d -> conserved d ->
  In registration (registrations d) ->
  Query.get_event (Registration.event_id registration) d = Some event ->
  conserved
    (Query.delete_registration (Registration.id registration)
       (if String.eqb (Registration.status registration) "confirmed"
        then Query.put_event (Registration.event_id registration)
               (Event.set_available_seats (Event.available_seats event + 1)
                  event) d
        else d)).
Proof.
  intros Hu Hc Hin Hev.
  destruct (String.eqb_spec (Registration.status registration) "confirmed")
    as [Hs|Hs]; intros e' ev' Hlook;
    rewrite (count_delete _ _ _ _ registration) by auto with store;
    rewrite events_delete in Hlook.
  - rewrite count_put_event. which_event Hlook.
    + has_status. specialize (Hc _ _ Hev). simpl. lia.
    + has_status. specialize (Hc _ _ Hlook).
      destruct (Registration.event_id registration =? e'); simpl; lia.
  - specialize (Hc _ _ Hlook).
    apply String.eqb_neq in Hs. has_status. lia.
Qed.

Lemma cancel_registration_conserved u rid d :
  unique_ids d -> conserved d ->
  conserved (snd (ParticipantRoutes.cancel_registration u rid d)).
Proof.
  intros Hu Hc. unfold ParticipantRoutes.cancel_registration.
  destruct (Query.get_registration rid d) as [registration|] eqn:Hreg;
    [|exact Hc].
  apply get_registration_some in Hreg as [Hin <-].
  destruct (negb _); [exact Hc|].
  destruct (Registration.attended registration); [exact Hc|].
  destruct (Query.get_event _ d) as [event|] eqn:Hev; [|exact Hc].
  cbn [snd].
  pose proof (release_conserved d registration event Hu Hc Hin Hev) as Hrel.
  destruct (String.eqb (Registration.status registration) "confirmed").
  - apply promote_conserved; auto with store.
  - exact Hrel.
Qed.

Lemma service_cancel_conserved u e d :
  unique_ids d -> conserved d ->
  conserved (snd (RegistrationService.cancel_registration u e d)).
Proof.
  intros Hu Hc. unfold RegistrationService.cancel_registration.
  destruct (Query.first_by_user_event u e d) as [registration|] eqn:Hreg;
    [|exact Hc].
  apply first_by_user_event_some in Hreg as (Hin & _ & He).
  destruct (Registration.attended registration); [exact Hc|].
  destruct (String.eqb_spec (Registration.status registration) "confirmed")
    as [Hs|Hs].
  - destruct (Query.get_event e d) as [event|] eqn:Hev; [|exact Hc].
    cbn [snd].
    destruct (Query.oldest_waitlist e _) as [w|] eqn:Hw.
    + apply oldest_waitlist_some in Hw as (Hw & Hwe & Hws & _).
      cbn [registrations Query.put_event set_events] in Hw.
      assert (Hne : Registration.id registration <> Registration.id w).
      { intros Hid.
        pose proof (unique_row _ _ _ Hu Hin Hw Hid) as Hsame.
        rewrite Hsame in Hs. congruence. }
      intros e' ev' Hlook.
      rewrite (count_delete _ _ _ _ registration);
        [|auto with store|now apply in_rewrite_other|reflexivity].
      rewrite count_put_event, (count_update _ _ _ _ _ w), count_put_event
        by auto with store.
      rewrite events_delete in Hlook. which_event Hlook.
      * has_status. specialize (Hc _ _ Hev). simpl. lia.
      * rewrite events_update, lookup_put_event in Hlook.
        destruct (decide _) in Hlook; [contradiction|].
        has_status. specialize (Hc _ _ Hlook). lia.
    + intros e' ev' Hlook.
      rewrite (count_delete _ _ _ _ registration), count_put_event
        by auto with store.
      rewrite events_delete in Hlook. which_event Hlook.
      * has_status. specialize (Hc _ _ Hev). simpl. lia.
      * has_status. specialize (Hc _ _ Hlook). lia.
  - cbn [snd]. intros e' ev' Hlook.
    rewrite (count_delete _ _ _ _ registration) by auto with store.
    rewrite events_delete in Hlook. specialize (Hc _ _ Hlook).
    apply String.eqb_neq in Hs. has_status. lia.
Qed.

Lemma update_event_conserved e o t date deadline m paid w d :
  conserved d ->
  resize_fits (UpdateEvent e o t date deadline m paid w) d ->
  conserved (snd (EventService.update_event e o t date deadline m paid w d)).
Proof.
  intros Hc Hfit. unfold resize_fits, resizes_below in Hfit.
  unfold EventService.update_event.
  destruct (Query.get_event e d) as [event|] eqn:Hev; [|exact Hc].
  destruct (Z.eqb_spec (Event.organizer_id event) o) as [Ho|Ho];
    [|exact Hc].
  cbn [negb snd]. intros e' ev' Hlook. rewrite count_put_event.
  which_event Hlook; [|now apply Hc].
  specialize (Hc _ _ Hev). cbn [Event.available_seats Event.max_participants].
  destruct m as [new_max|]; [|exact Hc].
  cbn [andb] in Hfit.
  destruct (EventService.truthy (Some new_max)); [|exact Hc].
  cbn [andb] in *.
  destruct (Z.eqb_spec new_max (Event.max_participants event)) as [Hsame|Hnew];
    cbn [negb andb] in *.
  - simpl. lia.
  - apply Z.ltb_ge in Hfit. simpl. lia.
Qed.

(** A request that writes neither a seat count, a capacity nor the status
    of a registration keeps every count and every seat. *)
Lemma mark_attendance_conserved rid now d :
  conserved d ->
  conserved (snd (RegistrationService.mark_attendance rid now d)).
Proof.
  intros Hc. unfold RegistrationService.mark_attendance.
  repeat case_match; try exact Hc.
  cbn [snd]. intros e' ev' Hlook.
  rewrite count_update_same by reflexivity. now apply Hc.
Qed.

Lemma update_event_status_conserved e s reason p now d :
  conserved d ->
  conserved
    (snd (EventStatusService.update_event_status e s reason p now d)).
Proof.
  intros Hc. unfold EventStatusService.update_event_status.
  destruct (negb _); [exact Hc|].
  destruct (Query.get_event e d) as [event|] eqn:Hev; [|exact Hc].
  specialize (Hc e event Hev) as Hce.
  repeat case_match; try exact Hc; cbn [snd]; intros e' ev' Hlook;
    rewrite count_put_event; (which_event Hlook; [exact Hce|now apply Hc]).
Qed.

Lemma status_fallback_conserved e s d :
  conserved d -> conserved (FirestoreSync._sqlite_update_event_status e s d).
Proof.
  intros Hc. unfold FirestoreSync._sqlite_update_event_status.
  destruct (Query.get_event e d) as [event|] eqn:Hev; [|exact Hc].
  intros e' ev' Hlook. rewrite count_put_event.
  which_event Hlook; [exact (Hc _ _ Hev)|now apply Hc].
Qed.

(** Under conservation the [registered_count] of an event is the number of
    its confirmed registrations. *)
Lemma registered_count_confirmed d e event :
  conserved d -> events d !! e = Some event ->
  Event.registered_count event = Query.count_by_event_status e "confirmed" d.
Proof.
  intros Hc Hev. unfold Event.registered_count. rewrite (Hc _ _ Hev). lia.
Qed.

(** Every request but a resize below the confirmed registrations keeps the
    seats conserved. *)
Lemma handle_conserved q d :
  unique_ids d -> conserved d -> resize_fits q d -> conserved (handle q d).
Proof.
  intros Hu Hc Hfit. destruct q; simpl.
  - now apply register_event_conserved.
  - now apply cancel_registration_conserved.
  - now apply register_for_event_conserved.
  - now apply service_cancel_conserved.
  - now apply promote_conserved.
  - now apply update_event_conserved.
  - now apply mark_attendance_conserved.
  - now apply update_event_status_conserved.
  - now apply status_fallback_conserved.
Qed.

(** ** Soundness of the checks *)

Lemma check_unique_ids_sound d : check_unique_ids d = true -> unique_ids d.
Proof.
  unfold check_unique_ids, unique_ids. intros H.
  apply bool_decide_eq_true in H. now apply NoDup_ListNoDup.
Qed.

Lemma check_events_sound (ok : Z * Event.t -> bool) d :
  forallb ok (map_to_list (events d)) = true ->
  forall event_id event, events d !! event_id = Some event ->
    ok (event_id, event) = true.
Proof.
  intros H event_id event Hlook. rewrite List.forallb_forall in H.
  apply H. apply list_elem_of_In. now apply elem_of_map_to_list.
Qed.

Lemma check_conserved_sound d : check_conserved d = true -> conserved d.
Proof.
  intros H event_id event Hlook.
  apply (check_events_sound _ _ H) in Hlook. now apply Z.eqb_eq in Hlook.
Qed.

Lemma check_seats_nonneg_sound d :
  check_seats_nonneg d = true -> seats_nonneg d.
Proof.
  intros H event_id event Hlook.
  apply (check_events_sound _ _ H) in Hlook. now apply Z.leb_le in Hlook.
Qed.

(** ** C1: seats are conserved *)

(** C1, as stated, fails: on event 1 with two seats and two confirmed
    registrations the invariant holds, and after the capacity is lowered to
    one seat [update_event] writes [available_seats = max(0, 1 - 2) = 0]
    while [max_participants - confirmed = -1]. *)
Lemma conservation_broken_by_shrink :
  unique_ids full_house /\ conserved full_house
  /\ ~ conserved (run [shrink_to_one] full_house).
Proof.
  split; [apply check_unique_ids_sound; reflexivity|].
  split; [apply check_conserved_sound; reflexivity|].
  intros H. pose proof (H 1) as H1. vm_compute in H1.
  specialize (H1 _ eq_refl). discriminate H1.
Qed.

(** C1 (amended): for every event, after any sequence of register, cancel,
    promote and capacity-resize requests in which no resize lowers
    [max_participants] below the number of confirmed registrations,
    [available_seats = max_participants - count(confirmed)]; a resize below
    that number writes [available_seats = 0] and the new capacity. *)
Theorem seat_conservation :
  (forall qs d, unique_ids d -> conserved d -> resizes_fit qs d ->
     conserved (run qs d))
  /\ (forall e o t date deadline new_max paid w d,
        resizes_below (UpdateEvent e o t date deadline (Some new_max) paid w) d
          = true ->
        exists event',
          events (handle (UpdateEvent e o t date deadline (Some new_max) paid w) d)
            !! e = Some event'
          /\ Event.available_seats event' = 0
          /\ Event.max_participants event' = new_max
          /\ new_max < Query.count_by_event_status e "confirmed" d).
Proof.
  split.
  - induction qs as [|q qs IH]; simpl; intros d Hu Hc Hfit; [exact Hc|].
    destruct Hfit as [Hq Hqs].
    apply IH; [now apply handle_unique|now apply handle_conserved|exact Hqs].
  - intros e o t date deadline new_max paid w d.
    unfold resizes_below, handle, EventService.update_event.
    destruct (Query.get_event e d) as [event|]; [|discriminate].
    intros H.
    apply andb_true_iff in H as [H Hlt].
    apply andb_true_iff in H as [H Hnew].
    apply andb_true_iff in H as [Ho Htruthy].
    rewrite Ho, Htruthy, Hnew. cbn [negb andb snd].
    rewrite lookup_put_event.
    destruct (decide (e = e)); [|contradiction].
    eexists. split; [reflexivity|].
    apply Z.ltb_lt in Hlt. simpl. repeat split; lia.
Qed.

Lemma seat_conservation_witness :
  conserved (run scenario one_seat)
  /\ exists event',
       events (handle shrink_to_one full_house) !! 1 = Some event'
       /\ Event.available_seats event' = 0
       /\ Event.max_participants event' = 1
       /\ 1 < Query.count_by_event_status 1 "confirmed" full_house.
Proof.
  split.
  - apply (proj1 seat_conservation).
    + apply check_unique_ids_sound. vm_compute. reflexivity.
    + apply check_conserved_sound. vm_compute. reflexivity.
    + simpl. repeat split; vm_compute; reflexivity.
  - apply (proj2 seat_conservation). vm_compute. reflexivity.
Defined.

(** ** C2: no oversell *)

Lemma promote_nonneg e d :
  seats_nonneg d ->
  seats_nonneg (snd (WaitlistService.promote_from_waitlist e d)).
Proof.
  intros Hn.
  unfold WaitlistService.promote_from_waitlist, WaitlistService._atomic_promote.
  destruct (Query.get_event e d) as [event|] eqn:Hev; [|exact Hn].
  destruct (Z.leb_spec (Event.available_seats event) 0); [exact Hn|].
  destruct (Query.oldest_waitlist e d); [|exact Hn].
  cbn [snd]. intros e' ev' Hlook. which_event Hlook.
  - simpl. lia.
  - exact (Hn _ _ Hlook).
Qed.

Lemma register_event_nonneg u e now d :
  seats_nonneg d ->
  seats_nonneg (snd (ParticipantRoutes.register_event u e now d)).
Proof.
  intros Hn. unfold ParticipantRoutes.register_event.
  destruct (Query.get_event e d) as [event|] eqn:Hev; [|exact Hn].
  destruct (_ || _); [exact Hn|].
  destruct (Query.first_by_user_event u e d) as [existing|].
  - destruct (String.eqb _ _); [|exact Hn].
    destruct (Z.leb_spec (Event.available_seats event) 0); [exact Hn|].
    cbn [snd]. intros e' ev' Hlook. rewrite events_update in Hlook.
    which_event Hlook; [simpl; lia|exact (Hn _ _ Hlook)].
  - destruct (now >? _); [exact Hn|].
    destruct (Event.available_seats event <=? 0).
    + destruct (Event.allow_waitlist event); [|exact Hn].
      destruct (Query.insert _ d) as [r' d1] eqn:Hins. cbn [snd].
      intros e' ev' Hlook. rewrite (events_insert _ _ _ _ Hins) in Hlook.
      exact (Hn _ _ Hlook).
    + destruct (Query.decrement_available_seats e d) as [rowcount d1] eqn:Hdec.
      apply decrement_cases in Hdec
        as [[-> ->]|[-> (ev & Hev' & Hpos & ->)]]; [exact Hn|].
      cbn [Z.eqb Pos.eqb].
      destruct (Query.insert _ _) as [r' d2] eqn:Hins. cbn [snd].
      intros e' ev' Hlook.
      rewrite events_update, (events_insert _ _ _ _ Hins) in Hlook.
      which_event Hlook; [simpl; lia|exact (Hn _ _ Hlook)].
Qed.

Lemma register_for_event_nonneg u e now d :
  seats_nonneg d ->
  seats_nonneg (snd (RegistrationService.register_for_event u e now d)).
Proof.
  intros Hn. unfold RegistrationService.register_for_event.
  destruct (negb _); [exact Hn|].
  destruct (Query.get_event e d) as [event|] eqn:Hev; [|exact Hn].
  destruct (now >? _); [exact Hn|].
  destruct (Query.first_by_user_event u e d); [exact Hn|].
  destruct (Z.leb_spec (Event.available_seats event) 0); [exact Hn|].
  destruct (Query.insert _ d) as [r' d1] eqn:Hins. cbn [snd].
  intros e' ev' Hlook.
  rewrite lookup_put_event, (events_insert _ _ _ _ Hins) in Hlook.
  destruct (decide (e = e')) as [<-|Hne].
  - injection Hlook as <-. simpl. lia.
  - exact (Hn _ _ Hlook).
Qed.

Lemma cancel_registration_nonneg u rid d :
  seats_nonneg d ->
  seats_nonneg (snd (ParticipantRoutes.cancel_registration u rid d)).
Proof.
  intros Hn. unfold ParticipantRoutes.cancel_registration.
  destruct (Query.get_registration rid d) as [registration|]; [|exact Hn].
  destruct (negb _); [exact Hn|].
  destruct (Registration.attended registration); [exact Hn|].
  destruct (Query.get_event _ d) as [event|] eqn:Hev; [|exact Hn].
  cbn [snd]. destruct (String.eqb _ _).
  - apply promote_nonneg. intros e' ev' Hlook.
    rewrite events_delete in Hlook. which_event Hlook.
    + specialize (Hn _ _ Hev). simpl. lia.
    + exact (Hn _ _ Hlook).
  - exact Hn.
Qed.

Lemma service_cancel_nonneg u e d :
  seats_nonneg d ->
  seats_nonneg (snd (RegistrationService.cancel_registration u e d)).
Proof.
  intros Hn. unfold RegistrationService.cancel_registration.
  destruct (Query.first_by_user_event u e d) as [registration|]; [|exact Hn].
  destruct (Registration.attended registration); [exact Hn|].
  destruct (String.eqb _ _); [|exact Hn].
  destruct (Query.get_event e d) as [event|] eqn:Hev; [|exact Hn].
  specialize (Hn _ _ Hev) as Hev0.
  cbn [snd]. intros e' ev' Hlook. rewrite events_delete in Hlook.
  destruct (Query.oldest_waitlist e _).
  - which_event Hlook; [simpl; lia|].
    rewrite events_update, lookup_put_event in Hlook.
    destruct (decide _) in Hlook; [contradiction|exact (Hn _ _ Hlook)].
  - which_event Hlook; [simpl; lia|exact (Hn _ _ Hlook)].
Qed.

Lemma update_event_nonneg e o t date deadline m paid w d :
  seats_nonneg d ->
  seats_nonneg (snd (EventService.update_event e o t date deadline m paid w d)).
Proof.
  intros Hn. unfold EventService.update_event.
  destruct (Query.get_event e d) as [event|] eqn:Hev; [|exact Hn].
  destruct (negb _); [exact Hn|].
  cbn [snd]. intros e' ev' Hlook.
  which_event Hlook; [|exact (Hn _ _ Hlook)].
  specialize (Hn _ _ Hev). cbn [Event.available_seats].
  destruct m as [new_max|]; [|exact Hn].
  destruct (_ && _); [simpl; lia|].
  destruct (EventService.truthy _); exact Hn.
Qed.

Lemma update_event_status_nonneg e s reason p now d :
  seats_nonneg d ->
  seats_nonneg
    (snd (EventStatusService.update_event_status e s reason p now d)).
Proof.
  intros Hn. unfold EventStatusService.update_event_status.
  destruct (negb _); [exact Hn|].
  destruct (Query.get_event e d) as [event|] eqn:Hev; [|exact Hn].
  specialize (Hn _ _ Hev) as Hev0.
  repeat case_match; try exact Hn; cbn [snd]; intros e' ev' Hlook;
    (which_event Hlook; [exact Hev0|exact (Hn _ _ Hlook)]).
Qed.

(** No request leaves an event with a negative seat count. *)
Lemma handle_nonneg q d : seats_nonneg d -> seats_nonneg (handle q d).
Proof.
  intros Hn. destruct q; simpl.
  - now apply register_event_nonneg.
  - now apply cancel_registration_nonneg.
  - now apply register_for_event_nonneg.
  - now apply service_cancel_nonneg.
  - now apply promote_nonneg.
  - now apply update_event_nonneg.
  - unfold RegistrationService.mark_attendance. repeat case_match; exact Hn.
  - now apply update_event_status_nonneg.
  - unfold FirestoreSync._sqlite_update_event_status.
    destruct (Query.get_event _ d) as [event|] eqn:Hev; [|exact Hn].
    intros e' ev' Hlook.
    which_event Hlook; [exact (Hn _ _ Hev)|exact (Hn _ _ Hlook)].
Qed.

Lemma in_rewrite rid f rows r :
  In r (List.map (Query.rewrite_row rid f) rows) ->
  In r rows
  \/ exists r0, In r0 rows /\ Registration.id r0 = rid /\ r = f r0.
Proof.
  intros Hin. apply List.in_map_iff in Hin as (r0 & Hr & Hin).
  unfold Query.rewrite_row in Hr.
  destruct (Z.eqb_spec (Registration.id r0) rid) as [Hid|_].
  - right. exists r0. auto.
  - left. now subst r.
Qed.

Lemma registrations_insert r d r' d' :
  Query.insert r d = (r', d') ->
  registrations d' = (registrations d ++ [r'])%list
  /\ r' = Registration.set_id (Query.next_id (registrations d)) r.
Proof. unfold Query.insert. now intros [= <- <-]. Qed.

(** A row that is confirmed after a registration or a promotion was
    confirmed before, or belongs to an event that had a free seat. *)
Lemma confirmed_had_seat q d r :
  unique_ids d -> takes_seat q = true ->
  In r (registrations (handle q d)) -> Registration.status r = "confirmed" ->
  In r (registrations d)
  \/ exists event, events d !! Registration.event_id r = Some event
       /\ 0 < Event.available_seats event.
Proof.
  intros Hu Hq. destruct q as [u e now| |u e now| |e| | | |]; try discriminate;
    clear Hq; cbn [handle].
  - (* register_event *)
    unfold ParticipantRoutes.register_event.
    destruct (Query.get_event e d) as [event|] eqn:Hev; [|now left].
    destruct (_ || _); [now left|].
    destruct (Query.first_by_user_event u e d) as [existing|] eqn:Hex.
    + apply first_by_user_event_some in Hex as (Hin & _ & He).
      destruct (String.eqb _ _); [|now left].
      destruct (Z.leb_spec (Event.available_seats event) 0); [now left|].
      cbn [snd]. unfold Query.update_registration at 1.
      cbn [registrations set_registrations Query.put_event set_events
           Query.update_registration].
      rewrite rewrite_rewrite by reflexivity.
      intros Hr _. apply in_rewrite in Hr as [Hr|(r0 & Hr0 & Hid & ->)];
        [now left|right].
      rewrite (unique_row _ _ _ Hu Hr0 Hin Hid). cbn. rewrite He. eauto.
    + destruct (now >? _); [now left|].
      destruct (Z.leb_spec (Event.available_seats event) 0).
      * destruct (Event.allow_waitlist event); [|now left].
        destruct (Query.insert _ d) as [r' d1] eqn:Hins. cbn [snd].
        apply registrations_insert in Hins as [-> ->].
        intros Hr Hs. apply List.in_app_iff in Hr as [Hr|[<-|[]]];
          [now left|discriminate Hs].
      * destruct (Query.decrement_available_seats e d)
          as [rowcount d1] eqn:Hdec.
        apply decrement_cases in Hdec
          as [[-> ->]|[-> (ev & Hev' & Hpos & ->)]]; [now left|].
        cbn [Z.eqb Pos.eqb].
        destruct (Query.insert _ _) as [r' d2] eqn:Hins. cbn [snd].
        apply registrations_insert in Hins as [Hregs ->].
        cbn [registrations set_registrations Query.update_registration].
        rewrite Hregs. cbn [registrations Query.put_event set_events].
        intros Hr _. apply in_rewrite in Hr as [Hr|(r0 & Hr0 & Hid & ->)].
        -- apply List.in_app_iff in Hr as [Hr|[<-|[]]]; [now left|right].
           cbn. eauto.
        -- apply List.in_app_iff in Hr0 as [Hr0|[<-|[]]]; [|right; cbn; eauto].
           apply next_id_above in Hr0. cbn in Hid. lia.
  - (* register_for_event *)
    unfold RegistrationService.register_for_event.
    destruct (negb _); [now left|].
    destruct (Query.get_event e d) as [event|] eqn:Hev; [|now left].
    destruct (now >? _); [now left|].
    destruct (Query.first_by_user_event u e d); [now left|].
    destruct (Z.leb_spec (Event.available_seats event) 0); [now left|].
    destruct (Query.insert _ d) as [r' d1] eqn:Hins. cbn [snd].
    apply registrations_insert in Hins as [Hregs ->].
    cbn [registrations Query.put_event set_events]. rewrite Hregs.
    intros Hr _. apply List.in_app_iff in Hr as [Hr|[<-|[]]]; [now left|right].
    cbn. eauto.
  - (* promote_from_waitlist *)
    unfold WaitlistService.promote_from_waitlist,
      WaitlistService._atomic_promote.
    destruct (Query.get_event e d) as [event|] eqn:Hev; [|now left].
    destruct (Z.leb_spec (Event.available_seats event) 0); [now left|].
    destruct (Query.oldest_waitlist e d) as [w|] eqn:Hw; [|now left].
    apply oldest_waitlist_some in Hw as (Hin & He & _).
    cbn [snd registrations Query.put_event set_events
         Query.update_registration set_registrations].
    intros Hr _. apply in_rewrite in Hr as [Hr|(r0 & Hr0 & Hid & ->)];
      [now left|right].
    rewrite (unique_row _ _ _ Hu Hr0 Hin Hid). cbn. rewrite He. eauto.
Qed.

(** A promotion confirms at most one registration, on its own event. *)
Lemma promote_count_le e e' d :
  unique_ids d ->
  Query.count_by_event_status e' "confirmed"
    (snd (WaitlistService.promote_from_waitlist e d))
  <= Query.count_by_event_status e' "confirmed" d + Z.b2z (e =? e').
Proof.
  intros Hu.
  unfold WaitlistService.promote_from_waitlist, WaitlistService._atomic_promote.
  assert (Hb : 0 <= Z.b2z (e =? e')) by (destruct (e =? e'); simpl; lia).
  destruct (Query.get_event e d) as [event|]; [|simpl; lia].
  destruct (_ <=? 0); [simpl; lia|].
  destruct (Query.oldest_waitlist e d) as [w|] eqn:Hw; [|simpl; lia].
  apply oldest_waitlist_some in Hw as (Hin & He & Hs & _).
  cbn [snd].
  rewrite count_put_event, (count_update _ _ _ _ _ w Hu Hin eq_refl).
  has_status. lia.
Qed.

(** A cancellation never adds to the confirmed registrations of an event:
    what it promotes takes the seat it released. *)
Lemma cancel_count_le q d e' :
  unique_ids d -> is_cancel q = true ->
  Query.count_by_event_status e' "confirmed" (handle q d)
  <= Query.count_by_event_status e' "confirmed" d.
Proof.
  intros Hu Hq. destruct q as [|u rid| |u e| | | | |]; try discriminate;
    clear Hq; cbn [handle].
  - unfold ParticipantRoutes.cancel_registration.
    destruct (Query.get_registration rid d) as [registration|] eqn:Hreg;
      [|simpl; lia].
    apply get_registration_some in Hreg as [Hin <-].
    destruct (negb _); [simpl; lia|].
    destruct (Registration.attended registration); [simpl; lia|].
    destruct (Query.get_event _ d) as [event|] eqn:Hev; [|simpl; lia].
    cbn [snd].
    destruct (String.eqb_spec (Registration.status registration) "confirmed")
      as [Hs|Hs].
    + etransitivity; [apply promote_count_le; auto with store|].
      rewrite (count_delete _ _ _ _ registration), count_put_event
        by auto with store.
      has_status. lia.
    + rewrite (count_delete _ _ _ _ registration) by auto with store.
      apply String.eqb_neq in Hs. has_status. lia.
  - unfold RegistrationService.cancel_registration.
    destruct (Query.first_by_user_event u e d) as [registration|] eqn:Hreg;
      [|simpl; lia].
    apply first_by_user_event_some in Hreg as (Hin & _ & He).
    destruct (Registration.attended registration); [simpl; lia|].
    destruct (String.eqb_spec (Registration.status registration) "confirmed")
      as [Hs|Hs].
    + destruct (Query.get_event e d) as [event|] eqn:Hev; [|simpl; lia].
      cbn [snd].
      destruct (Query.oldest_waitlist e _) as [w|] eqn:Hw.
      * apply oldest_waitlist_some in Hw as (Hw & Hwe & Hws & _).
        cbn [registrations Query.put_event set_events] in Hw.
        assert (Hne : Registration.id registration <> Registration.id w).
        { intros Hid.
          pose proof (unique_row _ _ _ Hu Hin Hw Hid) as Hsame.
          rewrite Hsame in Hs. congruence. }
        rewrite (count_delete _ _ _ _ registration);
          [|auto with store|now apply in_rewrite_other|reflexivity].
        rewrite count_put_event, (count_update _ _ _ _ _ w), count_put_event
          by auto with store.
        has_status. lia.
      * rewrite (count_delete _ _ _ _ registration), count_put_event
          by auto with store.
        has_status. destruct (e =? e'); simpl; lia.
    + cbn [snd].
      rewrite (count_delete _ _ _ _ registration) by auto with store.
      apply String.eqb_neq in Hs. has_status. lia.
Qed.

(** C2: along every sequence of requests [available_seats] stays
    non-negative; a registration that is confirmed after a register or
    promote request either was confirmed before it or belongs to an event
    that had [available_seats > 0] when the request was served; and a
    cancellation, which promotes on the seat it released, never raises the
    number of confirmed registrations of an event. *)
Theorem no_oversell :
  (forall qs d, seats_nonneg d -> seats_nonneg (run qs d))
  /\ (forall q d r, unique_ids d -> takes_seat q = true ->
        In r (registrations (handle q d)) ->
        Registration.status r = "confirmed" ->
        In r (registrations d)
        \/ exists event, events d !! Registration.event_id r = Some event
             /\ 0 < Event.available_seats event)
  /\ (forall q d e, unique_ids d -> is_cancel q = true ->
        Query.count_by_event_status e "confirmed" (handle q d)
        <= Query.count_by_event_status e "confirmed" d).
Proof.
  split; [|split].
  - induction qs as [|q qs IH]; simpl; intros d Hn; [exact Hn|].
    apply IH. now apply handle_nonneg.
  - exact confirmed_had_seat.
  - intros q d e Hu Hq. now apply cancel_count_le.
Qed.

Lemma no_oversell_witness :
  seats_nonneg (run scenario one_seat)
  /\ (In (sample_registration 4 23 1 "confirmed" 3) (registrations seat_released)
      \/ exists event,
           events seat_released !! 1 = Some event
           /\ 0 < Event.available_seats event)
  /\ Query.count_by_event_status 1 "confirmed"
       (handle (CancelRegistration 21 1) waitlist_abc)
     <= Query.count_by_event_status 1 "confirmed" waitlist_abc.
Proof.
  split; [|split].
  - apply (proj1 no_oversell).
    apply check_seats_nonneg_sound. vm_compute. reflexivity.
  - apply (proj1 (proj2 no_oversell) (Promote 1) seat_released
             (sample_registration 4 23 1 "confirmed" 3)).
    + apply check_unique_ids_sound. vm_compute. reflexivity.
    + reflexivity.
    + vm_compute. tauto.
    + reflexivity.
  - apply (proj2 (proj2 no_oversell)).
    + apply check_unique_ids_sound. vm_compute. reflexivity.
    + reflexivity.
Defined.

(** ** What a promotion does *)

Lemma promote_some e d r d' :
  WaitlistService.promote_from_waitlist e d = (Some r, d') ->
  exists event w,
    Query.get_event e d = Some event
    /\ 0 < Event.available_seats event
    /\ Query.oldest_waitlist e d = Some w
    /\ r = Registration.set_status "confirmed" w
    /\ d' = Query.put_event e
              (Event.set_available_seats (Event.available_seats event - 1) event)
              (Query.update_registration (Registration.id w)
                 (Registration.set_status "confirmed") d).
Proof.
  unfold WaitlistService.promote_from_waitlist, WaitlistService._atomic_promote.
  destruct (Query.get_event e d) as [event|]; [|discriminate].
  destruct (Z.leb_spec (Event.available_seats event) 0); [discriminate|].
  destruct (Query.oldest_waitlist e d) as [w|]; [|discriminate].
  intros [= <- <-]. exists event, w. auto.
Qed.

Lemma promote_none e d d' :
  WaitlistService.promote_from_waitlist e d = (None, d') ->
  d' = d.
Proof.
  unfold WaitlistService.promote_from_waitlist, WaitlistService._atomic_promote.
  repeat case_match; congruence.
Qed.

(** The rows after a promotion: the rows before, the oldest waitlisted row
    of the event now confirmed. *)
Lemma promote_rows e d r :
  unique_ids d ->
  In r (registrations (snd (WaitlistService.promote_from_waitlist e d))) ->
  In r (registrations d)
  \/ exists w, Query.oldest_waitlist e d = Some w
       /\ r = Registration.set_status "confirmed" w.
Proof.
  intros Hu.
  destruct (WaitlistService.promote_from_waitlist e d) as [[p|] d'] eqn:Hp.
  - apply promote_some in Hp as (event & w & _ & _ & Hw & _ & ->).
    cbn [snd registrations Query.put_event set_events
         Query.update_registration set_registrations].
    intros Hr. apply in_rewrite in Hr as [Hr|(r0 & Hr0 & Hid & ->)];
      [now left|right].
    exists w. split; [exact Hw|].
    apply oldest_waitlist_some in Hw as (Hin & _).
    now rewrite (unique_row _ _ _ Hu Hr0 Hin Hid).
  - apply promote_none in Hp as ->. now left.
Qed.

(** ** C3: FIFO promotion *)

(** The row a request promotes is the oldest waitlisted row of its event. *)
Lemma promoted_is_oldest q d r :
  unique_ids d -> promotes q = true ->
  In r (registrations (handle q d)) -> Registration.status r = "confirmed" ->
  In r (registrations d)
  \/ exists w, In w (registrations d)
       /\ Registration.status w = "waitlist"
       /\ r = Registration.set_status "confirmed" w
       /\ forall w', In w' (registrations d) ->
            Registration.event_id w' = Registration.event_id w ->
            Registration.status w' = "waitlist" ->
            Registration.created_at w <= Registration.created_at w'.
Proof.
  intros Hu Hq. destruct q as [|u rid| |u e|e| | | |]; try discriminate;
    clear Hq; cbn [handle]; intros Hr Hconf.
  - (* the cancellation route: release, then promote_from_waitlist *)
    unfold ParticipantRoutes.cancel_registration in Hr.
    destruct (Query.get_registration rid d) as [registration|] eqn:Hreg;
      [|now left].
    apply get_registration_some in Hreg as [Hin <-].
    destruct (negb _); [now left|].
    destruct (Registration.attended registration); [now left|].
    destruct (Query.get_event _ d) as [event|] eqn:Hev; [|now left].
    cbn [snd] in Hr.
    destruct (String.eqb_spec (Registration.status registration) "confirmed")
      as [Hs|Hs].
    + apply promote_rows in Hr; [|auto with store].
      destruct Hr as [Hr|(w & Hw & ->)].
      * left. now apply List.filter_In in Hr as [Hr _].
      * right. exists w.
        apply oldest_waitlist_some in Hw as (Hw & Hwe & Hws & Hmin).
        apply List.filter_In in Hw as [Hw _].
        repeat split; auto.
        intros w' Hw' He' Hs'. apply Hmin; [|congruence|exact Hs'].
        apply List.filter_In. split; [exact Hw'|].
        unfold Query.keep_row. apply negb_true_iff, Z.eqb_neq. intros Hid.
        rewrite (unique_row _ _ _ Hu Hw' Hin Hid) in Hs'. congruence.
    + left. now apply List.filter_In in Hr as [Hr _].
  - (* the cancellation of the service: promotes in the same transaction *)
    unfold RegistrationService.cancel_registration in Hr.
    destruct (Query.first_by_user_event u e d) as [registration|]; [|now left].
    destruct (Registration.attended registration); [now left|].
    destruct (String.eqb _ _).
    + destruct (Query.get_event e d) as [event|]; [|now left].
      cbn [snd] in Hr. apply List.filter_In in Hr as [Hr _].
      destruct (Query.oldest_waitlist e _) as [w|] eqn:Hw; [|now left].
      apply in_rewrite in Hr as [Hr|(r0 & Hr0 & Hid & ->)]; [now left|right].
      apply oldest_waitlist_some in Hw as (Hw & Hwe & Hws & Hmin).
      cbn [registrations Query.put_event set_events] in Hw, Hmin, Hr0.
      rewrite (unique_row _ _ _ Hu Hr0 Hw Hid). exists w.
      repeat split; auto. intros w' Hw' He' Hs'. apply Hmin; congruence.
    + left. now apply List.filter_In in Hr as [Hr _].
  - (* promote_from_waitlist *)
    apply promote_rows in Hr; [|exact Hu].
    destruct Hr as [Hr|(w & Hw & ->)]; [now left|right].
    apply oldest_waitlist_some in Hw as (Hw & Hwe & Hws & Hmin).
    exists w. repeat split; auto.
    intros w' Hw' He' Hs'. apply Hmin; congruence.
Qed.

(** C3: a promotion, by [promote_from_waitlist] or embedded in either
    cancellation, confirms the waitlisted registration of its event with the
    oldest [created_at]; [promote_from_waitlist] returns that registration;
    with A, B, C waitlisted in this order, the first cancellation of a
    confirmed registration promotes A and the second promotes B. *)
Theorem fifo_promotion :
  (forall q d r, unique_ids d -> promotes q = true ->
     In r (registrations (handle q d)) -> Registration.status r = "confirmed" ->
     In r (registrations d)
     \/ exists w, In w (registrations d)
          /\ Registration.status w = "waitlist"
          /\ r = Registration.set_status "confirmed" w
          /\ forall w', In w' (registrations d) ->
               Registration.event_id w' = Registration.event_id w ->
               Registration.status w' = "waitlist" ->
               Registration.created_at w <= Registration.created_at w')
  /\ (forall e d r d',
        WaitlistService.promote_from_waitlist e d = (Some r, d') ->
        exists w, In w (registrations d)
          /\ Registration.event_id w = e
          /\ Registration.status w = "waitlist"
          /\ r = Registration.set_status "confirmed" w
          /\ In r (registrations d')
          /\ forall w', In w' (registrations d) ->
               Registration.event_id w' = e ->
               Registration.status w' = "waitlist" ->
               Registration.created_at w <= Registration.created_at w')
  /\ statuses (run [CancelRegistration 21 1] waitlist_abc)
     = [(2, "confirmed"); (3, "waitlist"); (4, "confirmed"); (5, "waitlist")]
  /\ statuses (run [CancelRegistration 21 1; CancelRegistration 22 2]
                   waitlist_abc)
     = [(3, "waitlist"); (4, "confirmed"); (5, "confirmed")]
  /\ statuses (run [ServiceCancel 21 1; ServiceCancel 22 1] waitlist_abc)
     = [(3, "waitlist"); (4, "confirmed"); (5, "confirmed")].
Proof.
  split; [exact promoted_is_oldest|].
  split; [|repeat split; vm_compute; reflexivity].
  intros e d r d' Hp.
  apply promote_some in Hp as (event & w & _ & _ & Hw & -> & ->).
  apply oldest_waitlist_some in Hw as (Hin & He & Hs & Hmin).
  exists w. repeat split; auto.
  cbn [registrations Query.put_event set_events Query.update_registration
       set_registrations].
  apply List.in_map_iff. exists w. split; [|exact Hin].
  unfold Query.rewrite_row. now rewrite Z.eqb_refl.
Qed.

Lemma fifo_promotion_witness :
  exists w, In w (registrations (handle (CancelRegistration 21 1) waitlist_abc))
    /\ Registration.id w = 4 /\ Registration.status w = "confirmed"
    /\ Registration.created_at w = 3.
Proof.
  pose (r := Registration.set_status "confirmed"
               (sample_registration 4 23 1 "waitlist" 3)).
  destruct (proj1 fifo_promotion (CancelRegistration 21 1) waitlist_abc r)
    as [Hold|(w & Hw & Hs & Hr & Hmin)].
  - apply check_unique_ids_sound. vm_compute. reflexivity.
  - reflexivity.
  - vm_compute. tauto.
  - reflexivity.
  - exfalso. vm_compute in Hold. intuition discriminate.
  - exists r. repeat split. vm_compute. tauto.
Defined.

(** ** C4: the promotion contract *)

Lemma first_by_created_at_cons r rows :
  exists best, Query.first_by_created_at (r :: rows) = Some best.
Proof.
  simpl. destruct (Query.first_by_created_at rows) as [best|]; [|eauto].
  destruct (_ <=? _); eauto.
Qed.

(** There is a waitlisted row for the event exactly when the query finds
    one. *)
Lemma oldest_waitlist_exists e d :
  (exists r, In r (registrations d)
     /\ Registration.event_id r = e /\ Registration.status r = "waitlist")
  -> exists w, Query.oldest_waitlist e d = Some w.
Proof.
  intros (r & Hin & He & Hs). unfold Query.oldest_waitlist.
  assert (Hr : In r (List.filter (Query.has_event_status e "waitlist")
                                 (registrations d))).
  { apply List.filter_In. split; [exact Hin|].
    now apply has_event_status_true. }
  destruct (List.filter _ _) as [|r0 rows]; [contradiction|].
  apply first_by_created_at_cons.
Qed.

(** With unique keys, rewriting the row of key [id w] replaces [w] where it
    stands and nothing else. *)
Lemma rewrite_splits f rows w :
  List.NoDup (List.map Registration.id rows) -> In w rows ->
  exists before after,
    rows = (before ++ w :: after)%list
    /\ List.map (Query.rewrite_row (Registration.id w) f) rows
       = (before ++ f w :: after)%list.
Proof.
  intros Hnd Hin. apply List.in_split in Hin as (before & after & ->).
  exists before, after. split; [reflexivity|].
  rewrite List.map_app in Hnd. simpl in Hnd.
  pose proof (List.NoDup_remove_2 _ _ _ Hnd) as Hfresh.
  rewrite List.map_app. simpl. unfold Query.rewrite_row at 2.
  rewrite Z.eqb_refl, !rewrite_absent; [reflexivity| |];
    intros Hx; apply Hfresh, List.in_app_iff; auto.
Qed.

(** C4: [promote_from_waitlist(event_id)] returns [None] and leaves the
    store as it is when the event does not exist, when
    [available_seats <= 0], or when the event has no waitlisted
    registration; otherwise it returns one waitlisted registration of the
    event, now confirmed: that row alone is rewritten, only its status
    changes, and the event row changes by [available_seats] going down by
    exactly one. *)
Theorem promotion_contract e d :
  unique_ids d ->
  ((Query.get_event e d = None
    \/ (exists event, Query.get_event e d = Some event
          /\ Event.available_seats event <= 0)
    \/ (forall r, In r (registrations d) ->
          ~ (Registration.event_id r = e /\ Registration.status r = "waitlist")))
   -> WaitlistService.promote_from_waitlist e d = (None, d))
  /\ (forall event,
        Query.get_event e d = Some event ->
        0 < Event.available_seats event ->
        (exists r, In r (registrations d)
           /\ Registration.event_id r = e /\ Registration.status r = "waitlist")
        ->
        exists w d' before after,
          WaitlistService.promote_from_waitlist e d
            = (Some (Registration.set_status "confirmed" w), d')
          /\ Registration.event_id w = e
          /\ Registration.status w = "waitlist"
          /\ registrations d = (before ++ w :: after)%list
          /\ registrations d'
             = (before ++ Registration.set_status "confirmed" w :: after)%list
          /\ events d'
             = <[e := Event.set_available_seats
                        (Event.available_seats event - 1) event]> (events d)
          /\ users d' = users d
          /\ Query.count_by_event_status e "confirmed" d'
             = Query.count_by_event_status e "confirmed" d + 1).
Proof.
  intros Hu. split.
  - unfold WaitlistService.promote_from_waitlist,
      WaitlistService._atomic_promote.
    intros [Hnone|[(event & Hev & Hle)|Hnowait]].
    + now rewrite Hnone.
    + rewrite Hev. now destruct (Z.leb_spec (Event.available_seats event) 0);
        [|lia].
    + destruct (Query.get_event e d) as [event|]; [|reflexivity].
      destruct (_ <=? 0); [reflexivity|].
      destruct (Query.oldest_waitlist e d) as [w|] eqn:Hw; [|reflexivity].
      apply oldest_waitlist_some in Hw as (Hin & He & Hs & _).
      exfalso. now apply (Hnowait w Hin).
  - intros event Hev Hpos Hwait.
    apply oldest_waitlist_exists in Hwait as [w Hw].
    unfold WaitlistService.promote_from_waitlist,
      WaitlistService._atomic_promote.
    rewrite Hev, Hw.
    destruct (Z.leb_spec (Event.available_seats event) 0); [lia|].
    apply oldest_waitlist_some in Hw as (Hin & He & Hs & _).
    destruct (rewrite_splits (Registration.set_status "confirmed") _ w Hu Hin)
      as (before & after & Hsplit & Hmap).
    exists w. eexists. exists before, after.
    split; [reflexivity|]. repeat split; auto.
    rewrite count_put_event, (count_update _ _ _ _ _ w Hu Hin eq_refl).
    has_status. lia.
Qed.

Lemma promotion_contract_witness :
  WaitlistService.promote_from_waitlist 1 waitlist_abc = (None, waitlist_abc)
  /\ exists w d' before after,
       WaitlistService.promote_from_waitlist 1 seat_released
         = (Some (Registration.set_status "confirmed" w), d')
       /\ Registration.event_id w = 1
       /\ Registration.status w = "waitlist"
       /\ registrations seat_released = (before ++ w :: after)%list
       /\ registrations d'
          = (before ++ Registration.set_status "confirmed" w :: after)%list
       /\ events d'
          = <[1 := Event.set_available_seats
                     (Event.available_seats (sample_event 2 1 true) - 1)
                     (sample_event 2 1 true)]> (events seat_released)
       /\ users d' = users seat_released
       /\ Query.count_by_event_status 1 "confirmed" d'
          = Query.count_by_event_status 1 "confirmed" seat_released + 1.
Proof.
  split.
  - apply (proj1 (promotion_contract 1 waitlist_abc
             ltac:(apply check_unique_ids_sound; vm_compute; reflexivity))).
    right. left. eexists. split; [vm_compute; reflexivity|simpl; lia].
  - apply (proj2 (promotion_contract 1 seat_released
             ltac:(apply check_unique_ids_sound; vm_compute; reflexivity))).
    + vm_compute. reflexivity.
    + simpl. lia.
    + exists (sample_registration 4 23 1 "waitlist" 3).
      split; [vm_compute; tauto|split; reflexivity].
Defined.

(** ** C5: registering on a full event *)

(** C5, as stated, fails: event 1 is full and allows waitlisting, user 22
    holds a 'cancelled' row and registers again before the deadline; the
    route answers "Sorry, this event is now full." and records no waitlist
    registration. *)
Lemma full_reregistration_not_waitlisted :
  (exists event, Query.get_event 1 full_returning = Some event
     /\ Event.available_seats event <= 0
     /\ Event.allow_waitlist event = true
     /\ ParticipantRoutes.event_status event = "active"
     /\ 10 <= Event.registration_deadline event)
  /\ ParticipantRoutes.register_event 22 1 10 full_returning
     = (ParticipantRoutes.redirect "Sorry, this event is now full." "error"
          (ParticipantRoutes.event_details 1), full_returning)
  /\ ~ exists r,
         In r (registrations
                 (snd (ParticipantRoutes.register_event 22 1 10 full_returning)))
         /\ Registration.user_id r = 22
         /\ Registration.status r = "waitlist".
Proof.
  split; [|split].
  - eexists. split; [vm_compute; reflexivity|].
    repeat split; vm_compute; congruence.
  - vm_compute. reflexivity.
  - intros (r & Hin & Hu & Hs). vm_compute in Hin.
    destruct Hin as [<-|[<-|[]]]; discriminate.
Qed.

(** C5 (amended): a call of the registration route that passes the status
    gate and reads [available_seats <= 0]: for a user without a registration
    row for the event, before the deadline, it records a new row with status
    'waitlist' (no seat consumed, nothing else written) and answers that the
    user was waitlisted when [allow_waitlist] is set, and answers that the
    event is full and writes nothing when it is not set; for a user whose
    row has status 'cancelled' it answers that the event is now full and
    writes nothing, whatever [allow_waitlist] is. *)
Theorem register_when_full u e now d event :
  Query.get_event e d = Some event ->
  String.eqb (ParticipantRoutes.event_status event) "cancelled"
    || String.eqb (ParticipantRoutes.event_status event) "postponed" = false ->
  Event.available_seats event <= 0 ->
  (Query.first_by_user_event u e d = None ->
   now <= Event.registration_deadline event ->
   (Event.allow_waitlist event = true ->
    exists r,
      r = Registration.mk (Query.next_id (registrations d)) u e
            "waitlist" "not_required" None false None now
      /\ ParticipantRoutes.register_event u e now d
         = (ParticipantRoutes.redirect
              "Event is full — you've been added to the waitlist!" "warning"
              (ParticipantRoutes.event_details e),
            mkdb (events d) (registrations d ++ [r]) (users d)))
   /\ (Event.allow_waitlist event = false ->
       ParticipantRoutes.register_event u e now d
       = (ParticipantRoutes.redirect "Sorry, this event is full." "error"
            (ParticipantRoutes.event_details e), d)))
  /\ (forall existing,
        Query.first_by_user_event u e d = Some existing ->
        Registration.status existing = "cancelled" ->
        ParticipantRoutes.register_event u e now d
        = (ParticipantRoutes.redirect "Sorry, this event is now full." "error"
             (ParticipantRoutes.event_details e), d)).
Proof.
  intros Hev Hgate Hfull. unfold ParticipantRoutes.register_event.
  rewrite Hev, Hgate.
  destruct (Z.leb_spec (Event.available_seats event) 0) as [_|Hpos]; [|lia].
  split.
  - intros -> Hnow.
    destruct (Z.gtb_spec now (Event.registration_deadline event)); [lia|].
    split; intros ->; [|reflexivity].
    eexists. split; reflexivity.
  - intros existing -> ->. reflexivity.
Qed.

Lemma register_when_full_witness :
  ParticipantRoutes.register_event 22 1 10 full_returning
  = (ParticipantRoutes.redirect "Sorry, this event is now full." "error"
       (ParticipantRoutes.event_details 1), full_returning)
  /\ exists r,
       r = Registration.mk 3 23 1 "waitlist" "not_required" None false None 10
       /\ ParticipantRoutes.register_event 23 1 10 full_returning
          = (ParticipantRoutes.redirect
               "Event is full — you've been added to the waitlist!" "warning"
               (ParticipantRoutes.event_details 1),
             mkdb (events full_returning)
                  (registrations full_returning ++ [r])
                  (users full_returning)).
Proof.
  assert (Hev : Query.get_event 1 full_returning = Some (sample_event 1 0 true))
    by (vm_compute; reflexivity).
  split.
  - apply (proj2 (register_when_full 22 1 10 full_returning _ Hev
                    eq_refl ltac:(simpl; lia))
             (sample_registration 2 22 1 "cancelled" 2)); reflexivity.
  - apply (proj1 (register_when_full 23 1 10 full_returning _ Hev
                    eq_refl ltac:(simpl; lia))); [reflexivity|simpl; lia|].
    reflexivity.
Defined.

(** The registration of the service has no waitlist: on a full event it
    answers that the event is sold out, whatever [allow_waitlist] is. *)
Lemma register_for_event_sold_out u e now d event :
  u ∈ users d ->
  Query.get_event e d = Some event ->
  now <= Event.registration_deadline event ->
  Query.first_by_user_event u e d = None ->
  Event.available_seats event <= 0 ->
  RegistrationService.register_for_event u e now d
  = ((None, Some "Event is sold out"), d).
Proof.
  intros Hu Hev Hnow Hnone Hfull.
  unfold RegistrationService.register_for_event.
  rewrite bool_decide_eq_true_2 by exact Hu. cbn [negb].
  rewrite Hev, Hnone.
  destruct (Z.gtb_spec now (Event.registration_deadline event)); [lia|].
  destruct (Z.leb_spec (Event.available_seats event) 0); [reflexivity|lia].
Qed.

(** ** C6: the status gate *)

(** The registration route refuses a cancelled or postponed event and
    writes nothing. *)
Lemma register_event_status_gate u e now d event :
  Query.get_event e d = Some event ->
  Event.status event = "cancelled" \/ Event.status event = "postponed" ->
  ParticipantRoutes.register_event u e now d
  = (ParticipantRoutes.redirect
       "Cannot register — this event has been cancelled or postponed."
       "error" (ParticipantRoutes.event_details e), d).
Proof.
  intros Hev Hs. unfold ParticipantRoutes.register_event.
  rewrite Hev. unfold ParticipantRoutes.event_status.
  now destruct Hs as [-> | ->].
Qed.

(** C6 fails in [RegistrationService.register_for_event]: once event 1 is
    cancelled the registration route refuses user 21 and writes nothing, but
    the registration of the service, which never reads the status, confirms
    user 21 and takes a seat. *)
Theorem register_for_event_ignores_cancelled :
  (exists event, Query.get_event 1 cancelled_store = Some event
     /\ Event.status event = "cancelled"
     /\ Event.is_active event = false
     /\ Event.available_seats event = 5)
  /\ ParticipantRoutes.register_event 21 1 10 cancelled_store
     = (ParticipantRoutes.redirect
          "Cannot register — this event has been cancelled or postponed."
          "error" (ParticipantRoutes.event_details 1), cancelled_store)
  /\ exists d',
       RegistrationService.register_for_event 21 1 10 cancelled_store
       = ((Some (Registration.mk 1 21 1 "confirmed" "not_required"
                   None false None 10), None), d')
       /\ statuses d' = [(1, "confirmed")]
       /\ (exists event', Query.get_event 1 d' = Some event'
             /\ Event.status event' = "cancelled"
             /\ Event.available_seats event' = 4).
Proof.
  split; [|split].
  - eexists. split; [vm_compute; reflexivity|]. repeat split.
  - vm_compute. reflexivity.
  - eexists. split; [vm_compute; reflexivity|].
    split; [reflexivity|].
    eexists. split; [vm_compute; reflexivity|]. split; reflexivity.
Qed.

(** ** C7: the registration deadline *)

(** After the deadline the route refuses a user without a registration row
    for the event and writes nothing. *)
Lemma register_event_deadline_passed u e now d event :
  Query.get_event e d = Some event ->
  String.eqb (ParticipantRoutes.event_status event) "cancelled"
    || String.eqb (ParticipantRoutes.event_status event) "postponed" = false ->
  Query.first_by_user_event u e d = None ->
  Event.registration_deadline event < now ->
  ParticipantRoutes.register_event u e now d
  = (ParticipantRoutes.redirect "Registration deadline has passed." "error"
       (ParticipantRoutes.event_details e), d).
Proof.
  intros Hev Hgate Hnone Hlate. unfold ParticipantRoutes.register_event.
  rewrite Hev, Hgate, Hnone.
  now destruct (Z.gtb_spec now (Event.registration_deadline event)); [|lia].
Qed.

(** After the deadline the registration of the service refuses every user,
    with or without a registration row, and writes nothing. *)
Lemma register_for_event_deadline_passed u e now d event :
  u ∈ users d ->
  Query.get_event e d = Some event ->
  Event.registration_deadline event < now ->
  RegistrationService.register_for_event u e now d
  = ((None, Some "Registration deadline has passed"), d).
Proof.
  intros Hu Hev Hlate. unfold RegistrationService.register_for_event.
  rewrite bool_decide_eq_true_2 by exact Hu. cbn [negb]. rewrite Hev.
  now destruct (Z.gtb_spec now (Event.registration_deadline event)); [|lia].
Qed.

(** C7 fails on re-registration: registration for event 1 closed at time
    100; at time 150 the route confirms user 21, who holds a 'cancelled'
    row, and takes a seat, because it looks for an existing row before it
    looks at the deadline.  The registration of the service, which tests the
    deadline first, refuses the same call. *)
Theorem reregistration_ignores_deadline :
  (exists event, Query.get_event 1 returning_user = Some event
     /\ Event.registration_deadline event < 150
     /\ Event.available_seats event = 3)
  /\ statuses returning_user
     = [(1, "cancelled"); (2, "confirmed"); (3, "confirmed")]
  /\ (exists d',
        ParticipantRoutes.register_event 21 1 150 returning_user
        = (ParticipantRoutes.redirect "Registration successful!" "success"
             (ParticipantRoutes.view_ticket 1), d')
        /\ statuses d' = [(1, "confirmed"); (2, "confirmed"); (3, "confirmed")]
        /\ exists event', Query.get_event 1 d' = Some event'
             /\ Event.available_seats event' = 2)
  /\ RegistrationService.register_for_event 21 1 150 returning_user
     = ((None, Some "Registration deadline has passed"), returning_user).
Proof.
  split; [|split; [|split]].
  - eexists. split; [vm_compute; reflexivity|]. split; [simpl; lia|reflexivity].
  - reflexivity.
  - eexists. split; [vm_compute; reflexivity|]. split; [reflexivity|].
    eexists. split; [vm_compute; reflexivity|reflexivity].
  - vm_compute. reflexivity.
Qed.

(** ** C8 and C9: the event status *)

(** What [update_event_status] answers and writes, case by case. *)
Lemma update_event_status_cases e s reason p now d :
  (EventStatusService.update_event_status e s reason p now d
   = ((false, "Invalid status '" +:+ s +:+ "'."), d)
   /\ ~ In s EventStatusService.VALID_STATUSES)
  \/ (EventStatusService.update_event_status e s reason p now d
      = ((false, "Event " +:+ pretty e +:+ " not found."), d)
      /\ Query.get_event e d = None)
  \/ (EventStatusService.update_event_status e s reason p now d
      = ((false, "A new date is required when postponing an event."), d)
      /\ s = "postponed" /\ p = None)
  \/ (exists event event',
        Query.get_event e d = Some event
        /\ In s EventStatusService.VALID_STATUSES
        /\ (s = "postponed" -> exists date, p = Some date)
        /\ EventStatusService.update_event_status e s reason p now d
           = ((true, EventStatusService._success_message s (Event.title event)),
              Query.put_event e event' d)
        /\ Event.status event' = s
        /\ Event.status_reason event' = EventStatusService.or_none reason
        /\ Event.available_seats event' = Event.available_seats event
        /\ Event.max_participants event' = Event.max_participants event
        /\ (s = "cancelled" ->
            Event.is_active event' = false
            /\ Event.cancelled_at event' = Some now
            /\ Event.event_date event' = Event.event_date event)
        /\ (s = "active" ->
            Event.is_active event' = true
            /\ Event.cancelled_at event' = None
            /\ Event.event_date event' = Event.event_date event)
        /\ (forall date, s = "postponed" -> p = Some date ->
            Event.is_active event' = true
            /\ Event.cancelled_at event' = None
            /\ Event.event_date event' = date
            /\ Event.postponed_to event' = Some date)).
Proof.
  unfold EventStatusService.update_event_status.
  destruct (existsb _ _) eqn:Hvalid; cbn [negb].
  2:{ left. split; [reflexivity|]. intros Hin.
      assert (existsb (String.eqb s) EventStatusService.VALID_STATUSES = true)
        as Hyes; [|congruence].
      apply List.existsb_exists. exists s. split; [exact Hin|].
      apply String.eqb_refl. }
  apply List.existsb_exists in Hvalid as (s' & Hin & Heq).
  apply String.eqb_eq in Heq. subst s'.
  destruct (Query.get_event e d) as [event|] eqn:Hev; [|right; left; auto].
  right. right.
  destruct Hin as [<-|[<-|[<-|[]]]]; cbn [String.eqb Ascii.eqb Bool.eqb].
  - right. eexists _, _. split; [reflexivity|].
    repeat split; simpl; auto; try discriminate.
  - right. eexists _, _. split; [reflexivity|].
    repeat split; simpl; auto; try discriminate.
  - destruct p as [date|]; [right|left; auto].
    eexists _, _. split; [reflexivity|].
    repeat split; simpl; eauto; try discriminate; congruence.
Qed.

(** C8, as stated, fails: event 1 is cancelled, and
    [update_event_status(1, 'active')] succeeds and sets its status to
    'active'. *)
Lemma cancelled_event_reactivated :
  (exists event, Query.get_event 1 cancelled_store = Some event
     /\ Event.status event = "cancelled")
  /\ exists d' event',
       EventStatusService.update_event_status 1 "active" None None 20
         cancelled_store
       = ((true, "'Rust meetup' has been re-activated."), d')
       /\ Query.get_event 1 d' = Some event'
       /\ Event.status event' = "active"
       /\ Event.status event' <> "cancelled".
Proof.
  split.
  - eexists. split; [vm_compute; reflexivity|reflexivity].
  - eexists _, _. split; [vm_compute; reflexivity|].
    split; [vm_compute; reflexivity|]. split; [reflexivity|discriminate].
Qed.

(** C8 (amended): on an event whose status is 'cancelled' a call of
    [update_event_status] either fails and writes nothing (the status is not
    one of 'active', 'cancelled', 'postponed', or it is 'postponed' and no
    date is given), or succeeds and sets the status to the requested one:
    'cancelled' keeps the event cancelled, 'active' re-activates it
    ([is_active] set, [cancelled_at] cleared) and 'postponed' with a date
    postpones it. *)
Theorem cancelled_event_update e d event s reason p now :
  Query.get_event e d = Some event ->
  Event.status event = "cancelled" ->
  (exists message,
     EventStatusService.update_event_status e s reason p now d
     = ((false, message), d)
     /\ (~ In s EventStatusService.VALID_STATUSES
         \/ (s = "postponed" /\ p = None)))
  \/ (exists message event',
        EventStatusService.update_event_status e s reason p now d
        = ((true, message), Query.put_event e event' d)
        /\ In s EventStatusService.VALID_STATUSES
        /\ Event.status event' = s
        /\ (s = "cancelled" -> Event.is_active event' = false)
        /\ (s = "active" ->
            Event.is_active event' = true /\ Event.cancelled_at event' = None)
        /\ (s = "postponed" ->
            Event.is_active event' = true /\ Event.cancelled_at event' = None
            /\ exists date, p = Some date /\ Event.event_date event' = date)).
Proof.
  intros Hev _.
  destruct (update_event_status_cases e s reason p now d)
    as [[Hcall Hs]|[[Hcall Hnone]|[[Hcall Hs]
       |(ev & event' & Hev' & Hin & Hdate & Hcall & Hst & _ & _ & _
          & Hc & Ha & Hp)]]].
  - left. eauto.
  - congruence.
  - left. eauto.
  - right. exists (EventStatusService._success_message s (Event.title ev)), event'.
    split; [exact Hcall|]. repeat split; auto; try (now apply Hc);
      try (now apply Ha).
    + destruct (Hdate H) as [date ->]. now apply (Hp date).
    + destruct (Hdate H) as [date ->]. now apply (Hp date).
    + destruct (Hdate H) as [date Hd]. exists date. split; [exact Hd|].
      now apply (Hp date).
Qed.

Lemma cancelled_event_update_witness :
  exists message event',
    EventStatusService.update_event_status 1 "active" None None 20
      cancelled_store
    = ((true, message), Query.put_event 1 event' cancelled_store)
    /\ Event.status event' = "active"
    /\ Event.is_active event' = true /\ Event.cancelled_at event' = None.
Proof.
  destruct (cancelled_event_update 1 cancelled_store
              (Event.mk "Rust meetup" 200 5 5 100 false false false 10 5
                 "cancelled" (Some "venue closed") None (Some 5))
              "active" None None 20 ltac:(vm_compute; reflexivity) eq_refl)
    as [(message & Hcall & _)|(message & event' & Hcall & _ & Hs & _ & Ha & _)].
  - vm_compute in Hcall. discriminate Hcall.
  - exists message, event'. split; [exact Hcall|].
    split; [exact Hs|]. now apply Ha.
Defined.

(** C9, as stated, fails: at time 50 the organizer postpones event 1, held
    at time 200, to time 3, which is in the past; the call succeeds and
    moves the event to time 3. *)
Lemma postponed_to_the_past :
  3 < 50
  /\ exists d' event',
       EventStatusService.update_event_status 1 "postponed" None (Some 3) 50
         five_seats
       = ((true, "'Rust meetup' has been postponed. All registrants will be notified."),
          d')
       /\ Query.get_event 1 d' = Some event'
       /\ Event.status event' = "postponed"
       /\ Event.event_date event' = 3.
Proof.
  split; [lia|].
  eexists _, _. split; [vm_compute; reflexivity|].
  split; [vm_compute; reflexivity|]. split; reflexivity.
Qed.

(** C9 (amended): [update_event_status(event_id, 'postponed', reason,
    postponed_to)] succeeds exactly when the event exists and a date
    [postponed_to] is given, whether that date is in the future or not; when
    it succeeds the event row has status 'postponed', [event_date] and
    [postponed_to] equal to the given date, [is_active] true and its seats
    unchanged; when it fails nothing is written. *)
Theorem postponement_contract e reason p now d :
  (fst (fst (EventStatusService.update_event_status e "postponed" reason p now d))
     = true
   <-> exists event date, Query.get_event e d = Some event /\ p = Some date)
  /\ (forall event date,
        Query.get_event e d = Some event -> p = Some date ->
        exists event',
          EventStatusService.update_event_status e "postponed" reason p now d
          = ((true, "'" +:+ Event.title event
                    +:+ "' has been postponed. All registrants will be notified."),
             Query.put_event e event' d)
          /\ Event.status event' = "postponed"
          /\ Event.event_date event' = date
          /\ Event.postponed_to event' = Some date
          /\ Event.is_active event' = true
          /\ Event.cancelled_at event' = None
          /\ Event.available_seats event' = Event.available_seats event
          /\ Event.max_participants event' = Event.max_participants event)
  /\ (fst (fst (EventStatusService.update_event_status e "postponed" reason p
                  now d)) = false ->
      snd (EventStatusService.update_event_status e "postponed" reason p now d)
      = d).
Proof.
  unfold EventStatusService.update_event_status.
  cbn [existsb EventStatusService.VALID_STATUSES String.eqb Ascii.eqb Bool.eqb
       orb negb].
  destruct (Query.get_event e d) as [event|], p as [date|]; cbn [fst snd].
  - split; [|split].
    + split; [eauto|reflexivity].
    + intros ev dt [= <-] [= <-]. eexists. split; [reflexivity|].
      repeat split.
    + discriminate.
  - split; [|split]; [|discriminate|reflexivity].
    split; [discriminate|]. now intros (ev & dt & _ & [=]).
  - split; [|split]; [|discriminate|reflexivity].
    split; [discriminate|]. now intros (ev & dt & [=] & _).
  - split; [|split]; [|discriminate|reflexivity].
    split; [discriminate|]. now intros (ev & dt & [=] & _).
Qed.

Lemma postponement_contract_witness :
  exists event',
    EventStatusService.update_event_status 1 "postponed" None (Some 300) 50
      five_seats
    = ((true, "'Rust meetup' has been postponed. All registrants will be notified."),
       Query.put_event 1 event' five_seats)
    /\ Event.status event' = "postponed"
    /\ Event.event_date event' = 300
    /\ Event.postponed_to event' = Some 300
    /\ Event.is_active event' = true.
Proof.
  destruct (proj1 (proj2 (postponement_contract 1 None (Some 300) 50 five_seats))
              (sample_event 5 5 false) 300 ltac:(vm_compute; reflexivity)
              eq_refl)
    as (event' & Hcall & Hs & Hdate & Hp & Hactive & _).
  exists event'. repeat split; assumption.
Defined.

(** The fallback of the background projection, which runs after the status
    was committed when Firestore cannot be written, stores
    [is_active = (status == 'active')]: after the event was postponed it marks the
    event inactive. *)
Lemma postponed_fallback_deactivates e reason date now d event :
  Query.get_event e d = Some event ->
  exists event',
    Query.get_event e
      (FirestoreSync.update_event_status_firestore false e "postponed"
         (snd (EventStatusService.update_event_status e "postponed" reason
                 (Some date) now d)))
    = Some event'
    /\ Event.status event' = "postponed"
    /\ Event.is_active event' = false.
Proof.
  intros Hev.
  unfold EventStatusService.update_event_status,
    FirestoreSync.update_event_status_firestore,
    FirestoreSync._sqlite_update_event_status.
  cbn [existsb EventStatusService.VALID_STATUSES String.eqb Ascii.eqb Bool.eqb
       orb negb].
  rewrite Hev. cbn [snd]. unfold Query.get_event.
  rewrite lookup_put_event.
  destruct (decide (e = e)); [|contradiction].
  rewrite lookup_put_event.
  destruct (decide (e = e)); [|contradiction].
  eexists. split; [reflexivity|]. split; reflexivity.
Qed.

(** ** C10: marking attendance *)

(** The row of key [rid] read back after it was rewritten. *)
Lemma get_registration_update rid f d r :
  (forall r, Registration.id (f r) = Registration.id r) ->
  Query.get_registration rid d = Some r ->
  Query.get_registration rid (Query.update_registration rid f d) = Some (f r).
Proof.
  intros Hf. unfold Query.get_registration, Query.update_registration.
  cbn [registrations set_registrations].
  induction (registrations d) as [|r0 rows IH]; cbn [List.find List.map];
    [discriminate|].
  unfold Query.rewrite_row at 1 2.
  destruct (Z.eqb_spec (Registration.id r0) rid) as [Hid|Hne].
  - intros [= ->]. now rewrite Hf, Hid, Z.eqb_refl.
  - destruct (Z.eqb_spec (Registration.id r0) rid); [contradiction|exact IH].
Qed.

(** C10: for an existing registration [mark_attendance(registration_id)]
    succeeds; afterwards the registration is attended and, when it was not
    attended before, its [attendance_time] is the time of the call; the
    status, payment status and every other column but these two are as
    before on every row, the events (and their [available_seats]) and the
    users are untouched; a second call succeeds and writes nothing. *)
Theorem mark_attendance_frame rid now d registration :
  Query.get_registration rid d = Some registration ->
  exists message d' registration',
    RegistrationService.mark_attendance rid now d = ((true, message), d')
    /\ events d' = events d
    /\ users d' = users d
    /\ List.map (Registration.set_attendance false None) (registrations d')
       = List.map (Registration.set_attendance false None) (registrations d)
    /\ (forall r, In r (registrations d) -> Registration.id r <> rid ->
          In r (registrations d'))
    /\ Query.get_registration rid d' = Some registration'
    /\ Registration.attended registration' = true
    /\ (Registration.attended registration = false ->
        Registration.attendance_time registration' = Some now)
    /\ (Registration.attended registration = true ->
        registration' = registration /\ d' = d)
    /\ Registration.status registration' = Registration.status registration
    /\ Registration.payment_status registration'
       = Registration.payment_status registration
    /\ forall later,
         RegistrationService.mark_attendance rid later d'
         = ((true, "Already marked as attended"), d').
Proof.
  intros Hget. unfold RegistrationService.mark_attendance at 1. rewrite Hget.
  destruct (Registration.attended registration) eqn:Hatt.
  - exists "Already marked as attended", d, registration.
    repeat split; auto; try discriminate.
    intros later. unfold RegistrationService.mark_attendance.
    now rewrite Hget, Hatt.
  - assert (Hget' :
      Query.get_registration rid
        (Query.update_registration rid
           (Registration.set_attendance true (Some now)) d)
      = Some (Registration.set_attendance true (Some now) registration)).
    { now apply get_registration_update. }
    eexists _, _, _. split; [reflexivity|].
    split; [reflexivity|]. split; [reflexivity|].
    split.
    { cbn [registrations Query.update_registration set_registrations].
      rewrite List.map_map. apply List.map_ext. intros r.
      unfold Query.rewrite_row. now destruct (Registration.id r =? rid). }
    split.
    { intros r Hin Hne.
      cbn [registrations Query.update_registration set_registrations].
      now apply in_rewrite_other. }
    split; [exact Hget'|].
    repeat split; try discriminate.
    intros later. unfold RegistrationService.mark_attendance.
    now rewrite Hget'.
Qed.

Lemma mark_attendance_frame_witness :
  exists message d' registration',
    RegistrationService.mark_attendance 1 30 one_confirmed
    = ((true, message), d')
    /\ events d' = events one_confirmed
    /\ Query.get_registration 1 d' = Some registration'
    /\ Registration.attended registration' = true
    /\ Registration.attendance_time registration' = Some 30
    /\ Registration.status registration' = "confirmed"
    /\ RegistrationService.mark_attendance 1 31 d'
       = ((true, "Already marked as attended"), d').
Proof.
  destruct (mark_attendance_frame 1 30 one_confirmed
              (Registration.mk 1 21 1 "confirmed" "not_required"
                 (Some "qr_1.png") false None 10)
              ltac:(vm_compute; reflexivity))
    as (message & d' & registration' & Hcall & Hev & _ & _ & _ & Hget & Hatt
        & Htime & _ & Hstatus & _ & Hagain).
  exists message, d', registration'.
  split; [exact Hcall|]. split; [exact Hev|]. split; [exact Hget|].
  split; [exact Hatt|]. split; [exact (Htime eq_refl)|].
  split; [exact Hstatus|exact (Hagain 31)].
Defined.

(** ** The scenarios of the specification *)

(** One seat and a waitlist: A registers and is confirmed, B registers and
    is waitlisted, A cancels and B is promoted on the released seat. *)
Example scenario_one_seat :
  (statuses (run [RegisterEvent 21 1 10] one_seat),
   seats_of 1 (run [RegisterEvent 21 1 10] one_seat))
  = ([(1, "confirmed")], Some 0)
  /\ (statuses (run [RegisterEvent 21 1 10; RegisterEvent 22 1 11] one_seat),
      seats_of 1 (run [RegisterEvent 21 1 10; RegisterEvent 22 1 11] one_seat))
     = ([(1, "confirmed"); (2, "waitlist")], Some 0)
  /\ (statuses (run [RegisterEvent 21 1 10; RegisterEvent 22 1 11;
                     CancelRegistration 21 1] one_seat),
      seats_of 1 (run [RegisterEvent 21 1 10; RegisterEvent 22 1 11;
                       CancelRegistration 21 1] one_seat))
     = ([(2, "confirmed")], Some 0).
Proof. repeat split; vm_compute; reflexivity. Qed.

(** Two registrations for the last seat, served one after the other: the
    first is confirmed, the second is refused. *)
Example scenario_last_seat :
  fst (ParticipantRoutes.register_event 21 1 10 last_seat)
  = ParticipantRoutes.redirect "Registration successful!" "success"
      (ParticipantRoutes.view_ticket 1)
  /\ fst (ParticipantRoutes.register_event 22 1 11
            (run [RegisterEvent 21 1 10] last_seat))
     = ParticipantRoutes.redirect "Sorry, this event is full." "error"
         (ParticipantRoutes.event_details 1)
  /\ (statuses (run [RegisterEvent 21 1 10; RegisterEvent 22 1 11] last_seat),
      seats_of 1 (run [RegisterEvent 21 1 10; RegisterEvent 22 1 11] last_seat))
     = ([(1, "confirmed")], Some 0).
Proof. repeat split; vm_compute; reflexivity. Qed.

(** The conditional decrement is the guard against overselling: it reports
    one row exactly when a seat was free, and never leaves a negative
    count. *)
Lemma decrement_guard e d event :
  Query.get_event e d = Some event ->
  (fst (Query.decrement_available_seats e d) = 1
   <-> 0 < Event.available_seats event)
  /\ seats_of e (snd (Query.decrement_available_seats e d))
     = Some (if 0 <? Event.available_seats event
             then Event.available_seats event - 1
             else Event.available_seats event).
Proof.
  unfold Query.get_event, Query.decrement_available_seats, seats_of.
  intros Hev. rewrite Hev.
  destruct (Z.ltb_spec 0 (Event.available_seats event)); cbn [fst snd].
  - split; [tauto|]. unfold Query.get_event. rewrite lookup_put_event.
    now destruct (decide (e = e)).
  - split; [split; [discriminate|lia]|]. unfold Query.get_event.
    now rewrite Hev.
Qed.

(** * Further properties *)

(** ** Decimal numerals *)

Lemma digit_value_pretty_char k :
  (k < 10)%N -> PyStr.digit_value (pretty_N_char k) = Some (Z.of_N k).
Proof.
  intros Hk.
  assert (k = 0 \/ k = 1 \/ k = 2 \/ k = 3 \/ k = 4 \/ k = 5 \/ k = 6
          \/ k = 7 \/ k = 8 \/ k = 9)%N as Hcases by lia.
  repeat (destruct Hcases as [->|Hcases]; [reflexivity|]).
  now subst k.
Qed.

Lemma pretty_char_not_dash k : Ascii.eqb (pretty_N_char k) "-" = false.
Proof.
  unfold pretty_N_char. repeat case_match; reflexivity.
Qed.

(** Parsing the digits that [pretty_N_go] puts in front of [s] shifts the
    accumulator and adds the number printed. *)
Lemma parse_digits_pretty_go x :
  forall s, exists k, forall acc,
    PyStr.parse_digits acc (pretty_N_go x s)
    = PyStr.parse_digits (acc * k + Z.of_N x) s.
Proof.
  induction (N.lt_wf_0 x) as [x _ IH]. intros s.
  destruct (N.eq_dec x 0%N) as [->|Hpos].
  - exists 1. intros acc. rewrite pretty_N_go_0. f_equal. lia.
  - rewrite pretty_N_go_step by lia.
    destruct (IH (x `div` 10)%N ltac:(apply N.div_lt; lia)
                 (String (pretty_N_char (x `mod` 10)) s)) as [k Hk].
    exists (10 * k). intros acc. rewrite Hk. cbn [PyStr.parse_digits].
    rewrite digit_value_pretty_char by (apply N.mod_lt; lia).
    f_equal. rewrite (N.div_mod x 10) at 3 by lia.
    rewrite N2Z.inj_add, N2Z.inj_mul. simpl Z.of_N. lia.
Qed.

Lemma contains_dash_pretty_go x :
  forall s, PyStr.contains "-" (pretty_N_go x s) = PyStr.contains "-" s.
Proof.
  induction (N.lt_wf_0 x) as [x _ IH]. intros s.
  destruct (N.eq_dec x 0%N) as [->|Hpos]; [now rewrite pretty_N_go_0|].
  rewrite pretty_N_go_step by lia.
  rewrite IH by (apply N.div_lt; lia).
  cbn [PyStr.contains]. now rewrite pretty_char_not_dash.
Qed.

Lemma pretty_go_nonempty x :
  forall s, s <> "" -> pretty_N_go x s <> "".
Proof.
  induction (N.lt_wf_0 x) as [x _ IH]. intros s Hs.
  destruct (N.eq_dec x 0%N) as [->|Hpos]; [now rewrite pretty_N_go_0|].
  rewrite pretty_N_go_step by lia.
  apply IH; [apply N.div_lt; lia|discriminate].
Qed.

(** What [str] prints for a non-negative integer: a nonempty string of
    digits, which [parse_decimal] reads back. *)
Lemma pretty_nonneg_cases (n : Z) :
  0 <= n ->
  pretty n = "0" /\ n = 0
  \/ exists x, (0 < x)%N /\ n = Z.of_N x /\ pretty n = pretty_N_go x "".
Proof.
  intros Hn. destruct n as [|p|p]; [now left| |lia].
  right. exists (N.pos p). split; [lia|]. split; [reflexivity|].
  unfold pretty, pretty_Z, pretty, pretty_positive, pretty, pretty_N.
  now destruct (decide (N.pos p = 0%N)).
Qed.

Lemma pretty_nonneg_no_dash (n : Z) :
  0 <= n -> PyStr.contains "-" (pretty n) = false.
Proof.
  intros Hn.
  destruct (pretty_nonneg_cases n Hn) as [[-> _]|(x & _ & _ & ->)];
    [reflexivity|].
  now rewrite contains_dash_pretty_go.
Qed.

Lemma parse_decimal_pretty (n : Z) :
  0 <= n -> PyStr.parse_decimal (pretty n) = Some n.
Proof.
  intros Hn.
  destruct (pretty_nonneg_cases n Hn) as [[-> ->]|(x & Hx & -> & ->)];
    [reflexivity|].
  unfold PyStr.parse_decimal.
  destruct (pretty_N_go x "") eqn:Hs.
  - rewrite pretty_N_go_step in Hs by exact Hx.
    now apply pretty_go_nonempty in Hs.
  - rewrite <- Hs. destruct (parse_digits_pretty_go x "") as [k Hk].
    rewrite Hk. reflexivity.
Qed.

(** ** Splitting *)

Lemma split_nonempty sep s : PyStr.split sep s <> [].
Proof.
  destruct s as [|c s]; simpl; [discriminate|].
  destruct (Ascii.eqb c sep); [discriminate|].
  destruct (PyStr.split sep s); discriminate.
Qed.

Lemma split_no_separator sep s :
  PyStr.contains sep s = false -> PyStr.split sep s = [s].
Proof.
  induction s as [|c s IH]; simpl; [reflexivity|].
  intros H. apply orb_false_iff in H as [Hc Hs].
  rewrite Hc, (IH Hs). reflexivity.
Qed.

(** A piece without separator, followed by a separator, is the first piece
    of the split. *)
Lemma split_piece sep s rest :
  PyStr.contains sep s = false ->
  PyStr.split sep (s +:+ String sep rest) = s :: PyStr.split sep rest.
Proof.
  induction s as [|c s IH]; simpl.
  - intros _. now rewrite Ascii.eqb_refl.
  - intros H. apply orb_false_iff in H as [Hc Hs].
    rewrite Hc, (IH Hs). reflexivity.
Qed.

Lemma split_piece_dash s rest :
  PyStr.contains "-" s = false ->
  PyStr.split "-" (s +:+ "-" +:+ rest) = s :: PyStr.split "-" rest.
Proof. exact (split_piece "-" s rest). Qed.

(** The payload of a registration with non-negative keys splits into the
    tag and the three numerals. *)
Lemma split_qr_data rid eid uid :
  0 <= rid -> 0 <= uid -> 0 <= eid ->
  PyStr.split "-" (Qr.qr_data rid eid uid)
  = ["REG"; pretty rid; pretty uid; pretty eid].
Proof.
  intros Hr Hu He. unfold Qr.qr_data.
  change ("REG-" +:+ ?s) with ("REG" +:+ "-" +:+ s).
  rewrite split_piece_dash by reflexivity.
  rewrite (split_piece_dash (pretty rid)) by now apply pretty_nonneg_no_dash.
  rewrite (split_piece_dash (pretty uid)) by now apply pretty_nonneg_no_dash.
  now rewrite split_no_separator by now apply pretty_nonneg_no_dash.
Qed.

(** ** QR verification *)

Lemma first_by_keys_found d r :
  unique_ids d -> In r (registrations d) ->
  Qr.first_by_keys (Registration.id r) (Registration.user_id r)
    (Registration.event_id r) d = Some r.
Proof.
  intros Hu Hin. unfold Qr.first_by_keys.
  destruct (List.find _ _) as [r'|] eqn:Hfind.
  - apply List.find_some in Hfind as [Hin' Hkeys].
    apply andb_true_iff in Hkeys as [Hkeys _].
    apply andb_true_iff in Hkeys as [Hid _]. apply Z.eqb_eq in Hid.
    f_equal. now apply (unique_row _ _ _ Hu Hin' Hin).
  - apply (List.find_none _ _ Hfind) in Hin.
    now rewrite !Z.eqb_refl in Hin.
Qed.

Lemma qr_data_tagged rid eid uid :
  String.eqb (Qr.qr_data rid eid uid) "" = false
  /\ PyStr.startswith (Qr.qr_data rid eid uid) "REG-" = true.
Proof.
  unfold Qr.qr_data, PyStr.startswith.
  change ("REG-" +:+ ?s) with (String "R" (String "E" (String "G" (String "-" s)))).
  split; [reflexivity|]. cbn [String.prefix].
  repeat (destruct (ascii_dec _ _); [|contradiction]).
  now destruct (_ +:+ _).
Qed.

(** What [verify_qr_code] answers on the payload printed for a row of the
    store. *)
Lemma verify_printed_payload int d r :
  (forall n, 0 <= n -> int (pretty n) = Some n) ->
  unique_ids d -> In r (registrations d) ->
  0 <= Registration.id r -> 0 <= Registration.user_id r ->
  0 <= Registration.event_id r ->
  Qr.verify_qr_code int
    (Qr.qr_data (Registration.id r) (Registration.event_id r)
       (Registration.user_id r)) d
  = if String.eqb (Registration.status r) "cancelled"
    then (None, Some "This registration has been cancelled")
    else if String.eqb (Registration.status r) "waitlist"
    then (None, Some "This attendee is on the waitlist, not confirmed")
    else (Some r, None).
Proof.
  intros Hint Hu Hin Hid Huser Hevent. unfold Qr.verify_qr_code.
  destruct (qr_data_tagged (Registration.id r) (Registration.event_id r)
              (Registration.user_id r)) as [-> ->].
  cbn [negb orb].
  rewrite split_qr_data by assumption.
  cbn [List.length Nat.eqb negb List.nth].
  rewrite !Hint by assumption.
  rewrite first_by_keys_found by assumption.
  reflexivity.
Qed.

(** Round trip: the payload that [generate_qr_file] encodes for a
    registration of the store, with non-negative keys and a status other
    than 'cancelled' and 'waitlist', is verified to that registration. *)
Theorem qr_round_trip int d r :
  (forall n, 0 <= n -> int (pretty n) = Some n) ->
  unique_ids d -> In r (registrations d) ->
  0 <= Registration.id r -> 0 <= Registration.user_id r ->
  0 <= Registration.event_id r ->
  Registration.status r <> "cancelled" ->
  Registration.status r <> "waitlist" ->
  Qr.verify_qr_code int
    (Qr.qr_data (Registration.id r) (Registration.event_id r)
       (Registration.user_id r)) d
  = (Some r, None).
Proof.
  intros Hint Hu Hin Hid Huser Hevent Hc Hw.
  rewrite verify_printed_payload by assumption.
  apply String.eqb_neq in Hc, Hw. now rewrite Hc, Hw.
Qed.

Lemma qr_round_trip_witness :
  Qr.verify_qr_code PyStr.parse_decimal (Qr.qr_data 1 1 21) one_confirmed
  = (Some (Registration.mk 1 21 1 "confirmed" "not_required"
             (Some "qr_1.png") false None 10), None).
Proof.
  apply (qr_round_trip PyStr.parse_decimal one_confirmed
           (Registration.mk 1 21 1 "confirmed" "not_required"
              (Some "qr_1.png") false None 10)).
  - exact parse_decimal_pretty.
  - apply check_unique_ids_sound. vm_compute. reflexivity.
  - vm_compute. tauto.
  - simpl. lia.
  - simpl. lia.
  - simpl. lia.
  - discriminate.
  - discriminate.
Defined.

(** A waitlisted or cancelled registration is refused at the door although
    its payload is well formed. *)
Theorem qr_refuses_unconfirmed int d r :
  (forall n, 0 <= n -> int (pretty n) = Some n) ->
  unique_ids d -> In r (registrations d) ->
  0 <= Registration.id r -> 0 <= Registration.user_id r ->
  0 <= Registration.event_id r ->
  Registration.status r = "waitlist" \/ Registration.status r = "cancelled" ->
  fst (Qr.verify_qr_code int
         (Qr.qr_data (Registration.id r) (Registration.event_id r)
            (Registration.user_id r)) d) = None.
Proof.
  intros Hint Hu Hin Hid Huser Hevent Hs.
  rewrite verify_printed_payload by assumption.
  now destruct Hs as [-> | ->].
Qed.

Lemma qr_refuses_unconfirmed_witness :
  fst (Qr.verify_qr_code PyStr.parse_decimal (Qr.qr_data 4 1 23) waitlist_abc)
  = None.
Proof.
  apply (qr_refuses_unconfirmed PyStr.parse_decimal waitlist_abc
           (sample_registration 4 23 1 "waitlist" 3)).
  - exact parse_decimal_pretty.
  - apply check_unique_ids_sound. vm_compute. reflexivity.
  - vm_compute. tauto.
  - simpl. lia.
  - simpl. lia.
  - simpl. lia.
  - now left.
Defined.



(** ** The scanner endpoint *)

Lemma get_registration_found d r :
  unique_ids d -> In r (registrations d) ->
  Query.get_registration (Registration.id r) d = Some r.
Proof.
  intros Hu Hin. unfold Query.get_registration.
  destruct (List.find _ _) as [r'|] eqn:Hfind.
  - apply List.find_some in Hfind as [Hin' Hid]. apply Z.eqb_eq in Hid.
    f_equal. now apply (unique_row _ _ _ Hu Hin' Hin).
  - apply (List.find_none _ _ Hfind) in Hin. now rewrite Z.eqb_refl in Hin.
Qed.

(** One scan of a valid payload by the organizer of the event. *)
Lemma verify_qr_scan int u now d r event :
  (forall n, 0 <= n -> int (pretty n) = Some n) ->
  unique_ids d -> In r (registrations d) ->
  0 <= Registration.id r -> 0 <= Registration.user_id r ->
  0 <= Registration.event_id r ->
  Registration.status r <> "cancelled" ->
  Registration.status r <> "waitlist" ->
  Query.get_event (Registration.event_id r) d = Some event ->
  Event.organizer_id event = u ->
  Qr.verify_qr int u
    (Some (Qr.qr_data (Registration.id r) (Registration.event_id r)
             (Registration.user_id r))) now d
  = (Qr.scan_success (Registration.id r) (Event.title event)
       (Registration.attended r),
     if Registration.attended r then d
     else Query.update_registration (Registration.id r)
            (Registration.set_attendance true (Some now)) d).
Proof.
  intros Hint Hu Hin Hid Huser Hevent Hc Hw Hev Ho. unfold Qr.verify_qr.
  destruct (qr_data_tagged (Registration.id r) (Registration.event_id r)
              (Registration.user_id r)) as [-> _].
  rewrite verify_printed_payload by assumption.
  apply String.eqb_neq in Hc, Hw. rewrite Hc, Hw, Hev, Ho, Z.eqb_refl.
  cbn [negb]. unfold RegistrationService.mark_attendance.
  rewrite get_registration_found by assumption.
  now destruct (Registration.attended r).
Qed.

Lemma in_rewritten rid f rows r :
  In r rows -> Registration.id r = rid ->
  In (f r) (List.map (Query.rewrite_row rid f) rows).
Proof.
  intros Hin Hid. apply List.in_map_iff. exists r. split; [|exact Hin].
  unfold Query.rewrite_row. now rewrite Hid, Z.eqb_refl.
Qed.

(** Scanning a valid ticket twice: the first scan by the organizer of the
    event checks the attendee in at the time of the scan and reports that
    the attendee was not checked in before; every later scan of the same
    ticket succeeds, reports that the attendee was already checked in and
    writes nothing. *)
Theorem scan_twice int u now d r event :
  (forall n, 0 <= n -> int (pretty n) = Some n) ->
  unique_ids d -> In r (registrations d) ->
  0 <= Registration.id r -> 0 <= Registration.user_id r ->
  0 <= Registration.event_id r ->
  Registration.status r <> "cancelled" ->
  Registration.status r <> "waitlist" ->
  Query.get_event (Registration.event_id r) d = Some event ->
  Event.organizer_id event = u ->
  Registration.attended r = false ->
  let payload :=
    Some (Qr.qr_data (Registration.id r) (Registration.event_id r)
            (Registration.user_id r)) in
  exists d',
    Qr.verify_qr int u payload now d
    = (Qr.scan_success (Registration.id r) (Event.title event) false, d')
    /\ Query.get_registration (Registration.id r) d'
       = Some (Registration.set_attendance true (Some now) r)
    /\ events d' = events d
    /\ forall later,
         Qr.verify_qr int u payload later d'
         = (Qr.scan_success (Registration.id r) (Event.title event) true, d').
Proof.
  intros Hint Hu Hin Hid Huser Hevent Hc Hw Hev Ho Hatt payload.
  exists (Query.update_registration (Registration.id r)
            (Registration.set_attendance true (Some now)) d).
  split.
  { unfold payload. rewrite (verify_qr_scan int u now d r event) by assumption.
    now rewrite Hatt. }
  split.
  { apply get_registration_update; [reflexivity|].
    now apply get_registration_found. }
  split; [reflexivity|].
  intros later. unfold payload.
  apply (verify_qr_scan int u later _
           (Registration.set_attendance true (Some now) r) event);
    try assumption.
  - apply unique_update; [reflexivity|exact Hu].
  - now apply in_rewritten.
Qed.

Lemma scan_twice_witness :
  exists d',
    Qr.verify_qr PyStr.parse_decimal 10 (Some (Qr.qr_data 1 1 21)) 30
      one_confirmed
    = (Qr.scan_success 1 "Rust meetup" false, d')
    /\ Qr.verify_qr PyStr.parse_decimal 10 (Some (Qr.qr_data 1 1 21)) 31 d'
       = (Qr.scan_success 1 "Rust meetup" true, d').
Proof.
  destruct (scan_twice PyStr.parse_decimal 10 30 one_confirmed
              (Registration.mk 1 21 1 "confirmed" "not_required"
                 (Some "qr_1.png") false None 10)
              (Event.mk "Rust meetup" 200 5 4 100 false false true 10 0
                 "active" None None None)
              parse_decimal_pretty
              ltac:(apply check_unique_ids_sound; vm_compute; reflexivity)
              ltac:(vm_compute; tauto)
              ltac:(simpl; lia) ltac:(simpl; lia) ltac:(simpl; lia)
              ltac:(discriminate) ltac:(discriminate)
              ltac:(vm_compute; reflexivity) eq_refl eq_refl)
    as (d' & Hfirst & _ & _ & Hlater).
  exists d'. split; [exact Hfirst|exact (Hlater 31)].
Defined.

(** An organizer cannot check in attendees of another organizer's event:
    the scan is answered 403 and writes nothing. *)
Theorem scan_foreign_event int u now d r event :
  (forall n, 0 <= n -> int (pretty n) = Some n) ->
  unique_ids d -> In r (registrations d) ->
  0 <= Registration.id r -> 0 <= Registration.user_id r ->
  0 <= Registration.event_id r ->
  Registration.status r <> "cancelled" ->
  Registration.status r <> "waitlist" ->
  Query.get_event (Registration.event_id r) d = Some event ->
  Event.organizer_id event <> u ->
  Qr.verify_qr int u
    (Some (Qr.qr_data (Registration.id r) (Registration.event_id r)
             (Registration.user_id r))) now d
  = (Qr.scan_error 403 "Unauthorized", d).
Proof.
  intros Hint Hu Hin Hid Huser Hevent Hc Hw Hev Ho. unfold Qr.verify_qr.
  destruct (qr_data_tagged (Registration.id r) (Registration.event_id r)
              (Registration.user_id r)) as [-> _].
  rewrite verify_printed_payload by assumption.
  apply String.eqb_neq in Hc, Hw. rewrite Hc, Hw, Hev.
  now destruct (Z.eqb_spec (Event.organizer_id event) u).
Qed.

Lemma scan_foreign_event_witness :
  Qr.verify_qr PyStr.parse_decimal 11 (Some (Qr.qr_data 1 1 21)) 30
    one_confirmed
  = (Qr.scan_error 403 "Unauthorized", one_confirmed).
Proof.
  apply (scan_foreign_event PyStr.parse_decimal 11 30 one_confirmed
           (Registration.mk 1 21 1 "confirmed" "not_required"
              (Some "qr_1.png") false None 10)
           (Event.mk "Rust meetup" 200 5 4 100 false false true 10 0
              "active" None None None)).
  - exact parse_decimal_pretty.
  - apply check_unique_ids_sound. vm_compute. reflexivity.
  - vm_compute. tauto.
  - simpl. lia.
  - simpl. lia.
  - simpl. lia.
  - discriminate.
  - discriminate.
  - vm_compute. reflexivity.
  - simpl. lia.
Defined.

(** ** Listings *)

Lemma insert_by_created_at_perm r rows :
  Permutation (Listing.insert_by_created_at r rows) (r :: rows).
Proof.
  induction rows as [|r0 rows IH]; simpl; [reflexivity|].
  destruct (_ <=? _); [reflexivity|].
  rewrite IH. apply perm_swap.
Qed.

Lemma order_by_created_at_perm rows :
  Permutation (Listing.order_by_created_at rows) rows.
Proof.
  induction rows as [|r rows IH]; simpl; [reflexivity|].
  rewrite insert_by_created_at_perm. now apply perm_skip.
Qed.

Lemma insert_by_created_at_sorted r rows :
  StronglySorted not_after rows ->
  StronglySorted not_after (Listing.insert_by_created_at r rows).
Proof.
  induction 1 as [|r0 rows Hsorted IH Hall]; simpl.
  - repeat constructor.
  - destruct (Z.leb_spec (Registration.created_at r)
                         (Registration.created_at r0)) as [Hle|Hgt].
    + constructor; [now constructor|].
      constructor; [exact Hle|].
      apply List.Forall_impl with (2 := Hall). unfold not_after. lia.
    + constructor; [exact IH|].
      apply (Permutation_Forall (Permutation_sym
               (insert_by_created_at_perm r rows))).
      constructor; [unfold not_after; lia|exact Hall].
Qed.

Lemma order_by_created_at_sorted rows :
  StronglySorted not_after (Listing.order_by_created_at rows).
Proof.
  induction rows as [|r rows IH]; simpl; [constructor|].
  now apply insert_by_created_at_sorted.
Qed.

(** The first row of the ordered rows is the row [.first()] returns. *)
Lemma order_by_created_at_head rows :
  List.hd_error (Listing.order_by_created_at rows)
  = Query.first_by_created_at rows.
Proof.
  induction rows as [|r rows IH]; simpl; [reflexivity|].
  rewrite <- IH.
  destruct (Listing.order_by_created_at rows) as [|r0 sorted]; simpl;
    [reflexivity|].
  now destruct (_ <=? _).
Qed.

Lemma filter_event_then_status e s rows :
  List.filter (fun r => String.eqb (Registration.status r) s)
    (List.filter (fun r => Registration.event_id r =? e) rows)
  = List.filter (Query.has_event_status e s) rows.
Proof.
  induction rows as [|r rows IH]; simpl; [reflexivity|].
  unfold Query.has_event_status at 1.
  destruct (Registration.event_id r =? e); simpl; [|exact IH].
  destruct (String.eqb _ _); now rewrite IH.
Qed.

(** The listing of an event shows every registration of the event that has
    the requested status exactly once, oldest first. *)
Theorem listing_sorted_complete e s d :
  s <> "" ->
  StronglySorted not_after (Listing.get_event_registrations e (Some s) d)
  /\ Permutation (Listing.get_event_registrations e (Some s) d)
       (List.filter (Query.has_event_status e s) (registrations d))
  /\ StronglySorted not_after (Listing.get_event_registrations e None d)
  /\ Permutation (Listing.get_event_registrations e None d)
       (List.filter (fun r => Registration.event_id r =? e) (registrations d)).
Proof.
  intros Hs. unfold Listing.get_event_registrations.
  apply String.eqb_neq in Hs. rewrite Hs, filter_event_then_status.
  repeat split;
    auto using order_by_created_at_sorted, order_by_created_at_perm.
Qed.

Lemma listing_sorted_complete_witness :
  StronglySorted not_after
    (Listing.get_event_registrations 1 (Some "waitlist") waitlist_abc)
  /\ List.map Registration.id
       (Listing.get_event_registrations 1 (Some "waitlist") waitlist_abc)
     = [4; 5; 3].
Proof.
  split; [|vm_compute; reflexivity].
  apply (listing_sorted_complete 1 "waitlist" waitlist_abc). discriminate.
Defined.

(** The registration that a promotion confirms is the one on top of the
    waitlist listing of the event. *)
Theorem listing_head_is_promoted e d r d' :
  WaitlistService.promote_from_waitlist e d = (Some r, d') ->
  exists w,
    List.hd_error (Listing.get_event_registrations e (Some "waitlist") d)
      = Some w
    /\ r = Registration.set_status "confirmed" w.
Proof.
  intros Hp. apply promote_some in Hp as (event & w & _ & _ & Hw & -> & _).
  exists w. split; [|reflexivity].
  unfold Listing.get_event_registrations. cbn [String.eqb].
  now rewrite filter_event_then_status, order_by_created_at_head.
Qed.

Lemma listing_head_is_promoted_witness :
  exists w,
    List.hd_error
      (Listing.get_event_registrations 1 (Some "waitlist") seat_released)
      = Some w
    /\ Registration.set_status "confirmed"
         (sample_registration 4 23 1 "waitlist" 3)
       = Registration.set_status "confirmed" w.
Proof.
  eapply (listing_head_is_promoted 1 seat_released). vm_compute. reflexivity.
Defined.

(** ** The two cancellations *)


(** Deleting a row that [P] does not select leaves the selection alone. *)
Lemma filter_keep_unselected P rid rows :
  (forall r, In r rows -> Registration.id r = rid -> P r = false) ->
  List.filter P (List.filter (Query.keep_row rid) rows) = List.filter P rows.
Proof.
  induction rows as [|r rows IH]; intros HP; [reflexivity|].
  cbn [List.filter].
  assert (IH' := IH (fun r' Hr' => HP r' (or_intror Hr'))).
  destruct (Query.keep_row rid r) eqn:Hkeep.
  - cbn [List.filter]. now rewrite IH'.
  - rewrite IH'. unfold Query.keep_row in Hkeep.
    apply negb_false_iff, Z.eqb_eq in Hkeep.
    now rewrite (HP r (or_introl eq_refl) Hkeep).
Qed.

(** The waitlist of an event does not change when a row that is not
    waitlisted is deleted. *)
Lemma oldest_waitlist_after_delete e d r :
  unique_ids d -> In r (registrations d) ->
  Registration.status r <> "waitlist" ->
  Query.oldest_waitlist e (Query.delete_registration (Registration.id r) d)
  = Query.oldest_waitlist e d.
Proof.
  intros Hu Hin Hs. unfold Query.oldest_waitlist, Query.delete_registration.
  cbn [registrations set_registrations].
  rewrite filter_keep_unselected; [reflexivity|].
  intros r' Hin' Hid. rewrite (unique_row _ _ _ Hu Hin' Hin Hid).
  unfold Query.has_event_status. apply String.eqb_neq in Hs.
  now rewrite Hs, andb_false_r.
Qed.



Lemma get_registration_none rid d :
  Query.get_registration rid d = None
  <-> ~ In rid (List.map Registration.id (registrations d)).
Proof.
  unfold Query.get_registration. split.
  - intros Hnone Hin. apply List.in_map_iff in Hin as (r & Hid & Hin).
    apply (List.find_none _ _ Hnone) in Hin. apply Z.eqb_neq in Hin. auto.
  - intros Hnot. destruct (List.find _ _) as [r|] eqn:Hfind; [|reflexivity].
    apply List.find_some in Hfind as [Hin Hid]. apply Z.eqb_eq in Hid.
    exfalso. apply Hnot. rewrite <- Hid. now apply List.in_map.
Qed.

Lemma promote_keeps_ids e d :
  List.map Registration.id
    (registrations (snd (WaitlistService.promote_from_waitlist e d)))
  = List.map Registration.id (registrations d).
Proof.
  unfold WaitlistService.promote_from_waitlist, WaitlistService._atomic_promote.
  repeat case_match; try reflexivity.
  cbn [snd registrations Query.put_event set_events Query.update_registration
       set_registrations].
  now apply rewrite_keeps_ids.
Qed.

Lemma deleted_id_gone rid rows :
  ~ In rid (List.map Registration.id (List.filter (Query.keep_row rid) rows)).
Proof.
  intros Hin. apply List.in_map_iff in Hin as (r & Hid & Hin).
  apply List.filter_In in Hin as [_ Hkeep]. unfold Query.keep_row in Hkeep.
  apply negb_true_iff, Z.eqb_neq in Hkeep. auto.
Qed.

(** Cancelling a cancelled registration: once the cancellation route has
    answered with success, the same request is answered 404 and writes
    nothing, so no seat is released twice. *)
Theorem cancel_twice u rid d :
  fst (ParticipantRoutes.cancel_registration u rid d)
  = ParticipantRoutes.redirect "Registration cancelled successfully."
      "success" ParticipantRoutes.my_registrations ->
  ParticipantRoutes.cancel_registration u rid
    (snd (ParticipantRoutes.cancel_registration u rid d))
  = (ParticipantRoutes.abort_404,
     snd (ParticipantRoutes.cancel_registration u rid d)).
Proof.
  intros Hok.
  assert (Hgone : Query.get_registration rid
            (snd (ParticipantRoutes.cancel_registration u rid d)) = None).
  { revert Hok. unfold ParticipantRoutes.cancel_registration.
    destruct (Query.get_registration rid d) as [registration|];
      [|discriminate].
    destruct (negb _); [discriminate|].
    destruct (Registration.attended registration); [discriminate|].
    destruct (Query.get_event _ d) as [event|]; [|discriminate].
    intros _. cbn [snd]. apply get_registration_none.
    destruct (String.eqb _ _); [rewrite promote_keeps_ids|];
      apply deleted_id_gone. }
  unfold ParticipantRoutes.cancel_registration at 1. now rewrite Hgone.
Qed.

Lemma cancel_twice_witness :
  ParticipantRoutes.cancel_registration 21 1
    (snd (ParticipantRoutes.cancel_registration 21 1 waitlist_abc))
  = (ParticipantRoutes.abort_404,
     snd (ParticipantRoutes.cancel_registration 21 1 waitlist_abc)).
Proof.
  apply (cancel_twice 21 1 waitlist_abc). vm_compute. reflexivity.
Defined.

Lemma count_waitlist_promote e d event w :
  unique_ids d ->
  Query.oldest_waitlist e d = Some w ->
  Query.count_by_event_status e "waitlist"
    (Query.put_event e event
       (Query.update_registration (Registration.id w)
          (Registration.set_status "confirmed") d))
  = Query.count_by_event_status e "waitlist" d - 1
  /\ Query.count_by_event_status e "confirmed"
       (Query.put_event e event
          (Query.update_registration (Registration.id w)
             (Registration.set_status "confirmed") d))
     = Query.count_by_event_status e "confirmed" d + 1.
Proof.
  intros Hu Hw. apply oldest_waitlist_some in Hw as (Hin & He & Hs & _).
  rewrite !count_put_event, !(count_update _ _ _ _ _ w Hu Hin eq_refl).
  split; has_status; lia.
Qed.

(** Cancelling a confirmed registration through the route on an event that
    is not oversold: with somebody waiting, the seat goes to the waitlist
    (the seat count and the number of confirmed registrations are as
    before, the waitlist is one shorter); with nobody waiting, the seat is
    free again. *)
Theorem cancel_hands_seat_over u d r event :
  unique_ids d ->
  Query.get_registration (Registration.id r) d = Some r ->
  Registration.user_id r = u ->
  Registration.attended r = false ->
  Registration.status r = "confirmed" ->
  Query.get_event (Registration.event_id r) d = Some event ->
  0 <= Event.available_seats event ->
  let e := Registration.event_id r in
  let d' := snd (ParticipantRoutes.cancel_registration u (Registration.id r) d) in
  Query.get_registration (Registration.id r) d' = None
  /\ (waitlist_length e d = 0 ->
      seats_of e d' = Some (Event.available_seats event + 1)
      /\ Query.count_by_event_status e "confirmed" d'
         = Query.count_by_event_status e "confirmed" d - 1
      /\ waitlist_length e d' = 0)
  /\ (0 < waitlist_length e d ->
      seats_of e d' = Some (Event.available_seats event)
      /\ Query.count_by_event_status e "confirmed" d'
         = Query.count_by_event_status e "confirmed" d
      /\ waitlist_length e d' = waitlist_length e d - 1).
Proof.
  intros Hu Hget Huser Hatt Hs Hev Hseats e d'.
  pose proof (get_registration_some _ _ _ Hget) as [Hin _].
  assert (Hd' : d' = snd (WaitlistService.promote_from_waitlist e
                   (Query.delete_registration (Registration.id r)
                      (Query.put_event e
                         (Event.set_available_seats
                            (Event.available_seats event + 1) event) d)))).
  { unfold d', ParticipantRoutes.cancel_registration.
    rewrite Hget, Huser, Z.eqb_refl, Hatt, Hev, Hs. reflexivity. }
  set (d2 := Query.delete_registration _ _) in Hd'.
  assert (Hu2 : unique_ids d2) by (unfold d2; auto with store).
  assert (Hconf2 : Query.count_by_event_status e "confirmed" d2
                   = Query.count_by_event_status e "confirmed" d - 1).
  { unfold d2. rewrite (count_delete _ _ _ _ r), count_put_event
      by auto with store.
    unfold e. has_status. lia. }
  assert (Hwait2 : Query.count_by_event_status e "waitlist" d2
                   = Query.count_by_event_status e "waitlist" d).
  { unfold d2. rewrite (count_delete _ _ _ _ r), count_put_event
      by auto with store.
    unfold e. has_status. lia. }
  assert (Hold2 : Query.oldest_waitlist e d2 = Query.oldest_waitlist e d).
  { unfold d2. rewrite oldest_waitlist_after_delete;
      [reflexivity|exact Hu|exact Hin|rewrite Hs; discriminate]. }
  assert (Hev2 : Query.get_event e d2
                 = Some (Event.set_available_seats
                           (Event.available_seats event + 1) event)).
  { unfold d2, Query.get_event. rewrite events_delete, lookup_put_event.
    now destruct (decide (e = e)). }
  split.
  { apply get_registration_none. rewrite Hd', promote_keeps_ids.
    apply deleted_id_gone. }
  destruct (Query.oldest_waitlist e d) as [w|] eqn:Hw.
  - revert Hd'. unfold WaitlistService.promote_from_waitlist,
      WaitlistService._atomic_promote, waitlist_length.
    rewrite Hev2, Hold2.
    cbn [Event.available_seats Event.set_available_seats].
    destruct (Z.leb_spec (Event.available_seats event + 1) 0); [lia|].
    cbn [snd]. intros ->.
    destruct (count_waitlist_promote e d2
                (Event.set_available_seats (Event.available_seats event + 1 - 1)
                   (Event.set_available_seats
                      (Event.available_seats event + 1) event))
                w Hu2 Hold2) as [Hcw Hcc].
    split; intros Hlen.
    + apply oldest_waitlist_some in Hw as (Hinw & Hwe & Hws & _).
      exfalso.
      assert (0 < Query.count_by_event_status e "waitlist" d); [|lia].
      unfold Query.count_by_event_status, Query.count_rows.
      assert (Hsel : In w (List.filter (Query.has_event_status e "waitlist")
                                       (registrations d))).
      { apply List.filter_In. split; [exact Hinw|].
        now apply has_event_status_true. }
      destruct (List.filter _ _); [contradiction|simpl; lia].
    + rewrite Hcw, Hcc, Hwait2, Hconf2. split; [|split; lia].
      unfold seats_of, Query.get_event. rewrite lookup_put_event.
      destruct (decide (e = e)); [|contradiction].
      simpl. f_equal. lia.
  - revert Hd'. unfold WaitlistService.promote_from_waitlist,
      WaitlistService._atomic_promote, waitlist_length.
    rewrite Hev2, Hold2.
    cbn [Event.available_seats Event.set_available_seats].
    destruct (Z.leb_spec (Event.available_seats event + 1) 0); [lia|].
    cbn [snd]. intros ->.
    split; intros Hlen.
    + rewrite Hconf2, Hwait2. split; [|split; [reflexivity|exact Hlen]].
      unfold seats_of. now rewrite Hev2.
    + exfalso. unfold Query.oldest_waitlist in Hw.
      apply first_by_created_at_none in Hw.
      unfold Query.count_by_event_status, Query.count_rows in Hlen.
      rewrite Hw in Hlen. simpl in Hlen. lia.
Qed.

Lemma cancel_hands_seat_over_witness :
  seats_of 1 (snd (ParticipantRoutes.cancel_registration 21 1 waitlist_abc))
  = Some 0
  /\ waitlist_length 1
       (snd (ParticipantRoutes.cancel_registration 21 1 waitlist_abc))
     = waitlist_length 1 waitlist_abc - 1.
Proof.
  destruct (cancel_hands_seat_over 21 waitlist_abc
              (sample_registration 1 21 1 "confirmed" 1)
              (sample_event 2 0 true)
              ltac:(apply check_unique_ids_sound; vm_compute; reflexivity)
              ltac:(vm_compute; reflexivity) eq_refl eq_refl eq_refl
              ltac:(vm_compute; reflexivity) ltac:(simpl; lia))
    as (_ & _ & Hwait).
  destruct (Hwait ltac:(vm_compute; reflexivity)) as (Hseats & _ & Hlen).
  split; [exact Hseats|exact Hlen].
Defined.

(** ** What a request writes *)

Lemma first_by_user_event_none u e d :
  Query.first_by_user_event u e d = None -> unregistered u e d.
Proof.
  unfold Query.first_by_user_event. intros Hnone r Hin [Hu He].
  apply (List.find_none _ _ Hnone) in Hin.
  now rewrite Hu, He, !Z.eqb_refl in Hin.
Qed.

(** A new row flushed and then given its QR file name. *)
Lemma insert_then_qr r d r' d' q :
  Query.insert r d = (r', d') ->
  Query.update_registration (Registration.id r') (Registration.set_qr_code q) d'
  = mkdb (events d)
         (registrations d
          ++ [Registration.set_qr_code q
                (Registration.set_id (Query.next_id (registrations d)) r)])
         (users d).
Proof.
  unfold Query.insert. intros [= <- <-].
  unfold Query.update_registration, set_registrations.
  cbn [registrations events users Registration.id Registration.set_id].
  rewrite List.map_app, rewrite_absent by apply next_id_fresh.
  cbn [List.map]. unfold Query.rewrite_row at 1.
  cbn [Registration.id Registration.set_id]. now rewrite Z.eqb_refl.
Qed.

(** The store after [register_event]: unchanged, or the user's cancelled
    row reopened on a free seat, or a new waitlisted row, or a new confirmed
    row on a free seat. *)
Lemma register_event_cases u e now d :
  snd (ParticipantRoutes.register_event u e now d) = d
  \/ (exists event existing,
        Query.get_event e d = Some event
        /\ Query.first_by_user_event u e d = Some existing
        /\ Registration.status existing = "cancelled"
        /\ 0 < Event.available_seats event
        /\ snd (ParticipantRoutes.register_event u e now d)
           = Query.put_event e
               (Event.set_available_seats (Event.available_seats event - 1)
                  event)
               (Query.update_registration (Registration.id existing)
                  (fun r =>
                     Registration.set_qr_code
                       (Some (ParticipantRoutes.generate_qr_file
                                (Registration.id existing) e u))
                       (Registration.set_payment_status
                          (ParticipantRoutes.payment_status_for event)
                          (Registration.set_status "confirmed" r))) d))
  \/ (exists event,
        Query.get_event e d = Some event
        /\ Query.first_by_user_event u e d = None
        /\ Event.available_seats event <= 0
        /\ Event.allow_waitlist event = true
        /\ snd (ParticipantRoutes.register_event u e now d)
           = mkdb (events d)
               (registrations d
                ++ [Registration.mk (Query.next_id (registrations d)) u e
                      "waitlist" "not_required" None false None now])
               (users d))
  \/ (exists event,
        Query.get_event e d = Some event
        /\ Query.first_by_user_event u e d = None
        /\ 0 < Event.available_seats event
        /\ now <= Event.registration_deadline event
        /\ snd (ParticipantRoutes.register_event u e now d)
           = mkdb (<[e := Event.set_available_seats
                             (Event.available_seats event - 1) event]>
                     (events d))
               (registrations d
                ++ [Registration.mk (Query.next_id (registrations d)) u e
                      "confirmed" (ParticipantRoutes.payment_status_for event)
                      (Some (ParticipantRoutes.generate_qr_file
                               (Query.next_id (registrations d)) e u))
                      false None now])
               (users d)).
Proof.
  unfold ParticipantRoutes.register_event.
  destruct (Query.get_event e d) as [event|] eqn:Hev; [|now left].
  destruct (_ || _); [now left|].
  destruct (Query.first_by_user_event u e d) as [existing|] eqn:Hex.
  - destruct (String.eqb_spec (Registration.status existing) "cancelled")
      as [Hs|_]; [|now left].
    destruct (Z.leb_spec (Event.available_seats event) 0); [now left|].
    right. left. exists event, existing. repeat split; auto.
    cbn [snd]. unfold Query.put_event, Query.update_registration,
      set_events, set_registrations. cbn [events registrations users].
    now rewrite rewrite_rewrite by reflexivity.
  - destruct (Z.gtb_spec now (Event.registration_deadline event));
      [now left|].
    destruct (Z.leb_spec (Event.available_seats event) 0).
    + destruct (Event.allow_waitlist event) eqn:Hallow; [|now left].
      right. right. left. exists event. repeat split; auto.
    + right. right. right. exists event.
      unfold Query.decrement_available_seats. unfold Query.get_event in Hev.
      rewrite Hev.
      destruct (Z.ltb_spec 0 (Event.available_seats event)); [|lia].
      cbn [Z.eqb Pos.eqb].
      destruct (Query.insert _ _) as [r' d2] eqn:Hins. cbn [snd].
      rewrite (insert_then_qr _ _ _ _ _ Hins).
      apply registrations_insert in Hins as [_ ->].
      repeat split; auto.
Qed.

(** The store after [register_for_event]: unchanged, or a new confirmed row
    on a free seat. *)
Lemma register_for_event_cases u e now d :
  snd (RegistrationService.register_for_event u e now d) = d
  \/ exists event,
       Query.get_event e d = Some event
       /\ Query.first_by_user_event u e d = None
       /\ 0 < Event.available_seats event
       /\ now <= Event.registration_deadline event
       /\ snd (RegistrationService.register_for_event u e now d)
          = mkdb (<[e := Event.set_available_seats
                            (Event.available_seats event - 1) event]>
                    (events d))
              (registrations d
               ++ [Registration.mk (Query.next_id (registrations d)) u e
                     "confirmed"
                     (if Event.is_paid event then "pending" else "not_required")
                     None false None now])
              (users d).
Proof.
  unfold RegistrationService.register_for_event.
  destruct (negb _); [now left|].
  destruct (Query.get_event e d) as [event|] eqn:Hev; [|now left].
  destruct (Z.gtb_spec now (Event.registration_deadline event)); [now left|].
  destruct (Query.first_by_user_event u e d) eqn:Hex; [now left|].
  destruct (Z.leb_spec (Event.available_seats event) 0); [now left|].
  right. exists event. repeat split; auto.
Qed.

(** The store after the cancellation route: unchanged, or the row deleted
    (after the seat release and before the promotion when it was
    confirmed). *)
Lemma cancel_registration_cases u rid d :
  snd (ParticipantRoutes.cancel_registration u rid d) = d
  \/ exists registration event,
       Query.get_registration rid d = Some registration
       /\ Registration.user_id registration = u
       /\ Registration.attended registration = false
       /\ Query.get_event (Registration.event_id registration) d = Some event
       /\ ((Registration.status registration <> "confirmed"
            /\ snd (ParticipantRoutes.cancel_registration u rid d)
               = Query.delete_registration rid d)
           \/ (Registration.status registration = "confirmed"
               /\ snd (ParticipantRoutes.cancel_registration u rid d)
                  = snd (WaitlistService.promote_from_waitlist
                           (Registration.event_id registration)
                           (Query.delete_registration rid
                              (Query.put_event
                                 (Registration.event_id registration)
                                 (Event.set_available_seats
                                    (Event.available_seats event + 1) event)
                                 d))))).
Proof.
  unfold ParticipantRoutes.cancel_registration.
  destruct (Query.get_registration rid d) as [registration|] eqn:Hreg;
    [|now left].
  destruct (Z.eqb_spec (Registration.user_id registration) u) as [Hu|_];
    [|now left].
  destruct (Registration.attended registration) eqn:Hatt; [now left|].
  destruct (Query.get_event _ d) as [event|] eqn:Hev; [|now left].
  right. exists registration, event. repeat split; auto. cbn [negb snd].
  destruct (String.eqb_spec (Registration.status registration) "confirmed");
    [right|left]; auto.
Qed.

(** The store after the cancellation of the service. *)
Lemma service_cancel_cases u e d :
  snd (RegistrationService.cancel_registration u e d) = d
  \/ exists registration,
       Query.first_by_user_event u e d = Some registration
       /\ Registration.attended registration = false
       /\ ((Registration.status registration <> "confirmed"
            /\ snd (RegistrationService.cancel_registration u e d)
               = Query.delete_registration (Registration.id registration) d)
           \/ (exists event,
                 Registration.status registration = "confirmed"
                 /\ Query.get_event e d = Some event
                 /\ snd (RegistrationService.cancel_registration u e d)
                    = Query.delete_registration (Registration.id registration)
                        (match Query.oldest_waitlist e d with
                         | Some w =>
                             Query.put_event e
                               (Event.set_available_seats
                                  (Event.available_seats event + 1 - 1) event)
                               (Query.update_registration (Registration.id w)
                                  (Registration.set_status "confirmed")
                                  (Query.put_event e
                                     (Event.set_available_seats
                                        (Event.available_seats event + 1)
                                        event) d))
                         | None =>
                             Query.put_event e
                               (Event.set_available_seats
                                  (Event.available_seats event + 1) event) d
                         end))).
Proof.
  unfold RegistrationService.cancel_registration.
  destruct (Query.first_by_user_event u e d) as [registration|] eqn:Hreg;
    [|now left].
  destruct (Registration.attended registration) eqn:Hatt; [now left|].
  destruct (String.eqb_spec (Registration.status registration) "confirmed")
    as [Hs|Hs].
  - destruct (Query.get_event e d) as [event|] eqn:Hev; [|now left].
    right. exists registration. repeat split; auto. right. exists event.
    repeat split; auto.
  - right. exists registration. repeat split; auto.
Qed.

(** ** A checked-in registration stays *)

Lemma checked_in_update rid rid' f d :
  (forall r, Registration.id (f r) = Registration.id r) ->
  (forall r, Registration.attended r = true ->
             Registration.attended (f r) = true) ->
  checked_in rid d -> checked_in rid (Query.update_registration rid' f d).
Proof.
  intros Hid Hatt (r & Hin & Hr & Ha).
  exists (Query.rewrite_row rid' f r). split.
  - now apply List.in_map.
  - unfold Query.rewrite_row. destruct (Registration.id r =? rid'); auto.
    rewrite Hid. auto.
Qed.

Lemma checked_in_delete rid rid' d registration :
  unique_ids d ->
  Query.get_registration rid' d = Some registration
  \/ (In registration (registrations d)
      /\ Registration.id registration = rid') ->
  Registration.attended registration = false ->
  checked_in rid d -> checked_in rid (Query.delete_registration rid' d).
Proof.
  intros Hu Hfound Hnot (r & Hin & Hr & Ha).
  assert (Hreg : In registration (registrations d)
                 /\ Registration.id registration = rid').
  { destruct Hfound as [Hget|Hreg]; [|exact Hreg].
    now apply get_registration_some. }
  destruct Hreg as [Hin' Hid'].
  exists r. split; [|auto]. apply List.filter_In. split; [exact Hin|].
  unfold Query.keep_row. apply negb_true_iff, Z.eqb_neq. intros Heq.
  rewrite (unique_row _ _ _ Hu Hin Hin') in Ha by congruence. congruence.
Qed.

Lemma checked_in_rows rid d d' :
  (forall r, In r (registrations d) -> In r (registrations d')) ->
  checked_in rid d -> checked_in rid d'.
Proof. intros Hsub (r & Hin & Hr). exists r. auto. Qed.

Lemma checked_in_promote rid e d :
  checked_in rid d ->
  checked_in rid (snd (WaitlistService.promote_from_waitlist e d)).
Proof.
  intros Hc.
  destruct (WaitlistService.promote_from_waitlist e d) as [[p|] d'] eqn:Hp.
  - apply promote_some in Hp as (event & w & _ & _ & _ & _ & ->). cbn [snd].
    apply (checked_in_rows rid
             (Query.update_registration (Registration.id w)
                (Registration.set_status "confirmed") d)); [auto|].
    now apply checked_in_update.
  - apply promote_none in Hp as ->. exact Hc.
Qed.

Lemma handle_checked_in rid q d :
  unique_ids d -> checked_in rid d -> checked_in rid (handle q d).
Proof.
  intros Hu Hc.
  destruct q as [u e now|u rid'|u e now|u e|e| | | |]; cbn [handle].
  - destruct (register_event_cases u e now d)
      as [->|[(event & existing & _ & _ & _ & _ & ->)
         |[(event & _ & _ & _ & _ & ->)|(event & _ & _ & _ & _ & ->)]]];
      [exact Hc| | |].
    + apply (checked_in_rows rid
               (Query.update_registration (Registration.id existing)
                  (fun r => Registration.set_qr_code
                     (Some (ParticipantRoutes.generate_qr_file
                              (Registration.id existing) e u))
                     (Registration.set_payment_status
                        (ParticipantRoutes.payment_status_for event)
                        (Registration.set_status "confirmed" r))) d));
        [auto|].
      now apply checked_in_update.
    + apply (checked_in_rows rid d); [|exact Hc].
      intros r Hr. apply List.in_app_iff. now left.
    + apply (checked_in_rows rid d); [|exact Hc].
      intros r Hr. apply List.in_app_iff. now left.
  - destruct (cancel_registration_cases u rid' d)
      as [->|(registration & event & Hget & _ & Hatt & _
              & [[_ ->]|[_ ->]])]; [exact Hc| |].
    + now apply (checked_in_delete rid rid' d registration); auto.
    + apply checked_in_promote.
      apply (checked_in_delete rid rid' _ registration); auto with store.
  - destruct (register_for_event_cases u e now d)
      as [->|(event & _ & _ & _ & _ & ->)]; [exact Hc|].
    apply (checked_in_rows rid d); [|exact Hc].
    intros r Hr. apply List.in_app_iff. now left.
  - destruct (service_cancel_cases u e d)
      as [->|(registration & Hfirst & Hatt
              & [[_ ->]|(event & Hs & _ & ->)])]; [exact Hc| |].
    + apply first_by_user_event_some in Hfirst as (Hin & _).
      apply (checked_in_delete rid _ d registration); auto.
    + apply first_by_user_event_some in Hfirst as (Hin & _).
      destruct (Query.oldest_waitlist e d) as [w|] eqn:Hw.
      * apply oldest_waitlist_some in Hw as (Hinw & _ & Hws & _).
        apply (checked_in_delete rid _ _
                 (Query.rewrite_row (Registration.id w)
                    (Registration.set_status "confirmed") registration)).
        -- auto with store.
        -- right. split.
           ++ cbn [registrations Query.put_event set_events
                   Query.update_registration set_registrations].
              now apply List.in_map.
           ++ unfold Query.rewrite_row.
              now destruct (Registration.id registration =? Registration.id w).
        -- unfold Query.rewrite_row.
           now destruct (Registration.id registration =? Registration.id w).
        -- apply (checked_in_rows rid
                    (Query.update_registration (Registration.id w)
                       (Registration.set_status "confirmed") d)); [auto|].
           now apply checked_in_update.
      * apply (checked_in_delete rid _ _ registration); auto with store.
  - now apply checked_in_promote.
  - unfold EventService.update_event. repeat case_match; exact Hc.
  - unfold RegistrationService.mark_attendance.
    repeat case_match; try exact Hc. now apply checked_in_update.
  - unfold EventStatusService.update_event_status.
    repeat case_match; exact Hc.
  - unfold FirestoreSync._sqlite_update_event_status. case_match; exact Hc.
Qed.

(** A registration that was checked in stays in the store, checked in,
    through every sequence of registrations, cancellations, promotions,
    event edits and status changes: attendance is never undone and an
    attended registration is never cancelled. *)
Theorem checked_in_forever qs : forall d rid,
  unique_ids d -> checked_in rid d -> checked_in rid (run qs d).
Proof.
  induction qs as [|q qs IH]; simpl; intros d rid Hu Hc; [exact Hc|].
  apply IH; [now apply handle_unique|now apply handle_checked_in].
Qed.

Lemma checked_in_forever_witness :
  checked_in 1
    (run [CancelRegistration 21 1; ServiceCancel 21 1; Promote 1;
          RegisterEvent 22 1 40]
         (handle (MarkAttendance 1 30) one_confirmed)).
Proof.
  apply checked_in_forever.
  - apply check_unique_ids_sound. vm_compute. reflexivity.
  - eexists. split; [vm_compute; left; reflexivity|]. split; reflexivity.
Defined.

(** ** One registration per user and event *)

Lemma pairs_update rid f d :
  (forall r, Registration.user_id (f r) = Registration.user_id r) ->
  (forall r, Registration.event_id (f r) = Registration.event_id r) ->
  unique_pairs d -> unique_pairs (Query.update_registration rid f d).
Proof.
  intros Hu He. unfold unique_pairs, Query.update_registration.
  cbn [registrations set_registrations]. rewrite List.map_map.
  intros Hnd. erewrite List.map_ext; [exact Hnd|].
  intros r. unfold Query.rewrite_row.
  destruct (Registration.id r =? rid); [now rewrite Hu, He|reflexivity].
Qed.

Lemma nodup_map_filter {A B} (key : A -> B) (keep : A -> bool) rows :
  List.NoDup (List.map key rows) ->
  List.NoDup (List.map key (List.filter keep rows)).
Proof.
  induction rows as [|r rows IH]; simpl; intros Hnd; [constructor|].
  inversion Hnd as [|x l Hfresh Hnd']; subst x l.
  destruct (keep r); simpl; [|now apply IH].
  constructor; [|now apply IH].
  intros Hin. apply Hfresh.
  apply List.in_map_iff in Hin as (r' & Heq & Hr').
  apply List.filter_In in Hr' as [Hr' _].
  rewrite <- Heq. now apply List.in_map.
Qed.

Lemma pairs_delete rid d :
  unique_pairs d -> unique_pairs (Query.delete_registration rid d).
Proof. apply nodup_map_filter. Qed.

Lemma pairs_append u e ev us d r :
  Registration.user_id r = u -> Registration.event_id r = e ->
  unregistered u e d -> unique_pairs d ->
  unique_pairs (mkdb ev (registrations d ++ [r]) us).
Proof.
  intros Hu He Hfree Hnd. unfold unique_pairs. cbn [registrations].
  rewrite List.map_app. cbn [List.map].
  apply List.NoDup_app; [exact Hnd|repeat constructor; simpl; tauto|].
  intros pair Hin [<-|[]].
  apply List.in_map_iff in Hin as (r0 & Heq & Hr0).
  injection Heq as Hu0 He0. apply (Hfree r0 Hr0). split; congruence.
Qed.

Lemma pairs_promote e d :
  unique_pairs d ->
  unique_pairs (snd (WaitlistService.promote_from_waitlist e d)).
Proof.
  intros Hp.
  destruct (WaitlistService.promote_from_waitlist e d) as [[p|] d'] eqn:Hpr.
  - apply promote_some in Hpr as (event & w & _ & _ & _ & _ & ->). cbn [snd].
    now apply (pairs_update (Registration.id w)).
  - apply promote_none in Hpr as ->. exact Hp.
Qed.

Lemma handle_unique_pairs q d : unique_pairs d -> unique_pairs (handle q d).
Proof.
  intros Hp.
  destruct q as [u e now|u rid|u e now|u e|e| | | |]; cbn [handle].
  - destruct (register_event_cases u e now d)
      as [->|[(event & existing & _ & _ & _ & _ & ->)
         |[(event & _ & Hnone & _ & _ & ->)
          |(event & _ & Hnone & _ & _ & ->)]]]; [exact Hp| | |].
    + now apply (pairs_update (Registration.id existing)).
    + apply (pairs_append u e); auto using first_by_user_event_none.
    + apply (pairs_append u e); auto using first_by_user_event_none.
  - destruct (cancel_registration_cases u rid d)
      as [->|(registration & event & _ & _ & _ & _ & [[_ ->]|[_ ->]])];
      [exact Hp| |].
    + now apply pairs_delete.
    + apply pairs_promote. now apply (pairs_delete rid).
  - destruct (register_for_event_cases u e now d)
      as [->|(event & _ & Hnone & _ & _ & ->)]; [exact Hp|].
    apply (pairs_append u e); auto using first_by_user_event_none.
  - destruct (service_cancel_cases u e d)
      as [->|(registration & _ & _ & [[_ ->]|(event & _ & _ & ->)])];
      [exact Hp| |].
    + now apply pairs_delete.
    + apply pairs_delete. destruct (Query.oldest_waitlist e d) as [w|];
        [|exact Hp].
      now apply (pairs_update (Registration.id w)).
  - now apply pairs_promote.
  - unfold EventService.update_event. repeat case_match; exact Hp.
  - unfold RegistrationService.mark_attendance.
    repeat case_match; try exact Hp. now apply pairs_update.
  - unfold EventStatusService.update_event_status.
    repeat case_match; exact Hp.
  - unfold FirestoreSync._sqlite_update_event_status. case_match; exact Hp.
Qed.

(** At most one registration row relates a user to an event, and every
    sequence of requests keeps it so: a second registration of the same
    user for the same event never adds a row. *)
Theorem one_row_per_pair qs : forall d,
  unique_pairs d -> unique_pairs (run qs d).
Proof.
  induction qs as [|q qs IH]; simpl; intros d Hp; [exact Hp|].
  apply IH. now apply handle_unique_pairs.
Qed.

Lemma check_unique_pairs_sound d :
  check_unique_pairs d = true -> unique_pairs d.
Proof.
  unfold check_unique_pairs, unique_pairs. intros H.
  apply bool_decide_eq_true in H. now apply NoDup_ListNoDup.
Qed.

Lemma one_row_per_pair_witness :
  unique_pairs
    (run [RegisterEvent 21 1 10; RegisterEvent 21 1 11; ServiceRegister 21 1 12;
          RegisterEvent 22 1 13] one_seat).
Proof.
  apply one_row_per_pair. apply check_unique_pairs_sound.
  vm_compute. reflexivity.
Defined.

(** ** Registrations belong to events *)

Lemma referential_rows d d' :
  (forall k, events d !! k <> None -> events d' !! k <> None) ->
  (forall r, In r (registrations d') ->
     (exists r0, In r0 (registrations d)
        /\ Registration.event_id r = Registration.event_id r0)
     \/ events d' !! Registration.event_id r <> None) ->
  referential d -> referential d'.
Proof.
  intros Hdom Hrows Href r Hin.
  destruct (Hrows r Hin) as [(r0 & Hin0 & ->)|Hnew]; [|exact Hnew].
  apply Hdom. now apply Href.
Qed.

Lemma put_event_dom e event d k :
  events d !! k <> None -> events (Query.put_event e event d) !! k <> None.
Proof.
  intros Hk. rewrite lookup_put_event. now destruct (decide (e = k)).
Qed.

Lemma referential_put_event e event d :
  referential d -> referential (Query.put_event e event d).
Proof.
  apply referential_rows; [apply put_event_dom|]. intros r Hin. left. eauto.
Qed.

Lemma referential_update rid f d :
  (forall r, Registration.event_id (f r) = Registration.event_id r) ->
  referential d -> referential (Query.update_registration rid f d).
Proof.
  intros Hf. apply referential_rows; [auto|]. intros r Hin. left.
  apply List.in_map_iff in Hin as (r0 & <- & Hin0). exists r0.
  split; [exact Hin0|]. unfold Query.rewrite_row.
  destruct (Registration.id r0 =? rid); auto.
Qed.

Lemma referential_delete rid d :
  referential d -> referential (Query.delete_registration rid d).
Proof.
  apply referential_rows; [auto|]. intros r Hin. left.
  apply List.filter_In in Hin as [Hin _]. eauto.
Qed.

Lemma referential_append e us d r event ev' :
  Registration.event_id r = e ->
  events d !! e = Some event ->
  (ev' = events d \/ exists event', ev' = <[e := event']> (events d)) ->
  referential d -> referential (mkdb ev' (registrations d ++ [r]) us).
Proof.
  intros He Hev Hev'. apply referential_rows.
  - intros k Hk. cbn [events].
    destruct Hev' as [->|[event' ->]]; [exact Hk|].
    rewrite lookup_insert. now destruct (decide (e = k)).
  - intros r' Hin. cbn [registrations] in Hin.
    apply List.in_app_iff in Hin as [Hin|[<-|[]]]; [left; eauto|right].
    cbn [events]. rewrite He.
    destruct Hev' as [->|[event' ->]]; [now rewrite Hev|].
    rewrite lookup_insert. now destruct (decide (e = e)).
Qed.

Lemma referential_promote e d :
  referential d ->
  referential (snd (WaitlistService.promote_from_waitlist e d)).
Proof.
  intros Href.
  destruct (WaitlistService.promote_from_waitlist e d) as [[p|] d'] eqn:Hpr.
  - apply promote_some in Hpr as (event & w & _ & _ & _ & _ & ->). cbn [snd].
    apply referential_put_event. now apply referential_update.
  - apply promote_none in Hpr as ->. exact Href.
Qed.

Lemma handle_referential q d : referential d -> referential (handle q d).
Proof.
  intros Href.
  destruct q as [u e now|u rid|u e now|u e|e| | | |]; cbn [handle].
  - destruct (register_event_cases u e now d)
      as [->|[(event & existing & _ & _ & _ & _ & ->)
         |[(event & Hev & _ & _ & _ & ->)
          |(event & Hev & _ & _ & _ & ->)]]]; [exact Href| | |].
    + apply referential_put_event. now apply referential_update.
    + apply (referential_append e _ d _ event); auto.
    + apply (referential_append e _ d _ event); eauto.
  - destruct (cancel_registration_cases u rid d)
      as [->|(registration & event & _ & _ & _ & _ & [[_ ->]|[_ ->]])];
      [exact Href| |].
    + now apply referential_delete.
    + apply referential_promote, referential_delete.
      now apply referential_put_event.
  - destruct (register_for_event_cases u e now d)
      as [->|(event & Hev & _ & _ & _ & ->)]; [exact Href|].
    apply (referential_append e _ d _ event); eauto.
  - destruct (service_cancel_cases u e d)
      as [->|(registration & _ & _ & [[_ ->]|(event & _ & _ & ->)])];
      [exact Href| |].
    + now apply referential_delete.
    + apply referential_delete. destruct (Query.oldest_waitlist e d) as [w|].
      * apply referential_put_event, referential_update; [reflexivity|].
        now apply referential_put_event.
      * now apply referential_put_event.
  - now apply referential_promote.
  - unfold EventService.update_event.
    repeat case_match; try exact Href; now apply referential_put_event.
  - unfold RegistrationService.mark_attendance.
    repeat case_match; try exact Href. now apply referential_update.
  - unfold EventStatusService.update_event_status.
    repeat case_match; try exact Href; now apply referential_put_event.
  - unfold FirestoreSync._sqlite_update_event_status.
    case_match; [now apply referential_put_event|exact Href].
Qed.

Lemma run_referential qs : forall d, referential d -> referential (run qs d).
Proof.
  induction qs as [|q qs IH]; simpl; intros d Href; [exact Href|].
  apply IH. now apply handle_referential.
Qed.

Lemma check_referential_sound d : check_referential d = true -> referential d.
Proof.
  unfold check_referential, referential. intros H r Hin.
  rewrite List.forallb_forall in H. specialize (H r Hin).
  apply bool_decide_eq_true in H. destruct H as [event ->]. discriminate.
Qed.

(** No request leaves a registration without its event; so the
    cancellation route, which dereferences the event of the registration,
    never fails with a server error on a store reached from one without
    orphan registrations. *)
Theorem no_orphan_registrations qs d :
  referential d ->
  referential (run qs d)
  /\ forall u rid,
       fst (ParticipantRoutes.cancel_registration u rid (run qs d))
       <> ParticipantRoutes.internal_server_error.
Proof.
  intros Href. apply (run_referential qs) in Href. split; [exact Href|].
  intros u rid. unfold ParticipantRoutes.cancel_registration.
  destruct (Query.get_registration rid (run qs d)) as [registration|] eqn:Hreg;
    [|discriminate].
  destruct (negb _); [discriminate|].
  destruct (Registration.attended registration); [discriminate|].
  apply get_registration_some in Hreg as [Hin _].
  specialize (Href registration Hin). unfold Query.get_event.
  destruct (events (run qs d) !! Registration.event_id registration);
    [discriminate|contradiction].
Qed.

Lemma no_orphan_registrations_witness :
  referential (run scenario one_seat)
  /\ fst (ParticipantRoutes.cancel_registration 22 2 (run scenario one_seat))
     <> ParticipantRoutes.internal_server_error.
Proof.
  destruct (no_orphan_registrations scenario one_seat
              ltac:(apply check_referential_sound; vm_compute; reflexivity))
    as [Href Hcancel].
  split; [exact Href|exact (Hcancel 22 2)].
Defined.

(** ** Capacity *)

Lemma run_invariants qs : forall d,
  unique_ids d -> conserved d -> seats_nonneg d -> resizes_fit qs d ->
  unique_ids (run qs d) /\ conserved (run qs d) /\ seats_nonneg (run qs d).
Proof.
  induction qs as [|q qs IH]; simpl; intros d Hu Hc Hn Hfit; [auto|].
  destruct Hfit as [Hq Hqs].
  apply IH; auto using handle_unique, handle_conserved, handle_nonneg.
Qed.

(** Capacity is respected: starting from a store where the seats are
    conserved and no event is oversold, after any sequence of requests in
    which no resize goes below the confirmed registrations, no event has
    more confirmed registrations than [max_participants]. *)
Theorem capacity_respected qs d e event :
  unique_ids d -> conserved d -> seats_nonneg d -> resizes_fit qs d ->
  events (run qs d) !! e = Some event ->
  Query.count_by_event_status e "confirmed" (run qs d)
  <= Event.max_participants event.
Proof.
  intros Hu Hc Hn Hfit Hev.
  destruct (run_invariants qs d Hu Hc Hn Hfit) as (_ & Hc' & Hn').
  specialize (Hc' _ _ Hev). specialize (Hn' _ _ Hev). lia.
Qed.

Lemma capacity_respected_witness :
  Query.count_by_event_status 1 "confirmed" (run scenario one_seat) <= 3.
Proof.
  apply (capacity_respected scenario one_seat 1
           (Event.mk "Rust meetup" 200 3 2 100 false true true 10 0
              "active" None None None)).
  - apply check_unique_ids_sound. vm_compute. reflexivity.
  - apply check_conserved_sound. vm_compute. reflexivity.
  - apply check_seats_nonneg_sound. vm_compute. reflexivity.
  - simpl. repeat split; vm_compute; reflexivity.
  - vm_compute. reflexivity.
Defined.

(** ** Successive promotions *)

(** Promotions come out in the order of creation: a registration promoted
    after another one, from the same rows, was not created before it. *)
Theorem promotions_in_order e d r1 d1 d1' r2 d2 :
  WaitlistService.promote_from_waitlist e d = (Some r1, d1) ->
  registrations d1' = registrations d1 ->
  WaitlistService.promote_from_waitlist e d1' = (Some r2, d2) ->
  Registration.created_at r1 <= Registration.created_at r2
  /\ Registration.id r1 <> Registration.id r2.
Proof.
  intros H1 Hrows H2.
  apply promote_some in H1 as (ev1 & w1 & _ & _ & Hw1 & -> & ->).
  apply promote_some in H2 as (ev2 & w2 & _ & _ & Hw2 & -> & _).
  apply oldest_waitlist_some in Hw1 as (Hin1 & He1 & Hs1 & Hmin).
  apply oldest_waitlist_some in Hw2 as (Hin2 & He2 & Hs2 & _).
  rewrite Hrows in Hin2.
  cbn [registrations Query.put_event set_events Query.update_registration
       set_registrations] in Hin2.
  apply List.in_map_iff in Hin2 as (w0 & Hw0 & Hin0).
  unfold Query.rewrite_row in Hw0.
  destruct (Z.eqb_spec (Registration.id w0) (Registration.id w1)) as [Hid|Hne].
  - rewrite <- Hw0 in Hs2. discriminate Hs2.
  - subst w0. cbn [Registration.created_at Registration.set_status
                   Registration.id].
    split; [now apply Hmin|congruence].
Qed.

Lemma promotions_in_order_witness :
  exists r1 r2,
    Registration.id r1 = 4 /\ Registration.id r2 = 5
    /\ Registration.created_at r1 <= Registration.created_at r2.
Proof.
  pose (r1 := Registration.set_status "confirmed"
                (sample_registration 4 23 1 "waitlist" 3)).
  pose (r2 := Registration.set_status "confirmed"
                (sample_registration 5 24 1 "waitlist" 4)).
  pose (d1 := snd (WaitlistService.promote_from_waitlist 1 seat_released)).
  pose (d1' := Query.put_event 1 (sample_event 2 1 true) d1).
  exists r1, r2. split; [reflexivity|]. split; [reflexivity|].
  apply (promotions_in_order 1 seat_released r1 d1 d1' r2
           (snd (WaitlistService.promote_from_waitlist 1 d1'))).
  - vm_compute. reflexivity.
  - reflexivity.
  - vm_compute. reflexivity.
Defined.

(** ** Creating and deleting events *)

Lemma next_event_id_above (m : gmap Z Event.t) k v :
  m !! k = Some v -> k < EventWrites.next_event_id m.
Proof.
  intros H. apply elem_of_map_to_list in H. unfold EventWrites.next_event_id.
  induction (map_to_list m) as [|[k' v'] l IH]; [inversion H|].
  simpl. apply elem_of_cons in H as [[= <- <-]|H]; [lia|].
  specialize (IH H). lia.
Qed.

Lemma next_event_id_fresh (m : gmap Z Event.t) :
  m !! EventWrites.next_event_id m = None.
Proof.
  destruct (m !! EventWrites.next_event_id m) eqn:H; [|reflexivity].
  apply next_event_id_above in H. lia.
Qed.

(** Selecting after a filter that keeps every selected row. *)
Lemma filter_filter_implied {A} (P Q : A -> bool) rows :
  (forall r, P r = true -> Q r = true) ->
  List.filter P (List.filter Q rows) = List.filter P rows.
Proof.
  intros HPQ. induction rows as [|r rows IH]; [reflexivity|].
  cbn [List.filter]. destruct (Q r) eqn:HQ; cbn [List.filter].
  - now rewrite IH.
  - destruct (P r) eqn:HP; [|exact IH]. apply HPQ in HP. congruence.
Qed.

Lemma filter_none {A} (P : A -> bool) rows :
  (forall r, In r rows -> P r = false) -> List.filter P rows = [].
Proof.
  induction rows as [|r rows IH]; intros H; [reflexivity|].
  cbn [List.filter]. rewrite (H r) by now left.
  apply IH. intros r' Hin. apply H. now right.
Qed.

(** No row of the event is left when nothing refers to it. *)
Lemma filter_unreferenced e d :
  events d !! e = None -> referential d ->
  List.filter (fun r => negb (Registration.event_id r =? e)) (registrations d)
  = registrations d.
Proof.
  intros Hnone Href. unfold referential in Href.
  induction (registrations d) as [|r rows IH]; [reflexivity|].
  cbn [List.filter].
  destruct (Z.eqb_spec (Registration.event_id r) e) as [Heq|Hne]; cbn [negb].
  - exfalso. apply (Href r); [now left|]. now rewrite Heq.
  - f_equal. apply IH. intros r' Hin. apply Href. now right.
Qed.

Lemma delete_event_store e o d event :
  Query.get_event e d = Some event -> Event.organizer_id event = o ->
  EventWrites.delete_event e o d
  = ((true, "Event deleted successfully"),
     mkdb (delete e (events d))
          (List.filter (fun r => negb (Registration.event_id r =? e))
                       (registrations d))
          (users d)).
Proof.
  intros Hev Ho. unfold EventWrites.delete_event. rewrite Hev.
  apply Z.eqb_eq in Ho. now rewrite Ho.
Qed.

(** [delete_event] by the organizer of the event cascades: the event is
    gone and so is every registration of it, while the other events and
    their registrations are as before. *)
Theorem delete_event_cascade e o d event :
  Query.get_event e d = Some event -> Event.organizer_id event = o ->
  let d' := snd (EventWrites.delete_event e o d) in
  fst (EventWrites.delete_event e o d) = (true, "Event deleted successfully")
  /\ Query.get_event e d' = None
  /\ (forall r, In r (registrations d') -> Registration.event_id r <> e)
  /\ (forall r, In r (registrations d) -> Registration.event_id r <> e ->
        In r (registrations d'))
  /\ (forall e', e' <> e ->
        Query.get_event e' d' = Query.get_event e' d
        /\ forall s, Query.count_by_event_status e' s d'
                     = Query.count_by_event_status e' s d).
Proof.
  intros Hev Ho. rewrite (delete_event_store e o d event Hev Ho).
  cbn [fst snd]. split; [reflexivity|].
  unfold Query.get_event, Query.count_by_event_status. cbn [events registrations].
  split; [apply lookup_delete_eq|].
  split.
  { intros r Hin. apply List.filter_In in Hin as [_ Hne].
    destruct (Z.eqb_spec (Registration.event_id r) e); [discriminate|easy]. }
  split.
  { intros r Hin Hne. apply List.filter_In. split; [exact Hin|].
    destruct (Z.eqb_spec (Registration.event_id r) e); [contradiction|easy]. }
  intros e' Hne. split; [now apply lookup_delete_ne|].
  intros s. unfold Query.count_rows. rewrite filter_filter_implied; [reflexivity|].
  intros r Hsel. unfold Query.has_event_status in Hsel.
  apply andb_prop in Hsel as [He' _]. apply Z.eqb_eq in He'. rewrite He'.
  destruct (Z.eqb_spec e' e); [contradiction|reflexivity].
Qed.

Lemma delete_event_cascade_witness :
  Query.get_event 1 (snd (EventWrites.delete_event 1 10 waitlist_abc)) = None
  /\ registrations (snd (EventWrites.delete_event 1 10 waitlist_abc)) = [].
Proof.
  destruct (delete_event_cascade 1 10 waitlist_abc (sample_event 2 0 true)
              ltac:(reflexivity) ltac:(reflexivity)) as (_ & Hgone & _).
  split; [exact Hgone|vm_compute; reflexivity].
Defined.

(** [delete_event], whether it deletes or refuses, keeps the store
    consistent: unique keys, one row per user and event, no registration
    without its event, seats conserved and none oversold. *)
Theorem delete_event_keeps_invariants e o d :
  unique_ids d -> unique_pairs d -> referential d -> conserved d ->
  seats_nonneg d ->
  let d' := snd (EventWrites.delete_event e o d) in
  unique_ids d' /\ unique_pairs d' /\ referential d' /\ conserved d'
  /\ seats_nonneg d'.
Proof.
  intros Hu Hp Href Hc Hn. unfold EventWrites.delete_event.
  destruct (Query.get_event e d) as [event|] eqn:Hev; [|now cbn [snd]].
  destruct (negb _); [now cbn [snd]|]. cbn [snd].
  split; [now apply nodup_map_filter|].
  split; [now apply nodup_map_filter|].
  split.
  { intros r Hin. cbn [events registrations] in *.
    apply List.filter_In in Hin as [Hin Hne].
    destruct (Z.eqb_spec (Registration.event_id r) e); [discriminate|].
    rewrite lookup_delete_ne by congruence. now apply Href. }
  split.
  - intros e' event' Hev'. cbn [events] in Hev'.
    apply lookup_delete_Some in Hev' as [Hne Hev'].
    rewrite (Hc _ _ Hev'). f_equal.
    unfold Query.count_by_event_status, Query.count_rows. cbn [registrations].
    rewrite filter_filter_implied; [reflexivity|].
    intros r Hsel. unfold Query.has_event_status in Hsel.
    apply andb_prop in Hsel as [He' _]. apply Z.eqb_eq in He'. rewrite He'.
    destruct (Z.eqb_spec e' e); [congruence|reflexivity].
  - intros e' event' Hev'. cbn [events] in Hev'.
    apply lookup_delete_Some in Hev' as [_ Hev']. exact (Hn _ _ Hev').
Qed.

Lemma delete_event_keeps_invariants_witness :
  conserved (snd (EventWrites.delete_event 1 10 second_event))
  /\ referential (snd (EventWrites.delete_event 1 10 second_event)).
Proof.
  destruct (delete_event_keeps_invariants 1 10 second_event
              ltac:(apply check_unique_ids_sound; vm_compute; reflexivity)
              ltac:(apply check_unique_pairs_sound; vm_compute; reflexivity)
              ltac:(apply check_referential_sound; vm_compute; reflexivity)
              ltac:(apply check_conserved_sound; vm_compute; reflexivity)
              ltac:(apply check_seats_nonneg_sound; vm_compute; reflexivity))
    as (_ & _ & Href & Hc & _).
  split; [exact Hc|exact Href].
Defined.

(** [create_event] gives the new event a key that no event has, leaves the
    other events and every registration as they are, and keeps the seats
    conserved: the new event starts with every seat free and no
    registration. *)
Theorem create_event_fresh o title date deadline m paid w now d :
  referential d -> conserved d ->
  exists event_id event,
    EventWrites.create_event o title date deadline m paid w now d
    = ((Some (event_id, event), None), Query.put_event event_id event d)
    /\ Query.get_event event_id d = None
    /\ Event.available_seats event = m
    /\ Event.max_participants event = m
    /\ Event.status event = "active"
    /\ (forall s, Query.count_by_event_status event_id s d = 0)
    /\ (forall e' event', Query.get_event e' d = Some event' ->
          Query.get_event e' (Query.put_event event_id event d) = Some event')
    /\ referential (Query.put_event event_id event d)
    /\ conserved (Query.put_event event_id event d).
Proof.
  intros Href Hc. eexists _, _. split; [reflexivity|].
  pose proof (next_event_id_fresh (events d)) as Hfresh.
  assert (Hcount : forall s,
            Query.count_by_event_status (EventWrites.next_event_id (events d))
              s d = 0).
  { intros s. unfold Query.count_by_event_status, Query.count_rows.
    rewrite filter_none; [reflexivity|]. intros r Hin.
    unfold Query.has_event_status.
    destruct (Z.eqb_spec (Registration.event_id r)
                (EventWrites.next_event_id (events d))) as [Heq|]; [|reflexivity].
    exfalso. apply (Href r Hin). now rewrite Heq. }
  split; [exact Hfresh|]. do 3 (split; [reflexivity|]).
  split; [exact Hcount|].
  split.
  { intros e' event' Hev'. unfold Query.get_event in *.
    rewrite lookup_put_event. destruct (decide _) as [<-|]; [congruence|easy]. }
  split; [now apply referential_put_event|].
  intros e' event'. rewrite lookup_put_event, count_put_event.
  destruct (decide _) as [<-|].
  - intros [= <-]. cbn [Event.available_seats Event.max_participants].
    rewrite Hcount. lia.
  - apply Hc.
Qed.

Lemma create_event_fresh_witness :
  conserved second_event /\ Query.get_event 2 second_event <> None.
Proof.
  destruct (create_event_fresh 11 "Go meetup" 300 250 20 true false 50
              one_confirmed
              ltac:(apply check_referential_sound; vm_compute; reflexivity)
              ltac:(apply check_conserved_sound; vm_compute; reflexivity))
    as (event_id & event & Hcreate & _ & _ & _ & _ & _ & _ & _ & Hc).
  unfold second_event. rewrite Hcreate. cbn [snd].
  split; [exact Hc|].
  apply (f_equal snd) in Hcreate. cbn [snd] in Hcreate. rewrite <- Hcreate.
  vm_compute. discriminate.
Defined.

(** Creating an event and deleting it again, as its organizer, gives the
    store back: nothing else was touched in between. *)
Theorem create_then_delete o title date deadline m paid w now d :
  referential d ->
  forall event_id event d',
    EventWrites.create_event o title date deadline m paid w now d
    = ((Some (event_id, event), None), d') ->
    EventWrites.delete_event event_id o d'
    = ((true, "Event deleted successfully"), d).
Proof.
  intros Href event_id event d'. unfold EventWrites.create_event.
  intros [= <- <- <-].
  pose proof (next_event_id_fresh (events d)) as Hfresh.
  erewrite delete_event_store; cycle 1.
  { unfold Query.get_event. rewrite lookup_put_event.
    destruct (decide _); [reflexivity|contradiction]. }
  { reflexivity. }
  f_equal. unfold Query.put_event, set_events. cbn [events registrations users].
  rewrite delete_insert_eq, delete_id by exact Hfresh.
  rewrite filter_unreferenced by assumption. now destruct d.
Qed.

Lemma create_then_delete_witness :
  EventWrites.delete_event 2 11 second_event
  = ((true, "Event deleted successfully"), one_confirmed).
Proof.
  apply (create_then_delete 11 "Go meetup" 300 250 20 true false 50
           one_confirmed
           ltac:(apply check_referential_sound; vm_compute; reflexivity)
           2 (Event.mk "Go meetup" 300 20 20 250 true false true 11 50
                "active" None None None)).
  vm_compute. reflexivity.
Defined.

(** ** The [is_active] flag *)

Lemma set_is_active_same event :
  Event.set_is_active (Event.is_active event) event = event.
Proof. now destruct event. Qed.


Lemma put_event_same e event d :
  Query.get_event e d = Some event -> Query.put_event e event d = d.
Proof.
  intros Hev. unfold Query.put_event, set_events.
  rewrite insert_id by exact Hev. now destruct d.
Qed.




(** [register_event] does not read [is_active]: on an event that was
    toggled (deactivated, say) the route gives the same answer, writes the
    same registrations and leaves the same number of free seats. *)
Theorem register_ignores_is_active u e now d :
  let toggled := snd (EventWrites.toggle_event_status e d) in
  fst (ParticipantRoutes.register_event u e now toggled)
  = fst (ParticipantRoutes.register_event u e now d)
  /\ registrations (snd (ParticipantRoutes.register_event u e now toggled))
     = registrations (snd (ParticipantRoutes.register_event u e now d))
  /\ seats_of e (snd (ParticipantRoutes.register_event u e now toggled))
     = seats_of e (snd (ParticipantRoutes.register_event u e now d)).
Proof.
  unfold EventWrites.toggle_event_status.
  destruct (Query.get_event e d) as [event|] eqn:Hev; cbn [snd]; [|auto].
  unfold ParticipantRoutes.register_event, Query.get_event.
  rewrite lookup_put_event. destruct (decide (e = e)); [|contradiction].
  unfold Query.get_event in Hev. rewrite Hev.
  change (ParticipantRoutes.event_status (Event.set_is_active _ event))
    with (ParticipantRoutes.event_status event).
  destruct (_ || _); [cbn [fst snd]; unfold seats_of, Query.get_event;
                      rewrite lookup_put_event, Hev;
                      destruct (decide (e = e)); [auto|contradiction]|].
  change (Query.first_by_user_event u e (Query.put_event e _ d))
    with (Query.first_by_user_event u e d).
  cbn [Event.available_seats Event.set_is_active Event.registration_deadline
       Event.allow_waitlist].
  assert (Hsame : forall d0 : db,
            events d0 !! e = Some event ->
            seats_of e (Query.put_event e
                          (Event.set_is_active (negb (Event.is_active event))
                             event) d0)
            = seats_of e d0).
  { intros d0 H0. unfold seats_of, Query.get_event.
    rewrite lookup_put_event, H0. now destruct (decide (e = e)). }
  destruct (Query.first_by_user_event u e d) as [existing|].
  - destruct (String.eqb (Registration.status existing) "cancelled");
      [|cbn [fst snd]; auto].
    destruct (Event.available_seats event <=? 0); [cbn [fst snd]; auto|].
    cbn [fst snd]. repeat split.
    unfold seats_of, Query.get_event, Query.update_registration,
      set_registrations. cbn [events].
    now rewrite !lookup_put_event; destruct (decide (e = e)).
  - destruct (now >? Event.registration_deadline event);
      [cbn [fst snd]; auto|].
    destruct (Event.available_seats event <=? 0) eqn:Hfull.
    + destruct (Event.allow_waitlist event); [|cbn [fst snd]; auto].
      unfold Query.insert. cbn [fst snd]. repeat split.
      unfold seats_of, Query.get_event, set_registrations. cbn [events].
      rewrite lookup_put_event, Hev. now destruct (decide (e = e)).
    + unfold Query.decrement_available_seats.
      rewrite lookup_put_event, Hev. destruct (decide (e = e)); [|contradiction].
      cbn [Event.available_seats Event.set_is_active].
      destruct (0 <? Event.available_seats event); cbn [Z.eqb Pos.eqb];
        [|cbn [fst snd]; auto].
      unfold Query.insert. cbn [fst snd]. repeat split.
      unfold seats_of, Query.get_event, Query.update_registration,
        set_registrations. cbn [events registrations].
      now rewrite !lookup_put_event; destruct (decide (e = e)).
Qed.

(** ** The status of an event and the registration gate *)

(** After [update_event_status] succeeded, the fallback of the mirror
    finds nothing to change for 'active' and 'cancelled'; for 'postponed'
    it changes the event row. *)
Theorem fallback_agrees e s reason p now d msg d' :
  EventStatusService.update_event_status e s reason p now d
  = ((true, msg), d') ->
  (s <> "postponed" ->
   FirestoreSync._sqlite_update_event_status e s d' = d')
  /\ (s = "postponed" ->
      Query.get_event e (FirestoreSync._sqlite_update_event_status e s d')
      <> Query.get_event e d').
Proof.
  intros Hup.
  destruct (update_event_status_cases e s reason p now d)
    as [[H _]|[[H _]|[[H _]|H]]];
    try (rewrite H in Hup; discriminate Hup).
  destruct H as (event & event' & Hev & Hin & Hdate & H & _ & _ & _ & _
                 & Hcancelled & Hactive & Hpostponed).
  rewrite H in Hup. injection Hup as _ <-.
  assert (Hev' : Query.get_event e (Query.put_event e event' d) = Some event').
  { unfold Query.get_event. rewrite lookup_put_event.
    now destruct (decide (e = e)). }
  unfold FirestoreSync._sqlite_update_event_status. rewrite Hev'.
  split.
  - intros Hne.
    assert (Hflag : Event.is_active event' = String.eqb s "active").
    { destruct Hin as [<-|[<-|[<-|[]]]].
      - now destruct (Hactive eq_refl) as (-> & _).
      - now destruct (Hcancelled eq_refl) as (-> & _).
      - contradiction. }
    rewrite <- Hflag, set_is_active_same. now apply put_event_same.
  - intros ->. destruct (Hdate eq_refl) as [date ->].
    destruct (Hpostponed date eq_refl eq_refl) as (Hflag & _).
    unfold Query.get_event. rewrite !lookup_put_event.
    destruct (decide (e = e)); [|contradiction].
    intros [= Heq]. apply (f_equal Event.is_active) in Heq.
    cbn [Event.is_active Event.set_is_active String.eqb Ascii.eqb Bool.eqb]
      in Heq.
    congruence.
Qed.

Lemma fallback_agrees_witness :
  FirestoreSync._sqlite_update_event_status 1 "cancelled" cancelled_store
  = cancelled_store.
Proof.
  apply (fallback_agrees 1 "cancelled" (Some "venue closed") None 5
           five_seats "'Rust meetup' has been cancelled. All registrants will be notified."
           cancelled_store).
  - vm_compute. reflexivity.
  - discriminate.
Defined.

(** Once [update_event_status] has cancelled or postponed an event, the
    registration route refuses every user and writes nothing; once it has
    re-activated the event, the route no longer answers with that refusal. *)
Theorem status_gates_registration e s reason p now d msg d' u t :
  EventStatusService.update_event_status e s reason p now d
  = ((true, msg), d') ->
  (s = "cancelled" \/ s = "postponed" ->
   ParticipantRoutes.register_event u e t d'
   = (ParticipantRoutes.redirect
        "Cannot register — this event has been cancelled or postponed."
        "error" (ParticipantRoutes.event_details e), d'))
  /\ (s = "active" ->
      fst (ParticipantRoutes.register_event u e t d')
      <> ParticipantRoutes.redirect
           "Cannot register — this event has been cancelled or postponed."
           "error" (ParticipantRoutes.event_details e)).
Proof.
  intros Hup.
  destruct (update_event_status_cases e s reason p now d)
    as [[H _]|[[H _]|[[H _]|H]]];
    try (rewrite H in Hup; discriminate Hup).
  destruct H as (event & event' & Hev & _ & _ & H & Hstatus & _).
  rewrite H in Hup. injection Hup as _ <-.
  assert (Hev' : Query.get_event e (Query.put_event e event' d) = Some event').
  { unfold Query.get_event. rewrite lookup_put_event.
    now destruct (decide (e = e)). }
  split.
  - intros Hs. apply (register_event_status_gate u e t _ event' Hev').
    rewrite Hstatus. exact Hs.
  - intros ->. unfold ParticipantRoutes.register_event. rewrite Hev'.
    unfold ParticipantRoutes.event_status. rewrite Hstatus.
    cbn [String.eqb Ascii.eqb Bool.eqb orb].
    destruct (Query.first_by_user_event u e _) as [existing|].
    + destruct (String.eqb _ _); [|discriminate].
      destruct (_ <=? _); discriminate.
    + destruct (_ >? _); [discriminate|].
      destruct (_ <=? _).
      * destruct (Event.allow_waitlist event'); [|discriminate].
        destruct (Query.insert _ _). discriminate.
      * destruct (Query.decrement_available_seats _ _) as [rowcount d1].
        destruct (rowcount =? 0); [discriminate|].
        destruct (Query.insert _ _). discriminate.
Qed.

Lemma status_gates_registration_witness :
  ParticipantRoutes.register_event 21 1 10 cancelled_store
  = (ParticipantRoutes.redirect
       "Cannot register — this event has been cancelled or postponed."
       "error" (ParticipantRoutes.event_details 1), cancelled_store).
Proof.
  apply (status_gates_registration 1 "cancelled" (Some "venue closed") None 5
           five_seats "'Rust meetup' has been cancelled. All registrants will be notified."
           cancelled_store 21 10).
  - vm_compute. reflexivity.
  - now left.
Defined.

(** ** What a registration leaves alone *)

(** [register_event] for a user and an event touches nothing but the row of
    that user for that event and the seats of that event: the rows of other
    users and of other events are the same before and after, and so are the
    other events. *)
Theorem register_touches_own_row u e now d :
  unique_ids d ->
  let d' := snd (ParticipantRoutes.register_event u e now d) in
  (forall r,
     Registration.user_id r <> u \/ Registration.event_id r <> e ->
     (In r (registrations d') <-> In r (registrations d)))
  /\ (forall e', e' <> e -> Query.get_event e' d' = Query.get_event e' d)
  /\ users d' = users d.
Proof.
  intros Hu. cbn zeta.
  destruct (register_event_cases u e now d)
    as [->|[(event & existing & _ & Hex & _ & _ & ->)
           |[(event & _ & _ & _ & _ & ->)|(event & _ & _ & _ & _ & ->)]]].
  - repeat split; auto.
  - apply first_by_user_event_some in Hex as (Hin & Huser & Hevent).
    split; [|split; [|reflexivity]].
    + intros r Hother.
      cbn [registrations Query.put_event set_events Query.update_registration
           set_registrations].
      split.
      * intros Hr. apply in_rewrite in Hr as [Hr|(r0 & Hin0 & Hid & ->)];
          [exact Hr|].
        exfalso.
        assert (r0 = existing) as -> by (eapply unique_row; eauto).
        cbn [Registration.user_id Registration.event_id
             Registration.set_qr_code Registration.set_payment_status
             Registration.set_status] in Hother.
        destruct Hother; contradiction.
      * intros Hr. apply in_rewrite_other; [exact Hr|].
        intros Hid.
        assert (r = existing) as -> by (eapply unique_row; eauto).
        destruct Hother; contradiction.
    + intros e' Hne. unfold Query.get_event. rewrite lookup_put_event.
      destruct (decide (e = e')); [congruence|reflexivity].
  - split; [|split; [|reflexivity]]; [|reflexivity].
    intros r Hother. cbn [registrations]. rewrite List.in_app_iff.
    split; [|now left].
    intros [Hr|[<-|[]]]; [exact Hr|].
    cbn [Registration.user_id Registration.event_id] in Hother.
    destruct Hother; contradiction.
  - split; [|split; [|reflexivity]].
    + intros r Hother. cbn [registrations]. rewrite List.in_app_iff.
      split; [|now left].
      intros [Hr|[<-|[]]]; [exact Hr|].
      cbn [Registration.user_id Registration.event_id] in Hother.
      destruct Hother; contradiction.
    + intros e' Hne. unfold Query.get_event. cbn [events].
      apply lookup_insert_ne. congruence.
Qed.

Lemma register_touches_own_row_witness :
  In (sample_registration 2 22 1 "confirmed" 3)
     (registrations (snd (ParticipantRoutes.register_event 21 1 10
                            returning_user))).
Proof.
  destruct (register_touches_own_row 21 1 10 returning_user
              ltac:(apply check_unique_ids_sound; vm_compute; reflexivity))
    as (Hrows & _).
  apply (Hrows (sample_registration 2 22 1 "confirmed" 3)).
  - left. discriminate.
  - right. left. reflexivity.
Defined.

(** ** The ticket of a promoted attendee *)

(** A promoted attendee holds a ticket that the scanner refuses: for the
    registration that a promotion confirms, the payload that the waitlist
    service encodes is refused as malformed, although the payload of the
    participant routes for the same registration is verified to it. *)
Theorem promoted_qr_rejected int e d r d' :
  (forall n, 0 <= n -> int (pretty n) = Some n) ->
  unique_ids d ->
  WaitlistService.promote_from_waitlist e d = (Some r, d') ->
  0 <= Registration.id r -> 0 <= Registration.user_id r ->
  0 <= Registration.event_id r ->
  Qr.verify_qr_code int (Qr.promoted_qr_data r) d'
  = (None, Some "Invalid QR code format")
  /\ Qr.verify_qr_code int
       (Qr.qr_data (Registration.id r) (Registration.event_id r)
          (Registration.user_id r)) d'
     = (Some r, None).
Proof.
  intros Hint Hu Hp Hid Huser Hevent. split; [reflexivity|].
  assert (Hu' : unique_ids d').
  { pose proof (promote_unique e d Hu) as H. now rewrite Hp in H. }
  apply promote_some in Hp as (event & w & _ & _ & Hw & -> & ->).
  apply oldest_waitlist_some in Hw as (Hin & _).
  rewrite verify_printed_payload; try assumption; [reflexivity|].
  cbn [registrations Query.put_event set_events Query.update_registration
       set_registrations].
  now apply in_rewritten.
Qed.

Lemma promoted_qr_rejected_witness :
  Qr.verify_qr_code PyStr.parse_decimal "EVENTHUB-REG-4-EVENT-1-USER-23"
    (snd (WaitlistService.promote_from_waitlist 1 seat_released))
  = (None, Some "Invalid QR code format")
  /\ fst (Qr.verify_qr_code PyStr.parse_decimal "REG-4-23-1"
           (snd (WaitlistService.promote_from_waitlist 1 seat_released)))
     <> None.
Proof.
  destruct (promoted_qr_rejected PyStr.parse_decimal 1 seat_released
              (Registration.set_status "confirmed"
                 (sample_registration 4 23 1 "waitlist" 3))
              (snd (WaitlistService.promote_from_waitlist 1 seat_released))
              parse_decimal_pretty
              ltac:(apply check_unique_ids_sound; vm_compute; reflexivity)
              ltac:(vm_compute; reflexivity)
              ltac:(simpl; lia) ltac:(simpl; lia) ltac:(simpl; lia))
    as [Hrefused Haccepted].
  split; [exact Hrefused|].
  change "REG-4-23-1" with (Qr.qr_data 4 1 23).
  change (Qr.qr_data 4 1 23)
    with (Qr.qr_data
            (Registration.id (Registration.set_status "confirmed"
                                (sample_registration 4 23 1 "waitlist" 3)))
            (Registration.event_id (Registration.set_status "confirmed"
                                (sample_registration 4 23 1 "waitlist" 3)))
            (Registration.user_id (Registration.set_status "confirmed"
                                (sample_registration 4 23 1 "waitlist" 3)))).
  rewrite Haccepted. discriminate.
Defined.
